(** * getdist/densities.py: contour levels and credible intervals of binned densities

    A shallow embedding of [python/getdist/densities.py] and the properties
    of its contour-level solver, its density grids and its 1D limit search.

    Numbers.  numpy's float64 values are idealised as rationals ([Q]), with
    exact arithmetic; statements about values are up to [Qeq] ([==]).  A
    division by zero, which numpy answers with [inf] or [nan] and a
    RuntimeWarning, leaves the rationals: the model stops there with the
    outcome [NonFinite], which says nothing of what the code goes on to
    return.  Python integers are [Z] (or [nat] for sizes and positions
    that cannot be negative).

    Arrays.  An ndarray is its shape and its elements in C order, and its
    dtype is float64, as it is for the densities that getdist builds.  On
    an array of an integer dtype [a[...] /= 2] is another operation, which
    [ndarray] does not cover: [getContourLevels_int64] has it for one
    dimension.  Arrays that the code mutates in place live in a store
    ([gmap loc ndarray]), so that an alias and a copy are different
    things. *)

From Stdlib Require Import QArith Qminmax Lqa ZArith List Lia Sorted Permutation.
From stdpp Require Import gmap list strings.

Local Open Scope Q_scope.

(** ** Outcomes of a computation *)

(** The messages of the [DensitiesError]s that the module raises. *)
Inductive densities_msg : Type :=
  | ContourOutsideRange            (* "Contour level outside plotted ranges" *)
  | NoSamplesInBin                 (* 'no samples in bin' *)
  | UnknownNormalization           (* "Density: unknown normalization" *)
  | ArraySizeMismatch (size axsize : nat).
                                   (* "Array size mismatch in Density arrays: P %s, axis %s" *)

Inductive exn : Type :=
  | DensitiesError (msg : densities_msg)
  | IndexError
  | ValueError
  | ZeroDivisionError.

(** [Ok a]: the code returns [a].  [Raise e]: the code raises [e].
    [NonFinite]: a division by zero happened, numpy goes on with [inf] or
    [nan], values that the rationals do not have. *)
Inductive result (A : Type) : Type :=
  | Ok (a : A)
  | Raise (e : exn)
  | NonFinite.
Arguments Ok {A} a.
Arguments Raise {A} e.
Arguments NonFinite {A}.

#[global] Instance result_ret : MRet result := fun A a => Ok a.
#[global] Instance result_bind : MBind result := fun A B f m =>
  match m with
  | Ok a => f a
  | Raise e => Raise e
  | NonFinite => NonFinite
  end.

(** A loop that computes one value per element and stops at the first
    failure. *)
Fixpoint for_each {A B : Type} (f : A -> result B) (l : list A) : result (list B) :=
  match l with
  | [] => Ok []
  | a :: l' => b ← f a; bs ← for_each f l'; Ok (b :: bs)
  end.

(** ** numpy *)

Module np.

Definition ltb (a b : Q) : bool := negb (Qle_bool b a).
Definition geb (a b : Q) : bool := Qle_bool b a.
Definition gtb (a b : Q) : bool := negb (Qle_bool a b).

(** [a / b] on float64: no exception, a non-finite value when [b] is 0. *)
Definition div (a b : Q) : result Q :=
  if Qeq_bool b 0 then NonFinite else Ok (a / b).

(** [l[i]] for an integer [i]: negative positions count from the end. *)
Definition get {A : Type} (l : list A) (i : Z) : result A :=
  let n := Z.of_nat (length l) in
  let j := if (i <? 0)%Z then (i + n)%Z else i in
  if ((0 <=? j)%Z && (j <? n)%Z)%bool
  then match l !! Z.to_nat j with Some a => Ok a | None => Raise IndexError end
  else Raise IndexError.

(** [l[1:-1]] *)
Definition inner {A : Type} (l : list A) : list A := removelast (tl l).

Definition sum (l : list Q) : Q := fold_right Qplus 0 l.

(** [np.max]: refuses an empty array. *)
Definition max (l : list Q) : result Q :=
  match l with
  | [] => Raise ValueError
  | v :: l' => Ok (fold_left Qmax l' v)
  end.

(** [np.arange(n)] *)
Definition arange (n : Z) : list Z := map Z.of_nat (seq 0 (Z.to_nat n)).

Fixpoint cumsum_from (acc : Q) (l : list Q) : list Q :=
  match l with
  | [] => []
  | v :: l' => (acc + v) :: cumsum_from (acc + v) l'
  end.
Definition cumsum (l : list Q) : list Q := cumsum_from 0 l.

(** [np.searchsorted(a, v)] (side 'left') on an ascending [a]: the number
    of elements below [v], that is, the first position [i] with
    [v <= a[i]], and [len(a)] when there is none. *)
Fixpoint searchsorted (a : list Q) (v : Q) : nat :=
  match a with
  | [] => 0
  | x :: a' => if ltb x v then S (searchsorted a' v) else 0
  end.

(** Sorting.  [argsort] gives the positions of the elements in ascending
    order of the values; equal values keep their order (numpy's default
    sort leaves the order of equal values to the implementation). *)
Fixpoint insert_by {A : Type} (key : A -> Q) (a : A) (l : list A) : list A :=
  match l with
  | [] => [a]
  | b :: l' => if Qle_bool (key a) (key b) then a :: l else b :: insert_by key a l'
  end.
Definition sort_by {A : Type} (key : A -> Q) (l : list A) : list A :=
  fold_right (insert_by key) [] l.
(** The order that [sort_by] puts its result in. *)
Definition key_le {A : Type} (key : A -> Q) (a b : A) : Prop := key a <= key b.

Definition sort (l : list Q) : list Q := sort_by (fun v => v) l.
Definition argsort (l : list Q) : list nat :=
  sort_by (fun i => nth i l 0) (seq 0 (length l)).

(** [bins[indexes]]: a new array with the elements at these positions. *)
Definition take (l : list Q) (indexes : list nat) : list Q :=
  map (fun i => nth i l 0) indexes.

(** [np.argmax] of a boolean array: the first position that holds True,
    0 when none does. *)
Fixpoint find_first (l : list bool) : option nat :=
  match l with
  | [] => None
  | b :: l' => if b then Some 0%nat else S <$> find_first l'
  end.
Definition argmax (l : list bool) : nat := default 0%nat (find_first l).

(** An array of dtype float64: its shape and its elements in C order. *)
Record ndarray : Type := mk_ndarray { shape : list nat; data : list Q }.

Definition zeros (sh : list nat) : ndarray :=
  mk_ndarray sh (repeat 0 (fold_right Nat.mul 1%nat sh)).
Definition of_list (l : list Q) : ndarray := mk_ndarray [length l] l.

(** The coordinate along axis [k] of the element at position [i] in C
    order. *)
Definition stride (sh : list nat) (k : nat) : nat :=
  fold_right Nat.mul 1%nat (skipn (S k) sh).
Definition coord (sh : list nat) (k i : nat) : nat :=
  ((i / stride sh k) mod nth k sh 1)%nat.

(** [a[..., c, ...] /= 2] with the integer [c] on axis [k] and full
    slices on the other axes, on an array of dtype float64: every element
    of the slice becomes its half. *)
Definition halve_slice (k c : nat) (a : ndarray) : ndarray :=
  mk_ndarray (shape a)
    (imap (fun i v => if (coord (shape a) k i =? c)%nat then v / 2 else v) (data a)).

(** [a / c], element by element. *)
Definition div_all (a : ndarray) (c : Q) : result ndarray :=
  d ← for_each (fun v => div v c) (data a); Ok (mk_ndarray (shape a) d).

(** The rows of a 2D array; indexing an array of another dimension with
    two indices is an IndexError. *)
Fixpoint chunks (r c : nat) (l : list Q) : list (list Q) :=
  match r with
  | O => []
  | S r' => firstn c l :: chunks r' c (skipn c l)
  end.
Definition rows (a : ndarray) : result (list (list Q)) :=
  match shape a with
  | [r; c] => Ok (chunks r c (data a))
  | _ => Raise IndexError
  end.
(** [P[i, j]] on the rows *)
Definition get2 (rs : list (list Q)) (i j : Z) : result Q :=
  r ← get rs i; get r j.

End np.

Export np (ndarray, mk_ndarray, shape, data).

#[global] Instance ndarray_inhabited : Inhabited ndarray := populate (np.zeros [0%nat]).

(** Weights are not negative. *)
Definition nonneg (l : list Q) : Prop := Forall (fun v => 0 <= v) l.

(** ** The store *)

(** Arrays are Python objects: a name holds a reference, [inbins.copy()]
    makes a new object and [abins = inbins] does not. *)
Definition loc : Type := positive.

(** A piece of code that reads and writes the store and returns, raises or
    leaves the rationals. *)
Definition prog (A : Type) : Type := gmap loc ndarray -> gmap loc ndarray * result A.

Definition prog_ret {A : Type} (a : A) : prog A := fun h => (h, Ok a).
Definition prog_bind {A B : Type} (m : prog A) (f : A -> prog B) : prog B :=
  fun h =>
    match m h with
    | (h', Ok a) => f a h'
    | (h', Raise e) => (h', Raise e)
    | (h', NonFinite) => (h', NonFinite)
    end.
Definition lift {A : Type} (r : result A) : prog A := fun h => (h, r).

Notation "'do' x <- m ; k" := (prog_bind m (fun x => k))
  (at level 10, x name, m at level 100, k at level 200).

(** The array behind a reference (the code has no reference that the
    store does not hold; such a one would read as an empty array). *)
Definition load (l : loc) : prog ndarray := fun h => (h, Ok (h !!! l)).
(** An in-place update of the array behind a reference. *)
Definition modify (l : loc) (f : ndarray -> ndarray) : prog unit :=
  fun h => (<[l := f (h !!! l)]> h, Ok tt).
(** [a.copy()]: a new object with the same shape and elements. *)
Definition copy (l : loc) : prog loc :=
  fun h => let l' := fresh (dom h) in (<[l' := h !!! l]> h, Ok l').

(** ** getContourLevels *)

Definition defaultContours : list Q := [68 # 100; 95 # 100].

(** One turn of the loop over the axes: with the integer index on axis
    [k], [abins[last] /= 2] and then [abins[first] /= 2].  The index [-1]
    (and the index [0]) is out of bounds on an axis of size 0. *)
Definition halve_edges (abins : loc) (k : nat) : prog unit :=
  do a <- load abins;
  let n := nth k (shape a) 0%nat in
  if (n =? 0)%nat then lift (Raise IndexError)
  else
    do _ <- modify abins (np.halve_slice k (n - 1));
    modify abins (np.halve_slice k 0).

Fixpoint for_axes (body : nat -> prog unit) (axes : list nat) : prog unit :=
  match axes with
  | [] => prog_ret tt
  | k :: axes' => do _ <- body k; for_axes body axes'
  end.

(** The body of [for i, ix in enumerate(ixs)]: the level of one target. *)
Definition contour_level (sortgrid cumsum : list Q) (target : Q) (ix : nat) : result Q :=
  if (ix =? 0)%nat then Raise (DensitiesError ContourOutsideRange)
  else
    ci ← np.get cumsum (Z.of_nat ix);
    ci1 ← np.get cumsum (Z.of_nat ix - 1);
    let h := ci - ci1 in
    d ← np.div (ci - target) h;
    si ← np.get sortgrid (Z.of_nat ix);
    si1 ← np.get sortgrid (Z.of_nat ix - 1);
    Ok (si * (1 - d) + d * si1).

Definition contour_targets (contours : list Q) (norm missing_norm : Q) : list Q :=
  map (fun c => (1 - c) * norm - missing_norm) contours.

(** The adjusted values in ascending order of the original ones. *)
Definition contour_sortgrid (abins inbins : ndarray) : list Q :=
  np.take (data abins) (np.argsort (data inbins)).

(** From [norm = np.sum(abins)] on: the code only reads [abins] and
    [inbins]. *)
Definition contour_levels_of (abins inbins : ndarray) (contours : list Q)
    (missing_norm : Q) : result (list Q) :=
  let norm := np.sum (data abins) in
  let targets := contour_targets contours norm missing_norm in
  let sortgrid := contour_sortgrid abins inbins in
  let cumsum := np.cumsum sortgrid in
  for_each (fun target => contour_level sortgrid cumsum target (np.searchsorted cumsum target))
           targets.

(** [getContourLevels(inbins, contours, missing_norm, half_edge)], on the
    store. *)
Definition getContourLevels_prog (inbins : loc) (contours : list Q)
    (missing_norm : Q) (half_edge : bool) : prog (list Q) :=
  do abins <-
    (if half_edge then
       do abins <- copy inbins;
       do a <- load abins;
       do _ <- for_axes (halve_edges abins) (seq 0 (length (shape a)));
       prog_ret abins
     else prog_ret inbins);
  do a <- load abins;
  do b <- load inbins;
  lift (contour_levels_of a b contours missing_norm).

(** The same function of the value of [inbins]: the edge-adjusted copy,
    axis after axis. *)
Fixpoint half_edges (a : ndarray) (axes : list nat) : result ndarray :=
  match axes with
  | [] => Ok a
  | k :: axes' =>
      let n := nth k (shape a) 0%nat in
      if (n =? 0)%nat then Raise IndexError
      else half_edges (np.halve_slice k 0 (np.halve_slice k (n - 1) a)) axes'
  end.

Definition adjusted_bins (inbins : ndarray) (half_edge : bool) : result ndarray :=
  if half_edge then half_edges inbins (seq 0 (length (shape inbins))) else Ok inbins.

Definition getContourLevels (inbins : ndarray) (contours : list Q)
    (missing_norm : Q) (half_edge : bool) : result (list Q) :=
  abins ← adjusted_bins inbins half_edge;
  contour_levels_of abins inbins contours missing_norm.

(** *** Weights of dtype int64

    On a one-dimensional array of dtype int64, [abins[(-1,)]] is a scalar
    and not a view: [abins[(-1,)] /= 2] divides the scalar and stores the
    quotient back, and storing converts it to int64, towards zero.  The
    two end elements are the only ones that the loop over the one axis
    touches.  From [norm = np.sum(abins)] on the arithmetic is that of
    floats.  (With more dimensions the index selects a view and numpy
    refuses to divide it in place.) *)
Definition halve_int64 (v : Z) : Z := Z.quot v 2.

Definition adjusted_bins_int64 (inbins : list Z) (half_edge : bool) : result (list Z) :=
  if half_edge then
    vl ← np.get inbins (-1);
    let abins := <[Nat.pred (length inbins) := halve_int64 vl]> inbins in
    v0 ← np.get abins 0;
    Ok (<[0%nat := halve_int64 v0]> abins)
  else Ok inbins.

Definition getContourLevels_int64 (inbins : list Z) (contours : list Q)
    (missing_norm : Q) (half_edge : bool) : result (list Q) :=
  abins ← adjusted_bins_int64 inbins half_edge;
  contour_levels_of (np.of_list (map inject_Z abins)) (np.of_list (map inject_Z inbins))
                    contours missing_norm.

(** ** scipy.interpolate *)

(** What the module uses of scipy: [splrep(x, P, s=0)] builds an
    interpolating cubic spline (or fails), [splev] evaluates it or one of
    its derivatives at a point, under an extrapolation mode [ext];
    [RectBivariateSpline] builds a surface. *)
Class Scipy : Type := {
  Spline : Type;
  splrep : list Q -> list Q -> result Spline;
  splev_at : Spline -> nat -> nat -> Q -> Q;
  Surface : Type;
  RectBivariateSpline_init : list Q -> list Q -> ndarray -> result Surface
}.

(** A Python value that holds numbers: a float, or a list, a tuple or a
    one-dimensional ndarray of floats. *)
Inductive pyvalue : Type :=
  | PyFloat (v : Q)
  | PyList (l : list Q)
  | PyTuple (l : list Q)
  | PyArray (l : list Q).

(** [splev(x, tck, der, ext)], when it returns: the result has the shape
    of [x], a sequence gives an array of the same length (this is [splev]
    as it is since it has the parameter [ext]).  scipy's [splev] raises a
    ValueError on a sequence without elements and on a derivative above
    the degree of the spline; these errors are not part of this model. *)
Definition splev `{Scipy} (x : pyvalue) (tck : Spline) (der ext : nat) : pyvalue :=
  match x with
  | PyFloat v => PyFloat (splev_at tck der ext v)
  | PyList l | PyTuple l | PyArray l => PyArray (map (splev_at tck der ext) l)
  end.

(** [np.atleast_1d(p)] and whether it is the object [p] itself: only an
    array of one dimension or more is returned as it is. *)
Definition atleast_1d (p : pyvalue) : list Q :=
  match p with
  | PyFloat v => [v]
  | PyList l | PyTuple l | PyArray l => l
  end.
Definition atleast_1d_is (p : pyvalue) : bool :=
  match p with
  | PyArray _ => true
  | _ => false
  end.

(** ** GridDensity *)

(** The attributes and the method that the base class expects of its
    subclasses.  [V] is the type of the values given as [view_ranges]. *)
Class GridDensity (V D : Type) : Type := {
  axes : D -> list (list Q);
  P : D -> ndarray;
  view_ranges : D -> option V;
  assign_P : ndarray -> D -> D;          (* self.P = ... *)
  clear_spl : D -> D;                    (* self.spl = None *)
  norm_integral : D -> result Q
}.

Section GridDensity.
Context {V D : Type} `{GridDensity V D}.

(** The check of [setP]: the sizes of [P] against those of the axes, as
    far as [zip] pairs them. *)
Fixpoint check_sizes (sizes : list nat) (axs : list (list Q)) : result unit :=
  match sizes, axs with
  | size :: sizes', ax :: axs' =>
      if (size =? length ax)%nat then check_sizes sizes' axs'
      else Raise (DensitiesError (ArraySizeMismatch size (length ax)))
  | _, _ => Ok tt
  end.

Definition setP (newP : option ndarray) (self : D) : result D :=
  match newP with
  | Some a =>
      _ ← check_sizes (shape a) (axes self);
      Ok (clear_spl (assign_P a self))
  | None =>
      Ok (clear_spl (assign_P (np.zeros (map (@length Q) (axes self))) self))
  end.

(** [normalize(by, in_place)], as far as the object goes.  [self.P /= norm]
    and [self.P / norm] divide the same float64 elements by the same
    number; with [in_place] the quotients stay in the array that [P] is,
    without the checks of [setP] (that another holder of that array sees
    them too is not part of this model).  A norm equal to 0 does not stop
    the code, which goes on with weights that are [nan] or [inf]: that run
    ends here in [NonFinite]. *)
Definition normalize (by_ : string) (in_place : bool) (self : D) : result D :=
  norm ← (if String.eqb by_ "integral" then norm_integral self
          else if String.eqb by_ "max" then
            norm ← np.max (data (P self));
            if Qeq_bool norm 0 then Raise (DensitiesError NoSamplesInBin) else Ok norm
          else Raise (DensitiesError UnknownNormalization));
  self' ← (if in_place then a ← np.div_all (P self) norm; Ok (assign_P a self)
           else a ← np.div_all (P self) norm; setP (Some a) self);
  Ok (clear_spl self').

(** [bounds()]: the override as it is, or the pairs of the axes,
    reversed. *)
Definition bounds (self : D) : result (V + list (Q * Q)) :=
  match view_ranges self with
  | Some v => Ok (inl v)
  | None =>
      b ← for_each (fun ax => lo ← np.get ax 0; hi ← np.get ax (-1); Ok (lo, hi)) (axes self);
      Ok (inr (rev b))
  end.

(** The method [getContourLevels(contours)] *)
Definition GridDensity_getContourLevels (contours : list Q) (self : D) : result (list Q) :=
  getContourLevels (P self) contours 0 true.

End GridDensity.

(** ** Density1D *)

Section Density1D.
Context {V : Type} `{Scipy}.

Record Density1D : Type := mkDensity1D {
  d1_n : nat;
  d1_axes : list (list Q);
  d1_x : list Q;
  d1_view_ranges : option V;
  d1_spacing : Q;
  d1_P : ndarray;
  d1_spl : option Spline
}.

(** [integrate(P)]: the trapezoidal rule on the grid, for the
    one-dimensional [P] of a 1D density. *)
Definition Density1D_integrate (self : Density1D) (a : ndarray) : result Q :=
  p0 ← np.get (data a) 0;
  pl ← np.get (data a) (-1);
  Ok (((p0 + pl) / 2 + np.sum (np.inner (data a))) * d1_spacing self).

Definition Density1D_norm_integral (self : Density1D) : result Q :=
  Density1D_integrate self (d1_P self).

#[global] Instance Density1D_grid : GridDensity V Density1D := {
  axes := d1_axes;
  P := d1_P;
  view_ranges := d1_view_ranges;
  assign_P := fun a self =>
    mkDensity1D (d1_n self) (d1_axes self) (d1_x self) (d1_view_ranges self)
                (d1_spacing self) a (d1_spl self);
  clear_spl := fun self =>
    mkDensity1D (d1_n self) (d1_axes self) (d1_x self) (d1_view_ranges self)
                (d1_spacing self) (d1_P self) None;
  norm_integral := Density1D_norm_integral
}.

(** [Density1D(x, P, view_ranges)] *)
Definition Density1D_init (x : list Q) (newP : option ndarray) (vr : option V)
    : result Density1D :=
  x1 ← np.get x 1;
  x0 ← np.get x 0;
  setP newP (mkDensity1D (length x) [x] x vr (x1 - x0) (np.zeros []) None).

(** [bounds()] of the subclass: one pair, not a list of pairs. *)
Definition Density1D_bounds (self : Density1D) : result (V + Q * Q) :=
  match d1_view_ranges self with
  | Some v => Ok (inl v)
  | None => lo ← np.get (d1_x self) 0; hi ← np.get (d1_x self) (-1); Ok (inr (lo, hi))
  end.

(** [if self.spl is None: self._initSpline()]: the object afterwards
    and its spline. *)
Definition Density1D_initSpline (self : Density1D) : result (Density1D * Spline) :=
  match d1_spl self with
  | Some tck => Ok (self, tck)
  | None =>
      tck ← splrep (d1_x self) (data (d1_P self));
      Ok (mkDensity1D (d1_n self) (d1_axes self) (d1_x self) (d1_view_ranges self)
                      (d1_spacing self) (d1_P self) (Some tck), tck)
  end.

(** [Prob(x, derivative)]: a sequence goes to [splev] as it is, anything
    else inside a list of one element. *)
Definition Density1D_Prob (x : pyvalue) (derivative : nat) (self : Density1D)
    : result (Density1D * pyvalue) :=
  '(self', tck) ← Density1D_initSpline self;
  match x with
  | PyArray _ | PyList _ | PyTuple _ => Ok (self', splev x tck derivative 1)
  | PyFloat v => Ok (self', splev (PyList [v]) tck derivative 1)
  end.

Record InterpGrid : Type := mkInterpGrid {
  g_factor : Z;
  g_bign : Z;
  g_grid : list Q;
  g_norm : Q;
  g_sortgrid : list Q;
  g_cumsum : list Q
}.

(** [initLimitGrids(factor)] *)
Definition Density1D_initLimitGrids (factor : option Z) (self : Density1D)
    : result (Density1D * InterpGrid) :=
  '(self', tck) ← Density1D_initSpline self;
  factor ← match factor with
           | Some f => Ok f
           | None =>
               if (d1_n self' =? 0)%nat then Raise ZeroDivisionError
               else Ok (Z.max 2 (20000 / Z.of_nat (d1_n self')))
           end;
  let bign := ((Z.of_nat (d1_n self') - 1) * factor + 1)%Z in
  x0 ← np.get (d1_x self') 0;
  vecx ← for_each (fun i => s ← np.div (inject_Z i * d1_spacing self') (inject_Z factor);
                            Ok (x0 + s))
                  (np.arange bign);
  let grid := map (splev_at tck 0 0) vecx in
  let norm := np.sum grid in
  pl ← np.get (data (d1_P self')) (-1);
  p0 ← np.get (data (d1_P self')) 0;
  let sortgrid := np.sort grid in
  Ok (self', mkInterpGrid factor bign grid (norm - (1 # 2) * pl - (1 # 2) * p0)
                          sortgrid (np.cumsum sortgrid)).

(** One limit: [(mn, mx, lim_bot, lim_top)] *)
Definition limit : Type := (Q * Q * bool * bool)%type.

(** What [getLimits] returns: one tuple, or a list of tuples. *)
Inductive limits_value : Type :=
  | OneLimit (t : limit)
  | LimitList (l : list limit).

(** The threshold of one target: [trial]. *)
Definition limit_trial (g : InterpGrid) (ix : nat) (target : Q) : result Q :=
  trial ← np.get (g_sortgrid g) (Z.of_nat ix);
  if (0 <? ix)%nat then
    ci ← np.get (g_cumsum g) (Z.of_nat ix);
    ci1 ← np.get (g_cumsum g) (Z.of_nat ix - 1);
    let d := ci - ci1 in
    frac ← np.div (ci - target) d;
    s1 ← np.get (g_sortgrid g) (Z.of_nat ix + 1);
    Ok ((1 - frac) * trial + frac * s1)
  else Ok trial.

(** The body of the loop of [getLimits], up to its [return] or
    [append]. *)
Definition limit_of (self : Density1D) (g : InterpGrid) (ix : nat) (target : Q)
    : result limit :=
  trial ← limit_trial g ix target;
  finespace ← np.div (d1_spacing self) (inject_Z (g_factor g));
  g0 ← np.get (g_grid g) 0;
  let lim_bot := np.geb g0 trial in
  mn ← (if lim_bot then np.get (d1_x self) 0
        else
          let i := Z.of_nat (np.argmax (map (fun v => np.gtb v trial) (g_grid g))) in
          gi ← np.get (g_grid g) i;
          gi1 ← np.get (g_grid g) (i - 1);
          d ← np.div (gi - trial) (gi - gi1);
          x0 ← np.get (d1_x self) 0;
          Ok (x0 + (inject_Z i - d) * finespace));
  gl ← np.get (g_grid g) (-1);
  let lim_top := np.geb gl trial in
  mx ← (if lim_top then np.get (d1_x self) (-1)
        else
          let i := (g_bign g
                    - Z.of_nat (np.argmax (map (fun v => np.gtb v trial) (rev (g_grid g))))
                    - 1)%Z in
          gi ← np.get (g_grid g) i;
          gi1 ← np.get (g_grid g) (i + 1);
          d ← np.div (gi - trial) (gi - gi1);
          x0 ← np.get (d1_x self) 0;
          Ok (x0 + (inject_Z i + d) * finespace));
  Ok (mn, mx, lim_bot, lim_top).

(** [for ix, target in zip(ixs, targets)]: with [single] (that is,
    [parr is not p]) the first turn returns its tuple. *)
Fixpoint limits_loop (self : Density1D) (g : InterpGrid) (single : bool)
    (items : list (nat * Q)) (results : list limit) : result limits_value :=
  match items with
  | [] => Ok (LimitList results)
  | (ix, target) :: items' =>
      t ← limit_of self g ix target;
      if single then Ok (OneLimit t)
      else limits_loop self g single items' (results ++ [t])
  end.

(** [getLimits(p, interpGrid, accuracy_factor)] *)
Definition Density1D_getLimits (p : pyvalue) (interpGrid : option InterpGrid)
    (accuracy_factor : option Z) (self : Density1D) : result (Density1D * limits_value) :=
  '(self', g) ← match interpGrid with
                | Some g => Ok (self, g)
                | None => Density1D_initLimitGrids accuracy_factor self
                end;
  let parr := atleast_1d p in
  let targets := map (fun pi => (1 - pi) * g_norm g) parr in
  let ixs := map (np.searchsorted (g_cumsum g)) targets in
  r ← limits_loop self' g (negb (atleast_1d_is p)) (combine ixs targets) [];
  Ok (self', r).

End Density1D.

(** ** Density2D *)

Section Density2D.
Context {V : Type} `{Scipy}.

Record Density2D : Type := mkDensity2D {
  d2_x : list Q;
  d2_y : list Q;
  d2_axes : list (list Q);
  d2_view_ranges : option V;
  d2_spacing : Q;
  d2_P : ndarray;
  d2_spl : option Surface
}.

(** [integrate(P)]: the interior, the four corners over 4, the four
    sides without their corners over 2, times the area of a cell. *)
Definition Density2D_integrate (self : Density2D) (a : ndarray) : result Q :=
  rs ← np.rows a;
  let interior := np.sum (concat (map np.inner (np.inner rs))) in
  p00 ← np.get2 rs 0 0;
  p0l ← np.get2 rs 0 (-1);
  pl0 ← np.get2 rs (-1) 0;
  pll ← np.get2 rs (-1) (-1);
  left ← for_each (fun r => np.get r 0) (np.inner rs);
  top ← (r ← np.get rs 0; Ok (np.inner r));
  right ← for_each (fun r => np.get r (-1)) (np.inner rs);
  bottom ← (r ← np.get rs (-1); Ok (np.inner r));
  let norm := interior + (p00 + p0l + pl0 + pll) / 4
              + (np.sum left + np.sum top + np.sum right + np.sum bottom) / 2 in
  Ok (norm * d2_spacing self).

Definition Density2D_norm_integral (self : Density2D) : result Q :=
  Density2D_integrate self (d2_P self).

#[global] Instance Density2D_grid : GridDensity V Density2D := {
  axes := d2_axes;
  P := d2_P;
  view_ranges := d2_view_ranges;
  assign_P := fun a self =>
    mkDensity2D (d2_x self) (d2_y self) (d2_axes self) (d2_view_ranges self)
                (d2_spacing self) a (d2_spl self);
  clear_spl := fun self =>
    mkDensity2D (d2_x self) (d2_y self) (d2_axes self) (d2_view_ranges self)
                (d2_spacing self) (d2_P self) None;
  norm_integral := Density2D_norm_integral
}.

(** [Density2D(x, y, P, view_ranges)]: the axes are [[y, x]]. *)
Definition Density2D_init (x y : list Q) (newP : option ndarray) (vr : option V)
    : result Density2D :=
  x1 ← np.get x 1;
  x0 ← np.get x 0;
  y1 ← np.get y 1;
  y0 ← np.get y 0;
  setP newP (mkDensity2D x y [y; x] vr ((x1 - x0) * (y1 - y0)) (np.zeros []) None).

End Density2D.

Arguments Density1D V {_}.
Arguments Density2D V {_}.
Arguments InterpGrid : clear implicits.

(** ** Densities that are constant on their grid *)

(** The cubic spline that interpolates constant data is that constant:
    for such data (on four points or more, as [splrep] wants them) this
    is what scipy computes.  The spline is kept as the two ends of the
    grid and the constant; with [ext = 1] it is 0 outside the grid.  Other
    data are refused, they are not what this instance is for. *)
Definition all_equal (l : list Q) : bool :=
  match l with
  | [] => true
  | v :: l' => forallb (Qeq_bool v) l'
  end.

Definition constant_splrep (x p : list Q) : result (Q * Q * Q) :=
  match x, last x, p with
  | lo :: _, Some hi, c :: _ =>
      if ((4 <=? length x)%nat && (length x =? length p)%nat && all_equal p)%bool
      then Ok (lo, hi, c) else Raise ValueError
  | _, _, _ => Raise ValueError
  end.

Definition constant_splev_at (tck : Q * Q * Q) (der ext : nat) (v : Q) : Q :=
  let '(lo, hi, c) := tck in
  if ((ext =? 1)%nat && (np.ltb v lo || np.ltb hi v))%bool then 0
  else if (der =? 0)%nat then c else 0.

Definition constant_splines : Scipy := {|
  Spline := Q * Q * Q;
  splrep := constant_splrep;
  splev_at := constant_splev_at;
  Surface := unit;
  RectBivariateSpline_init := fun _ _ _ => Ok tt
|}.

(** The density 1 on the grid 0, 1, 2, 3. *)
Definition flat_density : result (Density1D (H := constant_splines) unit) :=
  Density1D_init (H := constant_splines) [0; 1; 2; 3] (Some (np.of_list [1; 1; 1; 1])) None.

(** No density at all on the grid 0, 1: [Density1D(x)] fills [P] with
    zeros. *)
Definition empty_density : result (Density1D (H := constant_splines) unit) :=
  Density1D_init (H := constant_splines) [0; 1] None None.


(** ** Data of the examples *)

(** A histogram of 5 bins and its edge-adjusted copy. *)
Definition bins5 : ndarray := np.of_list [1; 2; 5; 2; 1].
Definition bins5_adjusted : ndarray := mk_ndarray [5%nat] [1 / 2; 2; 5; 2; 1 / 2].

(** A histogram of 5 bins whose largest weight is on the edge. *)
Definition edge_bins5 : ndarray := np.of_list [8; 1; 2; 3; 4].

(** [flat_density] as a value, before and after its spline is built, and
    its grid of limits for the factor 2. *)
Definition flat_density_new : Density1D (H := constant_splines) unit :=
  mkDensity1D (H := constant_splines) 4 [[0; 1; 2; 3]] [0; 1; 2; 3] None (1 - 0)
              (np.of_list [1; 1; 1; 1]) None.
Definition flat_density_built : Density1D (H := constant_splines) unit :=
  mkDensity1D (H := constant_splines) 4 [[0; 1; 2; 3]] [0; 1; 2; 3] None (1 - 0)
              (np.of_list [1; 1; 1; 1]) (Some (0, 3, 1)).
Definition flat_grid : InterpGrid :=
  mkInterpGrid 2 7 (repeat 1 7) (np.sum (repeat 1 7) - (1 # 2) * 1 - (1 # 2) * 1)
               (repeat 1 7) (np.cumsum (repeat 1 7)).

(** A density that rises and falls, and a grid of limits given by hand. *)
Definition hill_density : Density1D (H := constant_splines) unit :=
  mkDensity1D (H := constant_splines) 4 [[0; 1; 2; 3]] [0; 1; 2; 3] None (1 - 0)
              (np.of_list [1; 3; 2; 1]) None.
Definition hill_grid : InterpGrid :=
  mkInterpGrid 1 4 [1; 3; 2; 1] 6 [1; 1; 2; 3] [1; 2; 4; 7].

(** A spike on the grid 0, 1, 2, 3, 4 and a grid of limits for the factor
    2 whose curve dips below 0 on both sides of the spike. *)
Definition spike_density : Density1D (H := constant_splines) unit :=
  mkDensity1D (H := constant_splines) 5 [[0; 1; 2; 3; 4]] [0; 1; 2; 3; 4] None (1 - 0)
              (np.of_list [0; 0; 4; 0; 0]) None.
Definition spike_curve : list Q := [0; -1 # 2; 0; 2; 4; 2; 0; -1 # 2; 0].
Definition spike_grid : InterpGrid :=
  mkInterpGrid 2 9 spike_curve (np.sum spike_curve - (1 # 2) * 0 - (1 # 2) * 0)
               (np.sort spike_curve) (np.cumsum (np.sort spike_curve)).

(** A 2D density on the grid 0, 1 by 10, 12. *)
Definition small_density2D : Density2D (H := constant_splines) unit :=
  mkDensity2D (H := constant_splines) [0; 1] [10; 12] [[10; 12]; [0; 1]] None
              ((1 - 0) * (12 - 10)) (np.zeros [2; 2]%nat) None.

(** The levels of [bins5] for the fractions 0.3 and 0.68, with the edge
    adjustment: 3.2 and 2. *)
Definition bins5_contours : list Q := [3 # 10; 68 # 100].
Definition bins5_levels : list Q :=
  Eval vm_compute in
    match getContourLevels bins5 bins5_contours 0 true with
    | Ok levels => levels
    | _ => []
    end.

(** Weights between 0 and [M]. *)
Definition within (M : Q) (l : list Q) : Prop := Forall (fun v => 0 <= v <= M) l.

(** ** Data of further examples *)

(** The zero-filled density on the grid 0, 1, 2, 3. *)
Definition spike_density_zero : Density1D (H := constant_splines) unit :=
  mkDensity1D (H := constant_splines) 4 [[0; 1; 2; 3]] [0; 1; 2; 3] None (1 - 0)
              (np.zeros [4%nat]) None.

(** The grid of limits of [flat_density] for the default factor, 5000:
    15001 samples. *)
Definition flat_grid_default : InterpGrid :=
  let curve := repeat 1 (Z.to_nat 15001) in
  mkInterpGrid 5000 15001 curve (np.sum curve - (1 # 2) * 1 - (1 # 2) * 1)
               curve (np.cumsum curve).

(** The limits of [hill_density] on [hill_grid] for the probabilities 0.75
    and 0.5. *)
Definition hill_limits : limits_value :=
  Eval vm_compute in
    match Density1D_getLimits (PyArray [3 # 4; 1 # 2]) (Some hill_grid) None hill_density with
    | Ok (_, r) => r
    | _ => LimitList []
    end.

(** The number of boundary faces that the element at position [i] (in C
    order) of an array of shape [sh] lies on, among the two faces of each
    of the given axes: one for the last slice of the axis, one for the
    first. *)
Definition on_edge (sh : list nat) (k i : nat) : nat :=
  (if (np.coord sh k i =? nth k sh 0%nat - 1)%nat then 1 else 0)%nat
  + (if (np.coord sh k i =? 0)%nat then 1 else 0)%nat.
Definition edge_faces (sh : list nat) (axs : list nat) (i : nat) : nat :=
  fold_right (fun k n => (on_edge sh k i + n)%nat) 0%nat axs.

(** A grid of 3 by 3 cells with the weight 1 everywhere, and its
    edge-adjusted copy. *)
Definition ones3x3 : ndarray := mk_ndarray [3; 3]%nat (repeat 1 9).
Definition ones3x3_adjusted : ndarray :=
  mk_ndarray [3; 3]%nat
    [1 / 2 / 2; 1 / 2; 1 / 2 / 2; 1 / 2; 1; 1 / 2; 1 / 2 / 2; 1 / 2; 1 / 2 / 2].

(** Ascending lists of given numbers. *)
Ltac ascending :=
  repeat first [ apply Sorted_nil | apply HdRel_nil | apply Sorted_cons | apply HdRel_cons
               | (vm_compute; discriminate) ].

(** * Properties *)

(** *** Indexing *)

Lemma get_nat_inv {A} (l : list A) (i : nat) (v : A) :
  np.get l (Z.of_nat i) = Ok v -> l !! i = Some v.
Proof.
  unfold np.get. destruct (Z.ltb_spec (Z.of_nat i) 0); [lia|].
  rewrite Nat2Z.id. destruct (_ && _)%bool; [|discriminate].
  destruct (l !! i); congruence.
Qed.

Lemma get_pred_inv {A} (l : list A) (i : nat) (v : A) :
  (0 < i)%nat -> np.get l (Z.of_nat i - 1) = Ok v -> l !! (i - 1)%nat = Some v.
Proof.
  intros Hi. replace (Z.of_nat i - 1)%Z with (Z.of_nat (i - 1)) by lia. apply get_nat_inv.
Qed.

Lemma get_nat_ok {A} (l : list A) (i : nat) (v : A) :
  l !! i = Some v -> np.get l (Z.of_nat i) = Ok v.
Proof.
  intros Hl. pose proof (lookup_lt_Some _ _ _ Hl) as Hlt.
  unfold np.get. destruct (Z.ltb_spec (Z.of_nat i) 0); [lia|].
  rewrite Nat2Z.id, Hl.
  destruct (Z.leb_spec 0 (Z.of_nat i)); [|lia].
  destruct (Z.ltb_spec (Z.of_nat i) (Z.of_nat (length l))); [reflexivity|lia].
Qed.

Lemma get_0_ok {A} (l : list A) (v : A) : l !! 0%nat = Some v -> np.get l 0 = Ok v.
Proof. apply (get_nat_ok l 0). Qed.

Lemma get_last_ok {A} (l : list A) (v : A) :
  last l = Some v -> np.get l (-1) = Ok v.
Proof.
  intros Hl. unfold np.get. cbv zeta. change (-1 <? 0)%Z with true. cbv iota.
  rewrite last_lookup in Hl.
  pose proof (lookup_lt_Some _ _ _ Hl) as Hlt.
  replace (Z.to_nat (-1 + Z.of_nat (length l))) with (Init.Nat.pred (length l)) by lia.
  rewrite Hl.
  destruct (Z.leb_spec 0 (-1 + Z.of_nat (length l))); [|lia].
  destruct (Z.ltb_spec (-1 + Z.of_nat (length l)) (Z.of_nat (length l))); [reflexivity|lia].
Qed.

Lemma get_raises {A} (l : list A) (i : Z) (e : exn) :
  np.get l i = Raise e -> e = IndexError.
Proof.
  unfold np.get. destruct (_ && _)%bool; [|congruence].
  destruct (l !! _); congruence.
Qed.

(** *** Loops *)

Lemma for_each_lookup {A B} (f : A -> result B) (l : list A) (bs : list B) (i : nat) (a : A) :
  for_each f l = Ok bs -> l !! i = Some a -> exists b, bs !! i = Some b /\ f a = Ok b.
Proof.
  revert bs i. induction l as [|a0 l IH]; intros bs i Hf Hl; [discriminate|].
  simpl in Hf. destruct (f a0) as [b0| |] eqn:Hb; try discriminate.
  simpl in Hf. destruct (for_each f l) as [bs'| |] eqn:Hbs; try discriminate.
  simpl in Hf. injection Hf as <-.
  destruct i as [|i]; simpl in *.
  - injection Hl as <-. eauto.
  - eapply IH; eauto.
Qed.

Lemma for_each_length {A B} (f : A -> result B) (l : list A) (bs : list B) :
  for_each f l = Ok bs -> length bs = length l.
Proof.
  revert bs. induction l as [|a0 l IH]; intros bs Hf; simpl in Hf.
  - injection Hf as <-. reflexivity.
  - destruct (f a0) as [b0| |]; try discriminate. simpl in Hf.
    destruct (for_each f l) as [bs'| |]; try discriminate. simpl in Hf.
    injection Hf as <-. simpl. f_equal. auto.
Qed.

(** A loop raises what one of its turns raises. *)
Lemma for_each_raises {A B} (f : A -> result B) (l : list A) (e : exn) :
  for_each f l = Raise e -> Exists (fun a => f a = Raise e) l.
Proof.
  induction l as [|a0 l IH]; intros Hf; simpl in Hf; [discriminate|].
  destruct (f a0) as [b0| |] eqn:Hb; try discriminate; simpl in Hf.
  - destruct (for_each f l) as [bs'| |]; try discriminate; simpl in Hf.
    apply Exists_cons_tl. apply IH. assumption.
  - injection Hf as ->. apply Exists_cons_hd. assumption.
Qed.

(** When every turn returns or raises [e], and one raises, the loop raises [e]. *)
Lemma for_each_raises_one {A B} (f : A -> result B) (l : list A) (e : exn) :
  Forall (fun a => (exists b, f a = Ok b) \/ f a = Raise e) l ->
  Exists (fun a => f a = Raise e) l ->
  for_each f l = Raise e.
Proof.
  induction 1 as [|a0 l [[b Hb]|Hr] _ IH]; intros Hex.
  - inversion Hex.
  - simpl. rewrite Hb. simpl. inversion Hex as [? ? Hx|? ? Hx]; subst; [congruence|].
    rewrite (IH Hx). reflexivity.
  - simpl. rewrite Hr. reflexivity.
Qed.

(** *** searchsorted *)

Lemma ltb_lt (a b : Q) : np.ltb a b = true <-> a < b.
Proof.
  unfold np.ltb. rewrite negb_true_iff. split.
  - intros Hf. apply Qnot_le_lt. intros Hle. apply Qle_bool_iff in Hle. congruence.
  - intros Hlt. destruct (Qle_bool b a) eqn:E; [|reflexivity].
    apply Qle_bool_iff in E. lra.
Qed.

Lemma ltb_ge (a b : Q) : np.ltb a b = false <-> b <= a.
Proof.
  unfold np.ltb. rewrite negb_false_iff. apply Qle_bool_iff.
Qed.

(** Everything before the insertion position is below the value. *)
Lemma searchsorted_before (a : list Q) (v : Q) (j : nat) (x : Q) :
  (j < np.searchsorted a v)%nat -> a !! j = Some x -> x < v.
Proof.
  revert j. induction a as [|y a IH]; intros j Hj Hx; simpl in *; [lia|].
  destruct (np.ltb y v) eqn:E; [|lia].
  destruct j as [|j]; simpl in Hx.
  - injection Hx as <-. apply ltb_lt. assumption.
  - apply (IH j); [lia|assumption].
Qed.

(** The element at the insertion position is not below the value. *)
Lemma searchsorted_at (a : list Q) (v : Q) (x : Q) :
  a !! np.searchsorted a v = Some x -> v <= x.
Proof.
  induction a as [|y a IH]; simpl; [discriminate|].
  destruct (np.ltb y v) eqn:E; simpl.
  - assumption.
  - intros [= <-]. apply ltb_ge. assumption.
Qed.

Lemma searchsorted_le_length (a : list Q) (v : Q) :
  (np.searchsorted a v <= length a)%nat.
Proof.
  induction a as [|y a IH]; simpl; [lia|]. destruct (np.ltb y v); lia.
Qed.

(** An element that is not below the value bounds the insertion position. *)
Lemma searchsorted_bound (a : list Q) (v : Q) (j : nat) (x : Q) :
  a !! j = Some x -> v <= x -> (np.searchsorted a v <= j)%nat.
Proof.
  intros Hx Hv. destruct (le_lt_dec (np.searchsorted a v) j) as [|Hlt]; [assumption|].
  pose proof (searchsorted_before _ _ _ _ Hlt Hx). lra.
Qed.

Lemma searchsorted_mono (a : list Q) (v w : Q) :
  v <= w -> (np.searchsorted a v <= np.searchsorted a w)%nat.
Proof.
  intros Hvw. induction a as [|y a IH]; simpl; [lia|].
  destruct (np.ltb y v) eqn:E1, (np.ltb y w) eqn:E2; try lia.
  apply ltb_lt in E1. apply ltb_ge in E2. lra.
Qed.

Lemma searchsorted_zero (a : list Q) (v : Q) :
  np.searchsorted a v = 0%nat <-> a = [] \/ exists x a', a = x :: a' /\ v <= x.
Proof.
  destruct a as [|x a]; simpl.
  - split; auto.
  - destruct (np.ltb x v) eqn:E.
    + split; [discriminate|]. intros [|[y [a' [[= <- <-] Hv]]]]; [discriminate|].
      apply ltb_lt in E. lra.
    + split; [|reflexivity]. intros _. right. exists x, a. split; [reflexivity|].
      apply ltb_ge. assumption.
Qed.

(** *** Sorting *)

Section Sorting.
Context {A : Type} (key : A -> Q).

Lemma insert_by_perm (a : A) (l : list A) : Permutation (np.insert_by key a l) (a :: l).
Proof.
  induction l as [|b l IH]; simpl; [reflexivity|].
  destruct (Qle_bool (key a) (key b)); [reflexivity|].
  rewrite IH. apply perm_swap.
Qed.

Lemma sort_by_perm (l : list A) : Permutation (np.sort_by key l) l.
Proof.
  induction l as [|a l IH]; simpl; [reflexivity|].
  rewrite insert_by_perm. apply perm_skip. assumption.
Qed.

Lemma insert_by_hd (a b : A) (l : list A) :
  (np.key_le key) b a -> HdRel (np.key_le key) b l -> HdRel (np.key_le key) b (np.insert_by key a l).
Proof.
  intros Hba Hl. destruct l as [|c l]; simpl.
  - constructor. assumption.
  - destruct (Qle_bool (key a) (key c)); constructor; [assumption|].
    inversion Hl. assumption.
Qed.

Lemma insert_by_sorted (a : A) (l : list A) :
  Sorted (np.key_le key) l -> Sorted (np.key_le key) (np.insert_by key a l).
Proof.
  induction 1 as [|b l Hs IH Hhd]; simpl.
  - repeat constructor.
  - destruct (Qle_bool (key a) (key b)) eqn:E.
    + constructor; [constructor; assumption|]. constructor.
      apply Qle_bool_iff. assumption.
    + constructor; [assumption|]. apply insert_by_hd; [|assumption].
      unfold np.key_le. destruct (Qlt_le_dec (key b) (key a)) as [Hlt|Hle]; [lra|].
      apply Qle_bool_iff in Hle. congruence.
Qed.

Lemma sort_by_sorted (l : list A) : Sorted (np.key_le key) (np.sort_by key l).
Proof.
  induction l as [|a l IH]; simpl; [constructor|]. apply insert_by_sorted. assumption.
Qed.

Lemma sorted_map_key (l : list A) : Sorted (np.key_le key) l -> Sorted Qle (map key l).
Proof.
  induction 1 as [|b l Hs IH Hhd]; simpl; constructor; [assumption|].
  destruct Hhd; simpl; constructor. assumption.
Qed.

End Sorting.

Lemma Qle_trans' : Transitive Qle.
Proof. intros a b c. apply Qle_trans. Qed.

(** In an ascending list a later element is not smaller. *)
Lemma sorted_lookup_le (l : list Q) (i j : nat) (a b : Q) :
  Sorted Qle l -> (i <= j)%nat -> l !! i = Some a -> l !! j = Some b -> a <= b.
Proof.
  intros Hs. apply (Sorted_StronglySorted Qle_trans') in Hs.
  revert i j a b. induction Hs as [|c l Hs IH Hall]; intros i j a b Hij Ha Hb; [discriminate|].
  destruct i as [|i], j as [|j]; simpl in *; try lia.
  - injection Ha as <-. injection Hb as <-. lra.
  - injection Ha as <-. rewrite Forall_forall in Hall. apply Hall.
    eapply list_elem_of_lookup_2. eassumption.
  - apply (IH i j); [lia|assumption..].
Qed.

Lemma take_seq (l : list Q) : np.take l (seq 0 (length l)) = l.
Proof.
  unfold np.take. induction l as [|v l IH]; simpl; [reflexivity|].
  f_equal. rewrite <- seq_shift, map_map. simpl. assumption.
Qed.

(** The values taken in the order of [argsort] are ascending. *)
Lemma take_argsort_sorted (l : list Q) : Sorted Qle (np.take l (np.argsort l)).
Proof.
  unfold np.take, np.argsort. apply (sorted_map_key (fun i => nth i l 0)).
  apply sort_by_sorted.
Qed.

(** The values of another array of the same size, taken in the order of
    [argsort], are these values in another order. *)
Lemma take_argsort_perm (l l' : list Q) :
  length l = length l' -> Permutation (np.take l (np.argsort l')) l.
Proof.
  intros Hlen. unfold np.argsort. rewrite <- Hlen.
  transitivity (np.take l (seq 0 (length l))); [|rewrite take_seq; reflexivity].
  unfold np.take. apply Permutation_map. apply sort_by_perm.
Qed.

Lemma sort_sorted (l : list Q) : Sorted Qle (np.sort l).
Proof.
  unfold np.sort. rewrite <- (map_id (np.sort_by _ l)).
  apply (sorted_map_key (fun v => v)). apply sort_by_sorted.
Qed.

Lemma sort_perm (l : list Q) : Permutation (np.sort l) l.
Proof. apply sort_by_perm. Qed.

(** *** Sums *)

Lemma sum_perm (l l' : list Q) : Permutation l l' -> np.sum l == np.sum l'.
Proof.
  induction 1; simpl; try lra.
Qed.

Lemma sum_nonneg (l : list Q) : Forall (fun v => 0 <= v) l -> 0 <= np.sum l.
Proof.
  induction 1; simpl; lra.
Qed.

Lemma cumsum_from_length (acc : Q) (l : list Q) : length (np.cumsum_from acc l) = length l.
Proof.
  revert acc. induction l as [|v l IH]; intros acc; simpl; [reflexivity|]. f_equal. apply IH.
Qed.

(** The last running sum is the sum. *)
Lemma cumsum_from_last (acc : Q) (l : list Q) :
  l <> [] -> exists c, last (np.cumsum_from acc l) = Some c /\ c == acc + np.sum l.
Proof.
  revert acc. induction l as [|v l IH]; intros acc Hne; [congruence|].
  destruct l as [|w l].
  - simpl. eexists. split; [reflexivity|]. lra.
  - destruct (IH (acc + v)) as [c [Hc Hs]]; [discriminate|].
    exists c. split.
    + simpl in *. assumption.
    + rewrite Hs. simpl. lra.
Qed.

(** *** The level of one target *)

Lemma div_ok_inv (a b c : Q) : np.div a b = Ok c -> ~ b == 0 /\ c = a / b.
Proof.
  unfold np.div. destruct (Qeq_bool b 0) eqn:E; [discriminate|].
  intros [= <-]. split; [|reflexivity]. intros Hb. apply Qeq_bool_iff in Hb. congruence.
Qed.

Lemma div_ok (a b : Q) : ~ b == 0 -> np.div a b = Ok (a / b).
Proof.
  intros Hb. unfold np.div. destruct (Qeq_bool b 0) eqn:E; [|reflexivity].
  apply Qeq_bool_iff in E. contradiction.
Qed.

Lemma div_raises (a b : Q) (e : exn) : np.div a b <> Raise e.
Proof. unfold np.div. destruct (Qeq_bool b 0); discriminate. Qed.

(** What a level that was returned is made of. *)
Lemma contour_level_ok_inv (s cum : list Q) (t : Q) (ix : nat) (lvl : Q) :
  contour_level s cum t ix = Ok lvl ->
  (0 < ix)%nat /\
  exists ci ci1 si si1,
    cum !! ix = Some ci /\ cum !! (ix - 1)%nat = Some ci1 /\
    s !! ix = Some si /\ s !! (ix - 1)%nat = Some si1 /\
    ~ ci - ci1 == 0 /\
    lvl = si * (1 - (ci - t) / (ci - ci1)) + (ci - t) / (ci - ci1) * si1.
Proof.
  unfold contour_level. destruct (Nat.eqb_spec ix 0) as [|Hix]; [discriminate|].
  assert (0 < ix)%nat as Hpos by lia.
  destruct (np.get cum (Z.of_nat ix)) as [ci| |] eqn:Hci; try discriminate; simpl.
  destruct (np.get cum (Z.of_nat ix - 1)) as [ci1| |] eqn:Hci1; try discriminate; simpl.
  destruct (np.div (ci - t) (ci - ci1)) as [d| |] eqn:Hd; try discriminate; simpl.
  destruct (np.get s (Z.of_nat ix)) as [si| |] eqn:Hsi; try discriminate; simpl.
  destruct (np.get s (Z.of_nat ix - 1)) as [si1| |] eqn:Hsi1; try discriminate; simpl.
  intros [= <-]. split; [assumption|].
  apply div_ok_inv in Hd as [Hh ->].
  exists ci, ci1, si, si1.
  repeat split; auto using get_nat_inv, get_pred_inv.
Qed.

(** The only [DensitiesError] of a level is the one of position 0. *)
Lemma contour_level_raises (s cum : list Q) (t : Q) (ix : nat) (e : exn) :
  contour_level s cum t ix = Raise e ->
  (ix = 0%nat /\ e = DensitiesError ContourOutsideRange) \/ (ix <> 0%nat /\ e = IndexError).
Proof.
  unfold contour_level. destruct (Nat.eqb_spec ix 0) as [|Hix].
  - intros [= <-]. left. auto.
  - intros Hr. right. split; [assumption|].
    destruct (np.get cum (Z.of_nat ix)) as [ci| |] eqn:Hci; simpl in Hr;
      [|injection Hr as <-; eapply get_raises; eassumption|discriminate].
    destruct (np.get cum (Z.of_nat ix - 1)) as [ci1| |] eqn:Hci1; simpl in Hr;
      [|injection Hr as <-; eapply get_raises; eassumption|discriminate].
    destruct (np.div (ci - t) (ci - ci1)) as [d| |] eqn:Hd; simpl in Hr;
      [|exfalso; eapply div_raises; eassumption|discriminate].
    destruct (np.get s (Z.of_nat ix)) as [si| |] eqn:Hsi; simpl in Hr;
      [|injection Hr as <-; eapply get_raises; eassumption|discriminate].
    destruct (np.get s (Z.of_nat ix - 1)) as [si1| |] eqn:Hsi1; simpl in Hr;
      [discriminate|injection Hr as <-; eapply get_raises; eassumption|discriminate].
Qed.

(** Inside the cumulative sums, past position 0, the level is returned. *)
Lemma contour_level_defined (s cum : list Q) (t : Q) :
  length s = length cum ->
  (0 < np.searchsorted cum t < length cum)%nat ->
  exists lvl, contour_level s cum t (np.searchsorted cum t) = Ok lvl.
Proof.
  intros Hlen [Hpos Hlt]. set (ix := np.searchsorted cum t) in *.
  destruct (lookup_lt_is_Some_2 cum ix Hlt) as [ci Hci].
  destruct (lookup_lt_is_Some_2 cum (ix - 1)%nat ltac:(lia)) as [ci1 Hci1].
  destruct (lookup_lt_is_Some_2 s ix ltac:(lia)) as [si Hsi].
  destruct (lookup_lt_is_Some_2 s (ix - 1)%nat ltac:(lia)) as [si1 Hsi1].
  pose proof (searchsorted_at cum t ci Hci) as Hat.
  pose proof (searchsorted_before cum t (ix - 1)%nat ci1 ltac:(fold ix; lia) Hci1) as Hbe.
  unfold contour_level. destruct (Nat.eqb_spec ix 0) as [|_]; [lia|].
  rewrite (get_nat_ok _ _ _ Hci). simpl.
  replace (Z.of_nat ix - 1)%Z with (Z.of_nat (ix - 1)) by lia.
  rewrite (get_nat_ok _ _ _ Hci1). simpl.
  rewrite div_ok by lra. simpl.
  rewrite (get_nat_ok _ _ _ Hsi). simpl.
  rewrite (get_nat_ok _ _ _ Hsi1). simpl. eauto.
Qed.

(** On ascending entries, a larger target gets a level that is not
    smaller. *)
Lemma contour_level_mono (s cum : list Q) (t1 t2 l1 l2 : Q) :
  Sorted Qle s -> t2 <= t1 ->
  contour_level s cum t1 (np.searchsorted cum t1) = Ok l1 ->
  contour_level s cum t2 (np.searchsorted cum t2) = Ok l2 ->
  l2 <= l1.
Proof.
  intros Hs Ht H1 H2.
  apply contour_level_ok_inv in H1 as [Hp1 (c1 & b1 & s1 & r1 & Hc1 & Hb1 & Hs1 & Hr1 & Hh1 & ->)].
  apply contour_level_ok_inv in H2 as [Hp2 (c2 & b2 & s2 & r2 & Hc2 & Hb2 & Hs2 & Hr2 & Hh2 & ->)].
  pose proof (searchsorted_mono cum _ _ Ht) as Hix.
  set (ix1 := np.searchsorted cum t1) in *. set (ix2 := np.searchsorted cum t2) in *.
  pose proof (searchsorted_at cum t1 c1 Hc1) as Hat1.
  pose proof (searchsorted_at cum t2 c2 Hc2) as Hat2.
  pose proof (searchsorted_before cum t1 (ix1 - 1)%nat b1 ltac:(fold ix1; lia) Hb1) as Hbe1.
  pose proof (searchsorted_before cum t2 (ix2 - 1)%nat b2 ltac:(fold ix2; lia) Hb2) as Hbe2.
  pose proof (sorted_lookup_le s (ix1 - 1)%nat ix1 r1 s1 Hs ltac:(lia) Hr1 Hs1) as Hrs1.
  pose proof (sorted_lookup_le s (ix2 - 1)%nat ix2 r2 s2 Hs ltac:(lia) Hr2 Hs2) as Hrs2.
  set (d1 := (c1 - t1) / (c1 - b1)). set (d2 := (c2 - t2) / (c2 - b2)).
  assert (d1 * (c1 - b1) == c1 - t1) as Hd1 by (unfold d1; field; assumption).
  assert (d2 * (c2 - b2) == c2 - t2) as Hd2 by (unfold d2; field; assumption).
  assert (0 <= d1 /\ d1 <= 1) as [Hd1a Hd1b].
  { split.
    - unfold d1. apply Qle_shift_div_l; lra.
    - unfold d1. apply Qle_shift_div_r; lra. }
  assert (0 <= d2 /\ d2 <= 1) as [Hd2a Hd2b].
  { split.
    - unfold d2. apply Qle_shift_div_l; lra.
    - unfold d2. apply Qle_shift_div_r; lra. }
  destruct (Nat.eq_dec ix1 ix2) as [Heq|Hne].
  - rewrite Heq in *. 
    assert (c1 = c2) by congruence. assert (b1 = b2) by congruence.
    assert (s1 = s2) by congruence. assert (r1 = r2) by congruence. subst c2 b2 s2 r2.
    assert (d1 <= d2).
    { unfold d1, d2. apply Qmult_le_compat_r; [|apply Qinv_le_0_compat; lra]. lra. }
    nra.
  - assert (s2 <= r1) by (apply (sorted_lookup_le s ix2 (ix1 - 1)%nat); auto; lia).
    nra.
Qed.

(** *** The edge-adjusted copy *)

Lemma halve_slice_shape (k c : nat) (a : ndarray) : shape (np.halve_slice k c a) = shape a.
Proof. reflexivity. Qed.

Lemma halve_slice_length (k c : nat) (a : ndarray) :
  length (data (np.halve_slice k c a)) = length (data a).
Proof. simpl. apply length_imap. Qed.

Lemma halve_slice_nonneg (k c : nat) (a : ndarray) :
  nonneg (data a) -> nonneg (data (np.halve_slice k c a)).
Proof.
  unfold nonneg. rewrite !Forall_lookup. intros Ha i v. simpl.
  rewrite list_lookup_imap. destruct (data a !! i) as [w|] eqn:Hw; [|discriminate].
  simpl. specialize (Ha i w Hw). simpl in Ha.
  destruct (_ =? _)%nat; intros [= <-]; [|assumption].
  apply Qle_shift_div_l; lra.
Qed.

Lemma half_edges_ok (a b : ndarray) (axs : list nat) :
  half_edges a axs = Ok b ->
  shape b = shape a /\ length (data b) = length (data a) /\
  (nonneg (data a) -> nonneg (data b)).
Proof.
  revert a. induction axs as [|k axs IH]; intros a; simpl.
  - intros [= <-]. auto.
  - destruct (nth k (shape a) 0%nat =? 0)%nat; [discriminate|].
    intros Hb. apply IH in Hb as (Hsh & Hlen & Hnn).
    rewrite !halve_slice_shape in Hsh. rewrite !halve_slice_length in Hlen.
    repeat split; auto using halve_slice_nonneg.
Qed.

Lemma half_edges_raises (a : ndarray) (axs : list nat) (e : exn) :
  half_edges a axs = Raise e -> e = IndexError.
Proof.
  revert a. induction axs as [|k axs IH]; intros a; simpl; [discriminate|].
  destruct (nth k (shape a) 0%nat =? 0)%nat; [congruence|]. apply IH.
Qed.

Lemma adjusted_bins_ok (inbins abins : ndarray) (half_edge : bool) :
  adjusted_bins inbins half_edge = Ok abins ->
  length (data abins) = length (data inbins) /\
  (nonneg (data inbins) -> nonneg (data abins)).
Proof.
  unfold adjusted_bins. destruct half_edge.
  - intros Hb. apply half_edges_ok in Hb. tauto.
  - intros [= <-]. auto.
Qed.

Lemma adjusted_bins_raises (inbins : ndarray) (half_edge : bool) (e : exn) :
  adjusted_bins inbins half_edge = Raise e -> e = IndexError.
Proof.
  unfold adjusted_bins. destruct half_edge; [apply half_edges_raises|discriminate].
Qed.

(** *** The solver on the store *)

Lemma for_axes_halve_edges (abins : loc) (axs : list nat) (h : gmap loc ndarray) (a : ndarray) :
  h !! abins = Some a ->
  exists h' r,
    for_axes (halve_edges abins) axs h = (h', r) /\
    (forall l b, l <> abins -> h !! l = Some b -> h' !! l = Some b) /\
    match half_edges a axs with
    | Ok b => r = Ok tt /\ h' !! abins = Some b
    | Raise e => r = Raise e
    | NonFinite => r = NonFinite
    end.
Proof.
  revert h a. induction axs as [|k axs IH]; intros h a Ha; simpl.
  - exists h, (Ok tt). unfold prog_ret. auto.
  - unfold prog_bind at 1. unfold halve_edges at 1. unfold prog_bind at 1. unfold load at 1.
    rewrite (lookup_total_correct _ _ _ Ha).
    destruct (nth k (shape a) 0%nat =? 0)%nat eqn:En.
    + unfold lift. exists h, (Raise IndexError). auto.
    + unfold prog_bind, modify.
      rewrite (lookup_total_correct _ _ _ Ha).
      rewrite lookup_total_insert_eq.
      set (a1 := np.halve_slice k (nth k (shape a) 0%nat - 1) a).
      set (h1 := <[abins := np.halve_slice k 0 a1]> (<[abins := a1]> h)).
      destruct (IH h1 (np.halve_slice k 0 a1)) as (h' & r & Hrun & Hframe & Hres).
      { unfold h1. apply lookup_insert_eq. }
      exists h', r. split; [exact Hrun|]. split; [|exact Hres].
      intros l b Hl Hb. apply Hframe; [assumption|].
      unfold h1. rewrite !lookup_insert_ne by congruence. assumption.
Qed.

(** On the store the solver answers as the function of the value, and
    every array that was there is as it was. *)
Lemma getContourLevels_prog_spec (h : gmap loc ndarray) (inbins : loc) (a : ndarray)
    (contours : list Q) (missing_norm : Q) (half_edge : bool) :
  h !! inbins = Some a ->
  exists h',
    getContourLevels_prog inbins contours missing_norm half_edge h
      = (h', getContourLevels a contours missing_norm half_edge) /\
    forall l b, h !! l = Some b -> h' !! l = Some b.
Proof.
  intros Ha. unfold getContourLevels_prog, getContourLevels, adjusted_bins.
  destruct half_edge.
  - set (abins := fresh (dom h)).
    assert (h !! abins = None) as Hfresh.
    { apply not_elem_of_dom. apply is_fresh. }
    set (h1 := <[abins := a]> h).
    destruct (for_axes_halve_edges abins (seq 0 (length (shape a))) h1 a) as (h' & r & Hrun & Hframe & Hres).
    { apply lookup_insert_eq. }
    assert (forall l b, h !! l = Some b -> h' !! l = Some b) as Hkeep.
    { intros l b Hb. assert (l <> abins) by congruence.
      apply Hframe; [assumption|]. unfold h1. rewrite lookup_insert_ne by congruence. assumption. }
    exists h'. split; [|exact Hkeep].
    unfold prog_bind at 1. unfold prog_bind at 1. unfold copy at 1.
    rewrite (lookup_total_correct _ _ _ Ha). fold abins. fold h1.
    unfold prog_bind at 1. unfold load at 1.
    rewrite (lookup_total_correct h1 abins a) by apply lookup_insert_eq.
    unfold prog_bind at 1. rewrite Hrun.
    destruct (half_edges a (seq 0 (length (shape a)))) as [b| |] eqn:Hb.
    + destruct Hres as [-> Hb']. unfold prog_ret, prog_bind, load, lift.
      rewrite (lookup_total_correct _ _ _ Hb').
      rewrite (lookup_total_correct _ _ _ (Hkeep _ _ Ha)). reflexivity.
    + rewrite Hres. reflexivity.
    + rewrite Hres. reflexivity.
  - exists h. split; [|auto].
    unfold prog_bind, prog_ret, load, lift.
    rewrite (lookup_total_correct _ _ _ Ha). reflexivity.
Qed.

(** C10.  The solver never modifies its input array: whatever [contours],
    [missing_norm] and [half_edge] are, and whether the call returns or
    raises, the store holds after the call, behind [inbins], the array
    that it held before.  With [half_edge] the edges are halved in a
    copy; without it the array is only read. *)
Theorem getContourLevels_keeps_inbins (h : gmap loc ndarray) (inbins : loc) (a : ndarray)
    (contours : list Q) (missing_norm : Q) (half_edge : bool) :
  h !! inbins = Some a ->
  (getContourLevels_prog inbins contours missing_norm half_edge h).1 !! inbins = Some a.
Proof.
  intros Ha.
  destruct (getContourLevels_prog_spec h inbins a contours missing_norm half_edge Ha)
    as (h' & Hrun & Hkeep).
  rewrite Hrun. simpl. apply Hkeep. assumption.
Qed.

(** C10 on a store that holds the weights 1, 2, 5, 2, 1. *)
Lemma getContourLevels_keeps_inbins_witness :
  ({[1%positive := bins5]} : gmap loc ndarray) !! 1%positive = Some bins5 /\
  (getContourLevels_prog 1%positive defaultContours 0 true {[1%positive := bins5]}).1
    !! 1%positive = Some bins5.
Proof.
  split; [reflexivity|].
  apply (getContourLevels_keeps_inbins {[1%positive := bins5]} 1%positive bins5
           defaultContours 0 true).
  reflexivity.
Defined.

(** *** The levels of a call *)

Lemma getContourLevels_unfold (inbins abins : ndarray) (contours : list Q)
    (missing_norm : Q) (half_edge : bool) :
  adjusted_bins inbins half_edge = Ok abins ->
  getContourLevels inbins contours missing_norm half_edge
  = let sortgrid := contour_sortgrid abins inbins in
    let cumsum := np.cumsum sortgrid in
    for_each (fun target => contour_level sortgrid cumsum target (np.searchsorted cumsum target))
             (contour_targets contours (np.sum (data abins)) missing_norm).
Proof.
  intros Hb. unfold getContourLevels. rewrite Hb. reflexivity.
Qed.

Lemma contour_targets_lookup (contours : list Q) (norm missing_norm : Q) (i : nat) (c : Q) :
  contours !! i = Some c ->
  contour_targets contours norm missing_norm !! i = Some ((1 - c) * norm - missing_norm).
Proof.
  intros Hc. unfold contour_targets. rewrite list_lookup_fmap, Hc. reflexivity.
Qed.

(** Without the edge adjustment the entries are the sorted weights. *)
Lemma contour_sortgrid_sorted (inbins abins : ndarray) (half_edge : bool) :
  adjusted_bins inbins half_edge = Ok abins ->
  half_edge = false \/ Sorted Qle (contour_sortgrid abins inbins) ->
  Sorted Qle (contour_sortgrid abins inbins).
Proof.
  intros Hb [->|Hs]; [|assumption].
  injection Hb as <-. apply take_argsort_sorted.
Qed.

(** C4, as amended.  For weights that are not negative and a call that
    returns, a smaller fraction gets a level that is not smaller:
    [c1 < c2] gives [level c2 <= level c1], when [half_edge] is false or,
    more generally, when the edge-adjusted values, taken in ascending
    order of the original weights, are themselves ascending. *)
Theorem contour_levels_monotone (inbins abins : ndarray) (contours : list Q)
    (missing_norm : Q) (half_edge : bool) (levels : list Q) (i j : nat) (c1 c2 l1 l2 : Q) :
  nonneg (data inbins) ->
  adjusted_bins inbins half_edge = Ok abins ->
  half_edge = false \/ Sorted Qle (contour_sortgrid abins inbins) ->
  getContourLevels inbins contours missing_norm half_edge = Ok levels ->
  contours !! i = Some c1 -> contours !! j = Some c2 -> c1 < c2 ->
  levels !! i = Some l1 -> levels !! j = Some l2 ->
  l2 <= l1.
Proof.
  intros Hnn Hb Hs Hrun Hc1 Hc2 Hlt Hl1 Hl2.
  pose proof (contour_sortgrid_sorted _ _ _ Hb Hs) as Hsorted.
  destruct (adjusted_bins_ok _ _ _ Hb) as [_ Hann]. specialize (Hann Hnn).
  pose proof (sum_nonneg _ Hann) as Hnorm.
  rewrite (getContourLevels_unfold _ _ _ _ _ Hb) in Hrun. cbv zeta in Hrun.
  destruct (for_each_lookup _ _ _ i _ Hrun (contour_targets_lookup _ _ missing_norm _ _ Hc1))
    as (l1' & Hl1' & Hlev1).
  destruct (for_each_lookup _ _ _ j _ Hrun (contour_targets_lookup _ _ missing_norm _ _ Hc2))
    as (l2' & Hl2' & Hlev2).
  assert (l1' = l1) by congruence. assert (l2' = l2) by congruence. subst l1' l2'.
  eapply contour_level_mono; [exact Hsorted| |exact Hlev1|exact Hlev2].
  nra.
Qed.

(** The monotonicity of C4 on the weights 1, 2, 5, 2, 1 with their edges halved. *)
Lemma contour_levels_monotone_witness :
  nonneg (data bins5) /\
  adjusted_bins bins5 true = Ok bins5_adjusted /\
  (true = false \/ Sorted Qle (contour_sortgrid bins5_adjusted bins5)) /\
  getContourLevels bins5 bins5_contours 0 true = Ok bins5_levels /\
  bins5_contours !! 0%nat = Some (3 # 10) /\
  bins5_contours !! 1%nat = Some (68 # 100) /\
  (3 # 10) < (68 # 100) /\
  exists l1 l2, bins5_levels !! 0%nat = Some l1 /\ bins5_levels !! 1%nat = Some l2 /\ l2 <= l1.
Proof.
  assert (nonneg (data bins5)) as Hnn.
  { unfold nonneg. simpl. repeat constructor; discriminate. }
  assert (adjusted_bins bins5 true = Ok bins5_adjusted) as Hb by (vm_compute; reflexivity).
  assert (Sorted Qle (contour_sortgrid bins5_adjusted bins5)) as Hs.
  { vm_compute. ascending. }
  assert (getContourLevels bins5 bins5_contours 0 true = Ok bins5_levels) as Hrun
    by (vm_compute; reflexivity).
  repeat split; try assumption; try reflexivity; [right; exact Hs|].
  eexists _, _. split; [reflexivity|]. split; [reflexivity|].
  apply (contour_levels_monotone bins5 bins5_adjusted bins5_contours 0 true bins5_levels
           0 1 (3 # 10) (68 # 100));
    try assumption; try reflexivity.
  right. exact Hs.
Defined.

(** C4 as stated fails with the edge adjustment.  The weights 8, 1, 2,
    3, 4 are adjusted to 4, 1, 2, 3, 2; in ascending order of the original
    weights the adjusted ones are 1, 2, 3, 2, 4, with the running sums 1,
    3, 6, 8, 12.  The fraction 0.4 has the target 7.2 and the level 2.4,
    the fraction 0.5 has the target 6 and the level 3: the smaller
    fraction gets the smaller level. *)
Lemma contour_levels_not_monotone :
  exists l1 l2,
    getContourLevels edge_bins5 [2 # 5; 1 # 2] 0 true = Ok [l1; l2] /\
    (2 # 5) < (1 # 2) /\ l1 == 12 # 5 /\ l2 == 3 /\ ~ l2 <= l1.
Proof.
  eexists _, _. split; [vm_compute; reflexivity|].
  repeat split; try reflexivity. intros Hle. vm_compute in Hle. apply Hle. reflexivity.
Qed.

(** C5, as amended.  On weights of dtype float64 that are not negative,
    with fractions that are not negative and a [missing_norm] that is not
    negative (no target is then above the total, which would be an
    IndexError), and once the edge adjustment has succeeded, the solver
    raises [DensitiesError("Contour level outside plotted ranges")]
    exactly when the insertion position of one of its targets in the
    running sums is 0.  In particular the float64 weights 1, 2, 5, 2, 1
    with the fraction 0.999999, [half_edge] and no [missing_norm] raise
    it. *)
Theorem getContourLevels_out_of_range :
  (forall (inbins abins : ndarray) (contours : list Q) (missing_norm : Q) (half_edge : bool),
     nonneg (data inbins) -> nonneg contours -> 0 <= missing_norm ->
     adjusted_bins inbins half_edge = Ok abins ->
     let cumsum := np.cumsum (contour_sortgrid abins inbins) in
     let targets := contour_targets contours (np.sum (data abins)) missing_norm in
     getContourLevels inbins contours missing_norm half_edge
       = Raise (DensitiesError ContourOutsideRange)
     <-> Exists (fun target => np.searchsorted cumsum target = 0%nat) targets)
  /\ getContourLevels (np.of_list [1; 2; 5; 2; 1]) [999999 # 1000000] 0 true
     = Raise (DensitiesError ContourOutsideRange).
Proof.
  split; [|vm_compute; reflexivity].
  intros inbins abins contours missing_norm half_edge Hnn Hcs Hm Hb cumsum targets.
  rewrite (getContourLevels_unfold _ _ _ _ _ Hb). cbv zeta. fold cumsum. fold targets.
  set (sortgrid := contour_sortgrid abins inbins) in *.
  split.
  - intros Hr. apply for_each_raises in Hr.
    rewrite Exists_exists in Hr |- *. destruct Hr as (t & Ht & Hlev).
    exists t. split; [assumption|].
    apply contour_level_raises in Hlev as [[Hix _]|[_ He]]; [assumption|discriminate].
  - intros Hex. apply for_each_raises_one.
    + destruct (adjusted_bins_ok _ _ _ Hb) as [Hlen Hann]. specialize (Hann Hnn).
      pose proof (sum_nonneg _ Hann) as Hnorm.
      assert (length sortgrid = length cumsum) as Hlens.
      { unfold cumsum, np.cumsum. rewrite cumsum_from_length. reflexivity. }
      rewrite Forall_forall. intros t Ht.
      destruct (Nat.eq_dec (np.searchsorted cumsum t) 0%nat) as [Hz|Hnz].
      * right. rewrite Hz. reflexivity.
      * left. apply contour_level_defined; [assumption|].
        split; [lia|].
        assert (sortgrid <> []) as Hne.
        { intros Hnil. unfold cumsum in Hnz. rewrite Hnil in Hnz. simpl in Hnz. lia. }
        destruct (cumsum_from_last 0 sortgrid Hne) as (c & Hc & Hsum).
        fold (np.cumsum sortgrid) in Hc. fold cumsum in Hc.
        rewrite last_lookup in Hc.
        assert (t <= c) as Htc.
        { rewrite Hsum.
          rewrite (sum_perm sortgrid (data abins))
            by (apply take_argsort_perm; assumption).
          unfold targets, contour_targets in Ht.
          apply list_elem_of_fmap in Ht as (c0 & -> & Hc0).
          unfold nonneg in Hcs. rewrite Forall_forall in Hcs. specialize (Hcs c0 Hc0).
          simpl in Hcs. nra. }
        pose proof (searchsorted_bound cumsum t _ c Hc Htc) as Hbound.
        assert (length cumsum <> 0%nat).
        { rewrite <- Hlens. destruct sortgrid; [congruence|simpl; lia]. }
        lia.
    + rewrite Exists_exists in Hex |- *. destruct Hex as (t & Ht & Hz).
      exists t. split; [assumption|]. rewrite Hz. reflexivity.
Qed.

(** The condition of C5, as amended, on the weights 1, 2, 5, 2, 1. *)
Lemma getContourLevels_out_of_range_witness :
  nonneg (data bins5) /\ nonneg [999999 # 1000000] /\ 0 <= 0 /\
  adjusted_bins bins5 true = Ok bins5_adjusted /\
  (getContourLevels bins5 [999999 # 1000000] 0 true = Raise (DensitiesError ContourOutsideRange)
   <-> Exists (fun target =>
                 np.searchsorted (np.cumsum (contour_sortgrid bins5_adjusted bins5)) target
                 = 0%nat)
              (contour_targets [999999 # 1000000] (np.sum (data bins5_adjusted)) 0)).
Proof.
  assert (nonneg (data bins5)) as Hnn.
  { unfold nonneg. simpl. repeat constructor; discriminate. }
  assert (nonneg [999999 # 1000000]) as Hcs.
  { unfold nonneg. repeat constructor. discriminate. }
  assert (0 <= 0) as Hm by discriminate.
  assert (adjusted_bins bins5 true = Ok bins5_adjusted) as Hb by (vm_compute; reflexivity).
  repeat (split; [assumption|]).
  exact (proj1 getContourLevels_out_of_range bins5 bins5_adjusted [999999 # 1000000] 0 true
           Hnn Hcs Hm Hb).
Defined.

(** C5 as stated fails, in two ways.  With the fractions -0.1 and 1.5 on
    the float64 weights 1, 2, 5, 2, 1 the target of 1.5 has the insertion
    position 0, but the target of -0.1 comes first and is above every
    running sum: [cumsum[ix]] raises an IndexError, not the
    DensitiesError.  And on the weights 1, 2, 5, 2, 1 of dtype int64 the
    halved end weights are stored as 0, the target of 0.999999 is above
    the first two running sums, and the call of the claim returns the
    level 9e-06. *)
Lemma getContourLevels_out_of_range_fails :
  (adjusted_bins bins5 true = Ok bins5_adjusted /\
   Exists (fun target =>
             np.searchsorted (np.cumsum (contour_sortgrid bins5_adjusted bins5)) target = 0%nat)
          (contour_targets [-1 # 10; 3 # 2] (np.sum (data bins5_adjusted)) 0) /\
   getContourLevels bins5 [-1 # 10; 3 # 2] 0 true = Raise IndexError /\
   ~ (getContourLevels bins5 [-1 # 10; 3 # 2] 0 true
        = Raise (DensitiesError ContourOutsideRange)
      <-> Exists (fun target =>
                    np.searchsorted (np.cumsum (contour_sortgrid bins5_adjusted bins5)) target
                    = 0%nat)
                 (contour_targets [-1 # 10; 3 # 2] (np.sum (data bins5_adjusted)) 0)))
  /\
  (exists level,
     getContourLevels_int64 [1; 2; 5; 2; 1]%Z [999999 # 1000000] 0 true = Ok [level] /\
     level == 9 # 1000000 /\
     getContourLevels_int64 [1; 2; 5; 2; 1]%Z [999999 # 1000000] 0 true
       <> Raise (DensitiesError ContourOutsideRange)).
Proof.
  assert (Exists (fun target =>
             np.searchsorted (np.cumsum (contour_sortgrid bins5_adjusted bins5)) target = 0%nat)
          (contour_targets [-1 # 10; 3 # 2] (np.sum (data bins5_adjusted)) 0)) as Hex.
  { apply Exists_cons_tl, Exists_cons_hd. vm_compute. reflexivity. }
  assert (getContourLevels bins5 [-1 # 10; 3 # 2] 0 true = Raise IndexError) as Hrun
    by (vm_compute; reflexivity).
  split.
  - split; [vm_compute; reflexivity|]. split; [exact Hex|]. split; [exact Hrun|].
    intros [_ Hiff]. specialize (Hiff Hex). rewrite Hrun in Hiff. discriminate.
  - eexists. split; [vm_compute; reflexivity|]. split; [reflexivity|].
    intros Hr. vm_compute in Hr. discriminate.
Qed.

(** *** The threshold of one limit *)

Lemma limit_trial_ok_inv (g : InterpGrid) (ix : nat) (target trial : Q) :
  (0 < ix)%nat ->
  limit_trial g ix target = Ok trial ->
  exists ci ci1 si si1,
    g_cumsum g !! ix = Some ci /\ g_cumsum g !! (ix - 1)%nat = Some ci1 /\
    g_sortgrid g !! ix = Some si /\ g_sortgrid g !! (ix + 1)%nat = Some si1 /\
    ~ ci - ci1 == 0 /\
    trial = (1 - (ci - target) / (ci - ci1)) * si + (ci - target) / (ci - ci1) * si1.
Proof.
  intros Hpos. unfold limit_trial.
  destruct (np.get (g_sortgrid g) (Z.of_nat ix)) as [si| |] eqn:Hsi; try discriminate; simpl.
  destruct (Nat.ltb_spec 0 ix) as [_|]; [|lia].
  destruct (np.get (g_cumsum g) (Z.of_nat ix)) as [ci| |] eqn:Hci; try discriminate; simpl.
  destruct (np.get (g_cumsum g) (Z.of_nat ix - 1)) as [ci1| |] eqn:Hci1; try discriminate; simpl.
  destruct (np.div (ci - target) (ci - ci1)) as [d| |] eqn:Hd; try discriminate; simpl.
  destruct (np.get (g_sortgrid g) (Z.of_nat ix + 1)) as [si1| |] eqn:Hsi1; try discriminate; simpl.
  intros [= <-]. apply div_ok_inv in Hd as [Hh ->].
  replace (Z.of_nat ix + 1)%Z with (Z.of_nat (ix + 1)) in Hsi1 by lia.
  exists ci, ci1, si, si1. repeat split; auto using get_nat_inv, get_pred_inv.
Qed.

Lemma limit_trial_zero (g : InterpGrid) (target : Q) :
  limit_trial g 0 target = np.get (g_sortgrid g) 0.
Proof.
  unfold limit_trial. change (Z.of_nat 0) with 0%Z.
  destruct (np.get (g_sortgrid g) 0); reflexivity.
Qed.

Lemma get_last_inv {A} (l : list A) (v : A) : np.get l (-1) = Ok v -> last l = Some v.
Proof.
  unfold np.get. cbv zeta. change (-1 <? 0)%Z with true. cbv iota.
  destruct (_ && _)%bool eqn:E; [|discriminate].
  apply andb_true_iff in E as [E1 E2]. apply Z.leb_le in E1.
  rewrite last_lookup.
  replace (Init.Nat.pred (length l)) with (Z.to_nat (-1 + Z.of_nat (length l))) by lia.
  destruct (l !! _); congruence.
Qed.

(** What the tuple of one limit is made of: the threshold, the two flags,
    and the bound on each side that is not flagged. *)
Lemma limit_of_ok_inv {V : Type} `{Scipy} (self : Density1D V) (g : InterpGrid)
    (ix : nat) (target mn mx : Q) (lim_bot lim_top : bool) :
  limit_of self g ix target = Ok (mn, mx, lim_bot, lim_top) ->
  exists trial g0 gl,
    limit_trial g ix target = Ok trial /\
    g_grid g !! 0%nat = Some g0 /\ last (g_grid g) = Some gl /\
    lim_bot = np.geb g0 trial /\ lim_top = np.geb gl trial /\
    (lim_bot = false ->
     exists gi gi1 x0,
       let i := Z.of_nat (np.argmax (map (fun v => np.gtb v trial) (g_grid g))) in
       np.get (g_grid g) i = Ok gi /\ np.get (g_grid g) (i - 1) = Ok gi1 /\
       d1_x self !! 0%nat = Some x0 /\
       mn = x0 + (inject_Z i - (gi - trial) / (gi - gi1))
                 * (d1_spacing self / inject_Z (g_factor g))) /\
    (lim_top = false ->
     exists gi gi1 x0,
       let i := (g_bign g
                 - Z.of_nat (np.argmax (map (fun v => np.gtb v trial) (rev (g_grid g))))
                 - 1)%Z in
       np.get (g_grid g) i = Ok gi /\ np.get (g_grid g) (i + 1) = Ok gi1 /\
       d1_x self !! 0%nat = Some x0 /\
       mx = x0 + (inject_Z i + (gi - trial) / (gi - gi1))
                 * (d1_spacing self / inject_Z (g_factor g))).
Proof.
  unfold limit_of.
  destruct (limit_trial g ix target) as [trial| |]; try discriminate. simpl.
  destruct (np.div (d1_spacing self) (inject_Z (g_factor g))) as [finespace| |] eqn:Hfs;
    try discriminate. simpl.
  apply div_ok_inv in Hfs as [_ ->].
  destruct (np.get (g_grid g) 0) as [g0| |] eqn:Hg0; try discriminate. simpl.
  match goal with |- context [mbind _ ?m] => destruct m as [mn'| |] eqn:Hmn end;
    try discriminate. simpl.
  destruct (np.get (g_grid g) (-1)) as [gl| |] eqn:Hgl; try discriminate. simpl.
  match goal with |- context [mbind _ ?m] => destruct m as [mx'| |] eqn:Hmx end;
    try discriminate. simpl.
  intros Heq. injection Heq as E1 E2 E3 E4. subst mn' mx'.
  exists trial, g0, gl. split; [reflexivity|].
  split; [exact (get_nat_inv (g_grid g) 0 g0 Hg0)|].
  split; [apply get_last_inv; assumption|].
  split; [auto|]. split; [auto|]. split.
  - intros Hflag. rewrite <- E3 in Hflag. rewrite Hflag in Hmn.
    destruct (np.get (g_grid g) (Z.of_nat _)) as [gi| |] eqn:Hgi; try discriminate.
    simpl in Hmn.
    destruct (np.get (g_grid g) (Z.of_nat _ - 1)) as [gi1| |] eqn:Hgi1; try discriminate.
    simpl in Hmn.
    destruct (np.div (gi - trial) (gi - gi1)) as [d| |] eqn:Hd; try discriminate.
    simpl in Hmn. apply div_ok_inv in Hd as [_ ->].
    destruct (np.get (d1_x self) 0) as [x0| |] eqn:Hx0; try discriminate.
    simpl in Hmn. injection Hmn as <-.
    exists gi, gi1, x0. cbv zeta. repeat split; try assumption.
    exact (get_nat_inv (d1_x self) 0 x0 Hx0).
  - intros Hflag. rewrite <- E4 in Hflag. rewrite Hflag in Hmx.
    cbv zeta in Hmx.
    set (i := (g_bign g
               - Z.of_nat (np.argmax (map (fun v => np.gtb v trial) (rev (g_grid g))))
               - 1)%Z) in *.
    destruct (np.get (g_grid g) i) as [gi| |] eqn:Hgi; try discriminate.
    simpl in Hmx.
    destruct (np.get (g_grid g) (i + 1)) as [gi1| |] eqn:Hgi1; try discriminate.
    simpl in Hmx.
    destruct (np.div (gi - trial) (gi - gi1)) as [d| |] eqn:Hd; try discriminate.
    simpl in Hmx. apply div_ok_inv in Hd as [_ ->].
    destruct (np.get (d1_x self) 0) as [x0| |] eqn:Hx0; try discriminate.
    simpl in Hmx. injection Hmx as <-.
    exists gi, gi1, x0. cbv zeta. repeat split; try assumption.
    exact (get_nat_inv (d1_x self) 0 x0 Hx0).
Qed.

(** C8.  The two searches pair the sorted entries differently.  A level
    that the solver returns for a target at the insertion position [ix]
    is [sortgrid[ix] * (1 - d) + d * sortgrid[ix - 1]], with
    [d = (cumsum[ix] - target) / (cumsum[ix] - cumsum[ix - 1])].  The
    threshold of [getLimits] for [ix > 0] is
    [(1 - frac) * sortgrid[ix] + frac * sortgrid[ix + 1]], with the same
    fraction of the refined running sums; and it is this threshold that
    the tuple of [getLimits(p)] is made of, for the insertion position
    [ix > 0] of the target [(1 - p) * norm]: each flag compares an end of
    the refined curve with it, and a bound that is not at the end of the
    grid is interpolated at the first (or last) sample above it. *)
Theorem interpolation_pairings :
  (forall (inbins abins : ndarray) (contours : list Q) (missing_norm : Q) (half_edge : bool)
          (levels : list Q) (i : nat) (c level : Q),
     adjusted_bins inbins half_edge = Ok abins ->
     getContourLevels inbins contours missing_norm half_edge = Ok levels ->
     contours !! i = Some c -> levels !! i = Some level ->
     let sortgrid := contour_sortgrid abins inbins in
     let cumsum := np.cumsum sortgrid in
     let target := (1 - c) * np.sum (data abins) - missing_norm in
     let ix := np.searchsorted cumsum target in
     (0 < ix)%nat /\
     exists ci ci1 si si1,
       cumsum !! ix = Some ci /\ cumsum !! (ix - 1)%nat = Some ci1 /\
       sortgrid !! ix = Some si /\ sortgrid !! (ix - 1)%nat = Some si1 /\
       let d := (ci - target) / (ci - ci1) in
       level = si * (1 - d) + d * si1)
  /\
  (forall (g : InterpGrid) (ix : nat) (target trial : Q),
     (0 < ix)%nat ->
     limit_trial g ix target = Ok trial ->
     exists ci ci1 si si1,
       g_cumsum g !! ix = Some ci /\ g_cumsum g !! (ix - 1)%nat = Some ci1 /\
       g_sortgrid g !! ix = Some si /\ g_sortgrid g !! (ix + 1)%nat = Some si1 /\
       let frac := (ci - target) / (ci - ci1) in
       trial = (1 - frac) * si + frac * si1)
  /\
  (forall (V : Type) (H : Scipy) (p : Q) (interpGrid : option InterpGrid)
          (accuracy_factor : option Z) (self self' : Density1D V) (g : InterpGrid)
          (mn mx : Q) (lim_bot lim_top : bool),
     match interpGrid with
     | Some g' => Ok (self, g')
     | None => Density1D_initLimitGrids accuracy_factor self
     end = Ok (self', g) ->
     Density1D_getLimits (PyFloat p) interpGrid accuracy_factor self
       = Ok (self', OneLimit (mn, mx, lim_bot, lim_top)) ->
     let target := (1 - p) * g_norm g in
     let ix := np.searchsorted (g_cumsum g) target in
     (0 < ix)%nat ->
     exists ci ci1 si si1 g0 gl,
       g_cumsum g !! ix = Some ci /\ g_cumsum g !! (ix - 1)%nat = Some ci1 /\
       g_sortgrid g !! ix = Some si /\ g_sortgrid g !! (ix + 1)%nat = Some si1 /\
       g_grid g !! 0%nat = Some g0 /\ last (g_grid g) = Some gl /\
       let frac := (ci - target) / (ci - ci1) in
       let trial := (1 - frac) * si + frac * si1 in
       lim_bot = np.geb g0 trial /\ lim_top = np.geb gl trial /\
       (lim_bot = false ->
        exists gi gi1 x0,
          let i := Z.of_nat (np.argmax (map (fun v => np.gtb v trial) (g_grid g))) in
          np.get (g_grid g) i = Ok gi /\ np.get (g_grid g) (i - 1) = Ok gi1 /\
          d1_x self' !! 0%nat = Some x0 /\
          mn = x0 + (inject_Z i - (gi - trial) / (gi - gi1))
                    * (d1_spacing self' / inject_Z (g_factor g))) /\
       (lim_top = false ->
        exists gi gi1 x0,
          let i := (g_bign g
                    - Z.of_nat (np.argmax (map (fun v => np.gtb v trial) (rev (g_grid g))))
                    - 1)%Z in
          np.get (g_grid g) i = Ok gi /\ np.get (g_grid g) (i + 1) = Ok gi1 /\
          d1_x self' !! 0%nat = Some x0 /\
          mx = x0 + (inject_Z i + (gi - trial) / (gi - gi1))
                    * (d1_spacing self' / inject_Z (g_factor g)))).
Proof.
  split; [|split].
  - intros inbins abins contours missing_norm half_edge levels i c level Hb Hrun Hc Hl.
    cbv zeta.
    rewrite (getContourLevels_unfold _ _ _ _ _ Hb) in Hrun. cbv zeta in Hrun.
    destruct (for_each_lookup _ _ _ i _ Hrun (contour_targets_lookup _ _ missing_norm _ _ Hc))
      as (level' & Hl' & Hlev).
    assert (level' = level) by congruence. subst level'.
    apply contour_level_ok_inv in Hlev as [Hpos (ci & ci1 & si & si1 & H1 & H2 & H3 & H4 & _ & ->)].
    split; [assumption|]. exists ci, ci1, si, si1. auto.
  - intros g ix target trial Hpos Ht.
    destruct (limit_trial_ok_inv g ix target trial Hpos Ht)
      as (ci & ci1 & si & si1 & H1 & H2 & H3 & H4 & _ & ->).
    exists ci, ci1, si, si1. auto.
  - intros V H p interpGrid accuracy_factor self self' g mn mx lim_bot lim_top Hg Hrun
           target ix Hpos.
    unfold Density1D_getLimits in Hrun. rewrite Hg in Hrun. simpl in Hrun.
    fold target in Hrun. fold ix in Hrun.
    destruct (limit_of self' g ix target) as [t| |] eqn:Ht; try discriminate.
    simpl in Hrun. injection Hrun as ->.
    apply limit_of_ok_inv in Ht
      as (trial & g0 & gl & Htrial & Hg0 & Hgl & Hlb & Hlt & Hmn & Hmx).
    destruct (limit_trial_ok_inv g ix target trial Hpos Htrial)
      as (ci & ci1 & si & si1 & H1 & H2 & H3 & H4 & _ & ->).
    exists ci, ci1, si, si1, g0, gl. cbv zeta. auto 12.
Qed.


(** The pairings of C8 on the weights 1, 2, 5, 2, 1 and on a grid of limits. *)
Lemma interpolation_pairings_witness :
  (adjusted_bins bins5 true = Ok bins5_adjusted /\
   getContourLevels bins5 bins5_contours 0 true = Ok bins5_levels /\
   bins5_contours !! 0%nat = Some (3 # 10) /\
   exists level, bins5_levels !! 0%nat = Some level /\
     exists ci ci1 si si1,
       np.cumsum (contour_sortgrid bins5_adjusted bins5) !! 4%nat = Some ci /\
       np.cumsum (contour_sortgrid bins5_adjusted bins5) !! 3%nat = Some ci1 /\
       contour_sortgrid bins5_adjusted bins5 !! 4%nat = Some si /\
       contour_sortgrid bins5_adjusted bins5 !! 3%nat = Some si1 /\
       level = si * (1 - (ci - ((1 - (3 # 10)) * np.sum (data bins5_adjusted) - 0)) / (ci - ci1))
               + (ci - ((1 - (3 # 10)) * np.sum (data bins5_adjusted) - 0)) / (ci - ci1) * si1)
  /\
  ((0 < 1)%nat /\
   exists trial, limit_trial hill_grid 1 (3 # 2) = Ok trial /\
     exists ci ci1 si si1,
       g_cumsum hill_grid !! 1%nat = Some ci /\ g_cumsum hill_grid !! 0%nat = Some ci1 /\
       g_sortgrid hill_grid !! 1%nat = Some si /\ g_sortgrid hill_grid !! 2%nat = Some si1 /\
       trial = (1 - (ci - (3 # 2)) / (ci - ci1)) * si + (ci - (3 # 2)) / (ci - ci1) * si1)
  /\
  (Density1D_getLimits (PyFloat (3 # 4)) (Some hill_grid) None hill_density
     = Ok (hill_density, OneLimit (8 # 32, 40 # 16, false, false)) /\
   np.searchsorted (g_cumsum hill_grid) ((1 - (3 # 4)) * g_norm hill_grid) = 1%nat /\
   exists ci ci1 si si1 g0 gl,
     g_cumsum hill_grid !! 1%nat = Some ci /\ g_cumsum hill_grid !! 0%nat = Some ci1 /\
     g_sortgrid hill_grid !! 1%nat = Some si /\ g_sortgrid hill_grid !! 2%nat = Some si1 /\
     g_grid hill_grid !! 0%nat = Some g0 /\ last (g_grid hill_grid) = Some gl /\
     let target := (1 - (3 # 4)) * g_norm hill_grid in
     let frac := (ci - target) / (ci - ci1) in
     let trial := (1 - frac) * si + frac * si1 in
     false = np.geb g0 trial /\ false = np.geb gl trial /\
     (false = false ->
      exists gi gi1 x0,
        let i := Z.of_nat (np.argmax (map (fun v => np.gtb v trial) (g_grid hill_grid))) in
        np.get (g_grid hill_grid) i = Ok gi /\ np.get (g_grid hill_grid) (i - 1) = Ok gi1 /\
        d1_x hill_density !! 0%nat = Some x0 /\
        8 # 32 = x0 + (inject_Z i - (gi - trial) / (gi - gi1))
                     * (d1_spacing hill_density / inject_Z (g_factor hill_grid))) /\
     (false = false ->
      exists gi gi1 x0,
        let i := (g_bign hill_grid
                  - Z.of_nat (np.argmax (map (fun v => np.gtb v trial)
                                             (rev (g_grid hill_grid))))
                  - 1)%Z in
        np.get (g_grid hill_grid) i = Ok gi /\ np.get (g_grid hill_grid) (i + 1) = Ok gi1 /\
        d1_x hill_density !! 0%nat = Some x0 /\
        40 # 16 = x0 + (inject_Z i + (gi - trial) / (gi - gi1))
                     * (d1_spacing hill_density / inject_Z (g_factor hill_grid)))).
Proof.
  assert (adjusted_bins bins5 true = Ok bins5_adjusted) as Hb by (vm_compute; reflexivity).
  assert (getContourLevels bins5 bins5_contours 0 true = Ok bins5_levels) as Hrun
    by (vm_compute; reflexivity).
  split; [|split].
  - split; [exact Hb|]. split; [exact Hrun|]. split; [reflexivity|].
    eexists. split; [reflexivity|].
    exact (proj2 (proj1 interpolation_pairings bins5 bins5_adjusted bins5_contours 0 true
                    bins5_levels 0%nat (3 # 10) _ Hb Hrun eq_refl eq_refl)).
  - split; [lia|]. eexists. split; [vm_compute; reflexivity|].
    apply (proj1 (proj2 interpolation_pairings) hill_grid 1%nat (3 # 2)); [lia|].
    vm_compute. reflexivity.
  - assert (Density1D_getLimits (PyFloat (3 # 4)) (Some hill_grid) None hill_density
            = Ok (hill_density, OneLimit (8 # 32, 40 # 16, false, false))) as Hlim
      by (vm_compute; reflexivity).
    assert (np.searchsorted (g_cumsum hill_grid) ((1 - (3 # 4)) * g_norm hill_grid) = 1%nat)
      as Hix by (vm_compute; reflexivity).
    split; [exact Hlim|]. split; [exact Hix|].
    exact (proj2 (proj2 interpolation_pairings) unit constant_splines (3 # 4)
             (Some hill_grid) None hill_density hill_density hill_grid
             (8 # 32) (40 # 16) false false eq_refl Hlim
             (eq_ind_r (fun n => (0 < n)%nat) (le_n 1) Hix)).
Defined.

(** *** Construction *)

Section Construction.
Context {V : Type} `{Scipy}.

(** What a constructed [Density1D] holds. *)
Lemma Density1D_init_inv (x : list Q) (P0 : option ndarray) (vr : option V) (d : Density1D V) :
  Density1D_init x P0 vr = Ok d ->
  exists x0 x1 a,
    x !! 0%nat = Some x0 /\ x !! 1%nat = Some x1 /\
    d = mkDensity1D (length x) [x] x vr (x1 - x0) a None /\
    check_sizes (shape a) [x] = Ok tt.
Proof.
  unfold Density1D_init.
  destruct (np.get x 1) as [x1| |] eqn:H1; try discriminate; simpl.
  destruct (np.get x 0) as [x0| |] eqn:H0; try discriminate; simpl.
  apply (get_nat_inv x 1) in H1. apply (get_nat_inv x 0) in H0.
  intros Hset. exists x0, x1.
  destruct P0 as [a|]; simpl in Hset.
  - destruct (check_sizes (shape a) [x]) as [[]| |] eqn:Hc; try discriminate.
    simpl in Hset. injection Hset as <-. exists a. auto.
  - injection Hset as <-. eexists. repeat split; eauto.
    simpl. rewrite Nat.eqb_refl. reflexivity.
Qed.

(** What a constructed [Density2D] holds. *)
Lemma Density2D_init_inv (x y : list Q) (P0 : option ndarray) (vr : option V) (d : Density2D V) :
  Density2D_init x y P0 vr = Ok d ->
  exists x0 x1 y0 y1 a,
    x !! 0%nat = Some x0 /\ x !! 1%nat = Some x1 /\
    y !! 0%nat = Some y0 /\ y !! 1%nat = Some y1 /\
    d = mkDensity2D x y [y; x] vr ((x1 - x0) * (y1 - y0)) a None /\
    check_sizes (shape a) [y; x] = Ok tt.
Proof.
  unfold Density2D_init.
  destruct (np.get x 1) as [x1| |] eqn:H1; try discriminate; simpl.
  destruct (np.get x 0) as [x0| |] eqn:H0; try discriminate; simpl.
  destruct (np.get y 1) as [y1| |] eqn:H3; try discriminate; simpl.
  destruct (np.get y 0) as [y0| |] eqn:H2; try discriminate; simpl.
  apply (get_nat_inv x 1) in H1. apply (get_nat_inv x 0) in H0.
  apply (get_nat_inv y 1) in H3. apply (get_nat_inv y 0) in H2.
  intros Hset. exists x0, x1, y0, y1.
  destruct P0 as [a|]; simpl in Hset.
  - destruct (check_sizes (shape a) [y; x]) as [[]| |] eqn:Hc; try discriminate.
    simpl in Hset. injection Hset as <-. exists a. auto 10.
  - injection Hset as <-. eexists. repeat split; eauto.
    simpl. rewrite !Nat.eqb_refl. reflexivity.
Qed.

End Construction.

Lemma lookup_0_last {A} (l : list A) (a : A) : l !! 0%nat = Some a -> exists b, last l = Some b.
Proof.
  intros Ha. destruct l as [|a0 l]; [discriminate|].
  destruct (last (a0 :: l)) as [b|] eqn:Hb; [eauto|].
  apply last_None in Hb. discriminate.
Qed.

(** C3, as amended.  Without [view_ranges], [bounds()] of a [Density2D]
    is the list of the pairs [(min, max)] of the axes in the reverse of
    their order in [axes], that is, the pair of [x] first and the pair of
    [y] second; [bounds()] of a [Density1D] is the one pair
    [(x[0], x[-1])].  With [view_ranges], both return it as it is. *)
Theorem bounds_order {V : Type} `{Scipy} :
  (forall (x y : list Q) (P0 : option ndarray) (vr : option V) (d : Density2D V),
     Density2D_init x y P0 vr = Ok d ->
     exists x0 xl y0 yl,
       x !! 0%nat = Some x0 /\ last x = Some xl /\ y !! 0%nat = Some y0 /\ last y = Some yl /\
       bounds d = Ok (match vr with
                      | Some v => inl v
                      | None => inr [(x0, xl); (y0, yl)]
                      end))
  /\
  (forall (x : list Q) (P0 : option ndarray) (vr : option V) (d : Density1D V),
     Density1D_init x P0 vr = Ok d ->
     exists x0 xl,
       x !! 0%nat = Some x0 /\ last x = Some xl /\
       Density1D_bounds d = Ok (match vr with
                                | Some v => inl v
                                | None => inr (x0, xl)
                                end)).
Proof.
  split.
  - intros x y P0 vr d Hd.
    apply Density2D_init_inv in Hd as (x0 & x1 & y0 & y1 & a & Hx0 & _ & Hy0 & _ & -> & _).
    destruct (lookup_0_last x x0 Hx0) as [xl Hxl].
    destruct (lookup_0_last y y0 Hy0) as [yl Hyl].
    exists x0, xl, y0, yl. repeat split; try assumption.
    unfold bounds. simpl. destruct vr as [v|]; [reflexivity|].
    rewrite (get_0_ok y y0 Hy0), (get_last_ok y yl Hyl). simpl.
    rewrite (get_0_ok x x0 Hx0), (get_last_ok x xl Hxl). reflexivity.
  - intros x P0 vr d Hd.
    apply Density1D_init_inv in Hd as (x0 & x1 & a & Hx0 & _ & -> & _).
    destruct (lookup_0_last x x0 Hx0) as [xl Hxl].
    exists x0, xl. repeat split; try assumption.
    unfold Density1D_bounds. simpl. destruct vr as [v|]; [reflexivity|].
    rewrite (get_0_ok x x0 Hx0), (get_last_ok x xl Hxl). reflexivity.
Qed.

(** The bounds of C3 on a 2D and on a 1D density. *)
Lemma bounds_order_witness :
  (Density2D_init (H := constant_splines) [0; 1] [10; 12] None None = Ok small_density2D /\
   exists x0 xl y0 yl,
     [0; 1] !! 0%nat = Some x0 /\ last [0; 1] = Some xl /\
     [10; 12] !! 0%nat = Some y0 /\ last [10; 12] = Some yl /\
     bounds small_density2D = Ok (inr [(x0, xl); (y0, yl)]))
  /\
  (Density1D_init (H := constant_splines) [0; 1; 2; 3] (Some (np.of_list [1; 1; 1; 1])) None
     = Ok flat_density_new /\
   exists x0 xl,
     [0; 1; 2; 3] !! 0%nat = Some x0 /\ last [0; 1; 2; 3] = Some xl /\
     Density1D_bounds flat_density_new = Ok (inr (x0, xl))).
Proof.
  split.
  - assert (Density2D_init (H := constant_splines) [0; 1] [10; 12] None None
            = Ok small_density2D) as Hd by (vm_compute; reflexivity).
    split; [exact Hd|].
    exact (proj1 (bounds_order (H := constant_splines)) [0; 1] [10; 12] None None
             small_density2D Hd).
  - assert (Density1D_init (H := constant_splines) [0; 1; 2; 3]
              (Some (np.of_list [1; 1; 1; 1])) None = Ok flat_density_new) as Hd
      by (vm_compute; reflexivity).
    split; [exact Hd|].
    exact (proj2 (bounds_order (H := constant_splines)) [0; 1; 2; 3]
             (Some (np.of_list [1; 1; 1; 1])) None flat_density_new Hd).
Defined.

(** C3 as stated fails: for [x] = 0, 1 and [y] = 10, 12 the bounds of
    the [Density2D] are [(0, 1)] and then [(10, 12)], the pair of [x]
    first, not the pair of [y]. *)
Lemma bounds_y_first_fails :
  (d ← Density2D_init (H := constant_splines) (V := unit) [0; 1] [10; 12] None None; bounds d)
    = Ok (inr [(0, 1); (10, 12)])
  /\ (d ← Density2D_init (H := constant_splines) (V := unit) [0; 1] [10; 12] None None; bounds d)
    <> Ok (inr [(10, 12); (0, 1)]).
Proof.
  split; [vm_compute; reflexivity|]. vm_compute. discriminate.
Qed.


(** *** Normalization *)

Lemma for_each_div (l : list Q) (n : Q) :
  ~ n == 0 -> for_each (fun v => np.div v n) l = Ok (map (fun v => v / n) l).
Proof.
  intros Hn. induction l as [|v l IH]; simpl; [reflexivity|].
  rewrite (div_ok v n Hn). simpl. rewrite IH. reflexivity.
Qed.

Lemma get_map {A B} (f : A -> B) (l : list A) (i : Z) :
  np.get (map f l) i = (a ← np.get l i; Ok (f a)).
Proof.
  unfold np.get. rewrite length_map. destruct (_ && _)%bool; [|reflexivity].
  rewrite list_lookup_fmap. destruct (l !! _); reflexivity.
Qed.

Lemma removelast_map {A B} (f : A -> B) (l : list A) :
  removelast (map f l) = map f (removelast l).
Proof.
  induction l as [|a l IH]; [reflexivity|]. simpl.
  destruct l as [|b l]; [reflexivity|]. simpl in *. rewrite IH. reflexivity.
Qed.

Lemma inner_map {A B} (f : A -> B) (l : list A) : np.inner (map f l) = map f (np.inner l).
Proof.
  unfold np.inner. destruct l as [|a l]; [reflexivity|]. simpl. apply removelast_map.
Qed.

Lemma sum_map_div (l : list Q) (n : Q) : np.sum (map (fun v => v / n) l) == np.sum l / n.
Proof.
  induction l as [|v l IH]; simpl.
  - unfold Qdiv. lra.
  - rewrite IH. unfold Qdiv. lra.
Qed.

(** C6, as amended.  For a 1D density whose trapezoidal integral is not
    0, [normalize(by='integral')], in place or not, followed by
    [norm_integral()] gives 1. *)
Theorem normalize_integral_unit {V : Type} `{Scipy} (x : list Q) (P0 : option ndarray)
    (vr : option V) (d : Density1D V) (in_place : bool) (n : Q) :
  Density1D_init x P0 vr = Ok d ->
  norm_integral d = Ok n ->
  ~ n == 0 ->
  exists (d' : Density1D V) (v : Q),
    normalize "integral" in_place d = Ok d' /\ norm_integral d' = Ok v /\ v == 1.
Proof.
  intros Hd Hn Hnz.
  apply Density1D_init_inv in Hd as (x0 & x1 & a & _ & _ & -> & Hsizes).
  simpl in Hn. unfold Density1D_norm_integral, Density1D_integrate in Hn. simpl in Hn.
  destruct (np.get (data a) 0) as [p0| |] eqn:Hp0; try discriminate. simpl in Hn.
  destruct (np.get (data a) (-1)) as [pl| |] eqn:Hpl; try discriminate. simpl in Hn.
  injection Hn as Hn.
  set (a' := mk_ndarray (shape a) (map (fun v => v / n) (data a))).
  assert (np.div_all a n = Ok a') as Hdiv.
  { unfold np.div_all. rewrite (for_each_div _ _ Hnz). reflexivity. }
  exists (mkDensity1D (length x) [x] x vr (x1 - x0) a' None).
  exists (((p0 / n + pl / n) / 2 + np.sum (np.inner (data a'))) * (x1 - x0)).
  split; [|split].
  - unfold normalize. simpl.
    unfold Density1D_norm_integral, Density1D_integrate. simpl.
    rewrite Hp0. simpl. rewrite Hpl. simpl.
    rewrite Hn. destruct in_place; rewrite Hdiv; simpl.
    + reflexivity.
    + rewrite Hsizes. reflexivity.
  - simpl. unfold Density1D_norm_integral, Density1D_integrate. simpl.
    rewrite !get_map, Hp0, Hpl. reflexivity.
  - unfold a'. simpl. rewrite inner_map, sum_map_div.
    rewrite <- Hn in Hnz |- *. set (S := np.sum (np.inner (data a))) in *.
    field. split; intros Hz; apply Hnz.
    + rewrite Hz. ring.
    + assert ((p0 + pl) / 2 + S == (p0 + pl + S * 2) / 2) as -> by field.
      rewrite Hz. unfold Qdiv. ring.
Qed.

(** The normalization of C6 on the weights 1, 3, 2, 1. *)
Lemma normalize_integral_unit_witness :
  Density1D_init (H := constant_splines) [0; 1; 2; 3] (Some (np.of_list [1; 3; 2; 1])) None
    = Ok hill_density /\
  norm_integral hill_density = Ok (((1 + 1) / 2 + (3 + (2 + 0))) * (1 - 0)) /\
  ~ ((1 + 1) / 2 + (3 + (2 + 0))) * (1 - 0) == 0 /\
  exists (d' : Density1D (H := constant_splines) unit) (v : Q),
    normalize "integral" false hill_density = Ok d' /\ norm_integral d' = Ok v /\ v == 1.
Proof.
  assert (Density1D_init (H := constant_splines) [0; 1; 2; 3]
            (Some (np.of_list [1; 3; 2; 1])) None = Ok hill_density) as Hd
    by (vm_compute; reflexivity).
  assert (norm_integral hill_density = Ok (((1 + 1) / 2 + (3 + (2 + 0))) * (1 - 0))) as Hn
    by (vm_compute; reflexivity).
  assert (~ ((1 + 1) / 2 + (3 + (2 + 0))) * (1 - 0) == 0) as Hnz
    by (vm_compute; discriminate).
  split; [exact Hd|]. split; [exact Hn|]. split; [exact Hnz|].
  exact (normalize_integral_unit (H := constant_splines) [0; 1; 2; 3]
           (Some (np.of_list [1; 3; 2; 1])) None hill_density false _ Hd Hn Hnz).
Defined.

(** C6 as stated fails when the integral is 0.  [Density1D(x)] on the
    grid 0, 1 has the weights 0, 0 and the integral 0; [normalize] divides
    by it (numpy gives [nan] weights), and [norm_integral()] is not 1. *)
Lemma normalize_integral_zero :
  (exists n, (d ← empty_density; norm_integral d) = Ok n /\ n == 0)
  /\ (d ← empty_density; d' ← normalize "integral" false d; norm_integral d') = NonFinite
  /\ ~ exists v, (d ← empty_density; d' ← normalize "integral" false d; norm_integral d') = Ok v
                 /\ v == 1.
Proof.
  split; [eexists; split; vm_compute; reflexivity|]. split; [vm_compute; reflexivity|].
  intros [v [Hv _]]. vm_compute in Hv. discriminate.
Qed.

(** *** Prob *)

(** C9, as amended.  [Prob] always returns an array: for a sequence of
    [k] coordinates an array of [k] values, and for a single float an
    array of one value. *)
Theorem Prob_returns_array {V : Type} `{Scipy} (x : pyvalue) (derivative : nat)
    (self self' : Density1D V) (out : pyvalue) :
  Density1D_Prob x derivative self = Ok (self', out) ->
  exists l, out = PyArray l /\ length l = length (atleast_1d x).
Proof.
  unfold Density1D_Prob.
  destruct (Density1D_initSpline self) as [[s tck]| |]; try discriminate. simpl.
  destruct x as [v|l|l|l]; simpl; intros [= _ <-]; eexists; split; try reflexivity;
    rewrite length_map; reflexivity.
Qed.

(** The shape of C9 for a float. *)
Lemma Prob_returns_array_witness :
  Density1D_Prob (PyFloat 1) 0 flat_density_new = Ok (flat_density_built, PyArray [1]) /\
  exists l, PyArray [1] = PyArray l /\ length l = length (atleast_1d (PyFloat 1)).
Proof.
  assert (Density1D_Prob (PyFloat 1) 0 flat_density_new
          = Ok (flat_density_built, PyArray [1])) as Hp by (vm_compute; reflexivity).
  split; [exact Hp|].
  exact (Prob_returns_array (H := constant_splines) (PyFloat 1) 0 flat_density_new
           flat_density_built (PyArray [1]) Hp).
Defined.

(** C9 as stated fails: on the density 1 over the grid 0, 1, 2, 3,
    [Prob(1.0)] is the array [[1.]], not a float. *)
Lemma Prob_of_float_not_float :
  (d ← flat_density; r ← Density1D_Prob (PyFloat 1) 0 d; Ok r.2) = Ok (PyArray [1])
  /\ forall v, (d ← flat_density; r ← Density1D_Prob (PyFloat 1) 0 d; Ok r.2) <> Ok (PyFloat v).
Proof.
  split; [vm_compute; reflexivity|]. intros v. vm_compute. discriminate.
Qed.

(** *** The grid of the limits *)

Section Limits.
Context {V : Type} `{Scipy}.

Lemma Density1D_initSpline_inv (self self' : Density1D V) (tck : Spline) :
  Density1D_initSpline self = Ok (self', tck) ->
  d1_n self' = d1_n self /\ d1_x self' = d1_x self /\
  d1_spacing self' = d1_spacing self /\ d1_P self' = d1_P self.
Proof.
  unfold Density1D_initSpline. destruct (d1_spl self) as [t|].
  - intros [= <- _]. auto.
  - destruct (splrep _ _) as [t| |]; try discriminate. simpl. intros [= <- _]. auto.
Qed.

Lemma arange_length (n : Z) : length (np.arange n) = Z.to_nat n.
Proof. unfold np.arange. rewrite length_map, length_seq. reflexivity. Qed.

(** What a grid that was built holds. *)
Lemma Density1D_initLimitGrids_inv (factor : option Z) (self self' : Density1D V)
    (g : InterpGrid) :
  Density1D_initLimitGrids factor self = Ok (self', g) ->
  d1_x self' = d1_x self /\ d1_spacing self' = d1_spacing self /\
  g_bign g = ((Z.of_nat (d1_n self) - 1) * g_factor g + 1)%Z /\
  length (g_grid g) = Z.to_nat (g_bign g) /\
  g_sortgrid g = np.sort (g_grid g) /\
  g_cumsum g = np.cumsum (g_sortgrid g).
Proof.
  unfold Density1D_initLimitGrids.
  destruct (Density1D_initSpline self) as [[s tck]| |] eqn:Hs; try discriminate. simpl.
  apply Density1D_initSpline_inv in Hs as (Hn & Hx & Hsp & HP).
  match goal with |- context [mbind _ ?m] => destruct m as [f| |] eqn:Hf end;
    try discriminate; simpl.
  destruct (np.get (d1_x s) 0) as [x0| |]; try discriminate; simpl.
  match goal with |- context [for_each ?f ?l] => destruct (for_each f l) as [vecx| |] eqn:Hv end;
    try discriminate; simpl.
  destruct (np.get (data (d1_P s)) (-1)) as [pl| |]; try discriminate; simpl.
  destruct (np.get (data (d1_P s)) 0) as [p0| |]; try discriminate; simpl.
  intros [= <- <-]. simpl. rewrite Hn.
  repeat split; try assumption.
  rewrite length_map, (for_each_length _ _ _ Hv), arange_length, Hn. reflexivity.
Qed.

(** The smallest sample is the first of the sorted ones. *)
Lemma sort_first_le (l : list Q) (m v : Q) :
  np.sort l !! 0%nat = Some m -> v ∈ l -> m <= v.
Proof.
  intros Hm Hv. rewrite <- (sort_perm l) in Hv.
  apply list_elem_of_lookup_1 in Hv as [j Hj].
  apply (sorted_lookup_le (np.sort l) 0 j); auto using sort_sorted. lia.
Qed.

Lemma geb_le (a b : Q) : b <= a -> np.geb a b = true.
Proof. intros Hle. unfold np.geb. apply Qle_bool_iff. assumption. Qed.

(** With no sample below 0, the target 0 is at position 0 and both ends
    of the curve are at the threshold or above. *)
Lemma limit_of_full_mass (self : Density1D V) (g : InterpGrid) (target x0 xl : Q) :
  d1_x self !! 0%nat = Some x0 -> last (d1_x self) = Some xl ->
  g_factor g <> 0%Z ->
  g_grid g <> [] -> nonneg (g_grid g) ->
  g_sortgrid g = np.sort (g_grid g) ->
  g_cumsum g = np.cumsum (g_sortgrid g) ->
  target == 0 ->
  limit_of self g (np.searchsorted (g_cumsum g) target) target = Ok (x0, xl, true, true).
Proof.
  intros Hx0 Hxl Hf Hne Hnn Hsort Hcum Ht.
  destruct (g_grid g) as [|g0 grid] eqn:Hgrid; [congruence|].
  destruct (last (g0 :: grid)) as [gl|] eqn:Hgl; [|apply last_None in Hgl; discriminate].
  destruct (np.sort (g0 :: grid)) as [|m rest] eqn:Hsg.
  { pose proof (sort_perm (g0 :: grid)) as Hp. rewrite Hsg in Hp.
    apply Permutation_nil in Hp. discriminate. }
  assert (forall v, v ∈ g0 :: grid -> m <= v) as Hmin.
  { intros v Hv. apply (sort_first_le (g0 :: grid)); [rewrite Hsg; reflexivity|assumption]. }
  assert (0 <= m) as Hm.
  { unfold nonneg in Hnn. rewrite Forall_forall in Hnn. apply Hnn.
    rewrite <- (sort_perm (g0 :: grid)), Hsg. left. }
  assert (np.searchsorted (g_cumsum g) target = 0%nat) as ->.
  { rewrite Hcum, Hsort. unfold np.cumsum. simpl.
    assert (np.ltb (0 + m) target = false) as -> by (apply ltb_ge; lra). reflexivity. }
  unfold limit_of. rewrite limit_trial_zero, Hsort.
  rewrite (get_0_ok (m :: rest) m eq_refl). simpl.
  rewrite div_ok.
  2:{ intros Hz. apply Hf. unfold Qeq in Hz. simpl in Hz. lia. }
  simpl. rewrite Hgrid. rewrite (get_0_ok (g0 :: grid) g0 eq_refl). simpl.
  rewrite (geb_le g0 m) by (apply Hmin; left).
  rewrite (get_0_ok _ _ Hx0). simpl.
  rewrite (get_last_ok _ _ Hgl). simpl.
  rewrite (geb_le gl m).
  2:{ apply Hmin. rewrite last_lookup in Hgl. eapply list_elem_of_lookup_2. exact Hgl. }
  rewrite (get_last_ok _ _ Hxl). reflexivity.
Qed.

End Limits.

(** What [getLimits(1.0)] does in general.  For a 1D density whose
    refined curve, built with a factor above 0, has no sample below 0,
    the call returns [(x[0], x[-1], True, True)]: both bounds are the ends
    of the grid, where no limit exists, and both flags are nevertheless
    true.  The same holds with the grid given as [interpGrid]. *)
Theorem getLimits_full_mass {V : Type} `{Scipy} (x : list Q) (P0 : option ndarray)
    (vr : option V) (d0 d : Density1D V) (accuracy_factor : option Z) (g : InterpGrid) :
  Density1D_init x P0 vr = Ok d0 ->
  Density1D_initLimitGrids accuracy_factor d0 = Ok (d, g) ->
  (0 < g_factor g)%Z ->
  nonneg (g_grid g) ->
  exists x0 xl,
    x !! 0%nat = Some x0 /\ last x = Some xl /\
    Density1D_getLimits (PyFloat 1) None accuracy_factor d0
      = Ok (d, OneLimit (x0, xl, true, true)) /\
    Density1D_getLimits (PyFloat 1) (Some g) accuracy_factor d
      = Ok (d, OneLimit (x0, xl, true, true)).
Proof.
  intros Hd Hg Hf Hnn.
  apply Density1D_init_inv in Hd as (x0 & x1 & a & Hx0 & Hx1 & -> & _).
  destruct (lookup_0_last x x0 Hx0) as [xl Hxl].
  destruct (Density1D_initLimitGrids_inv _ _ _ _ Hg) as (Hx & _ & Hbign & Hlen & Hsort & Hcum).
  simpl in Hx, Hbign.
  assert (2 <= length x)%nat as Hlx by (apply lookup_lt_Some in Hx1; lia).
  assert (g_grid g <> []) as Hne.
  { intros Hnil. rewrite Hnil in Hlen. simpl in Hlen. nia. }
  assert (limit_of d g (np.searchsorted (g_cumsum g) ((1 - 1) * g_norm g)) ((1 - 1) * g_norm g)
          = Ok (x0, xl, true, true)) as Hlim.
  { apply limit_of_full_mass; try assumption; try (rewrite Hx; assumption); [lia|ring]. }
  exists x0, xl. split; [assumption|]. split; [assumption|].
  unfold Density1D_getLimits. rewrite Hg. simpl. rewrite Hlim. simpl. auto.
Qed.

(** The full probability on the density 1 with the factor 2. *)
Lemma getLimits_full_mass_witness :
  Density1D_init (H := constant_splines) [0; 1; 2; 3] (Some (np.of_list [1; 1; 1; 1])) None
    = Ok flat_density_new /\
  Density1D_initLimitGrids (Some 2%Z) flat_density_new = Ok (flat_density_built, flat_grid) /\
  (0 < g_factor flat_grid)%Z /\
  nonneg (g_grid flat_grid) /\
  exists x0 xl,
    [0; 1; 2; 3] !! 0%nat = Some x0 /\ last [0; 1; 2; 3] = Some xl /\
    Density1D_getLimits (PyFloat 1) None (Some 2%Z) flat_density_new
      = Ok (flat_density_built, OneLimit (x0, xl, true, true)) /\
    Density1D_getLimits (PyFloat 1) (Some flat_grid) (Some 2%Z) flat_density_built
      = Ok (flat_density_built, OneLimit (x0, xl, true, true)).
Proof.
  assert (Density1D_init (H := constant_splines) [0; 1; 2; 3]
            (Some (np.of_list [1; 1; 1; 1])) None = Ok flat_density_new) as Hd
    by (vm_compute; reflexivity).
  assert (Density1D_initLimitGrids (Some 2%Z) flat_density_new
          = Ok (flat_density_built, flat_grid)) as Hg by (vm_compute; reflexivity).
  assert (0 < g_factor flat_grid)%Z as Hf by reflexivity.
  assert (nonneg (g_grid flat_grid)) as Hnn.
  { unfold nonneg. simpl. repeat constructor; discriminate. }
  repeat (split; [assumption|]).
  exact (getLimits_full_mass (H := constant_splines) [0; 1; 2; 3]
           (Some (np.of_list [1; 1; 1; 1])) None flat_density_new flat_density_built
           (Some 2%Z) flat_grid Hd Hg Hf Hnn).
Defined.

(** C1.  The docstring of [getLimits] says that [has_min] and [has_top]
    are True or False depending on whether the lower and the upper limit
    exist, and with the full probability neither exists: the tuple should
    be [(x[0], x[-1], False, False)].  The code computes the flags as
    [grid[0] >= trial] and [grid[-1] >= trial], which are true exactly when
    a bound is pinned to its end of the grid: on the density 1 over the
    grid 0, 1, 2, 3, [getLimits(1.0)] returns [(0, 3, True, True)], not
    [(0, 3, False, False)]. *)
Lemma getLimits_full_mass_flags :
  (d ← flat_density; r ← Density1D_getLimits (PyFloat 1) None None d; Ok r.2)
    = Ok (OneLimit (0, 3, true, true))
  /\ (d ← flat_density; r ← Density1D_getLimits (PyFloat 1) None None d; Ok r.2)
    <> Ok (OneLimit (0, 3, false, false)).
Proof.
  assert ((d ← flat_density; r ← Density1D_getLimits (PyFloat 1) None None d; Ok r.2)
          = Ok (OneLimit (0, 3, true, true))) as Hrun by (vm_compute; reflexivity).
  split; [exact Hrun|]. rewrite Hrun. discriminate.
Qed.

(** The condition on the samples is needed: on a curve that dips
    below 0 the target 0 is not at position 0, and [getLimits(1.0)]
    returns bounds inside the grid, here 1.5 and 2.5, with both flags
    false. *)
Lemma getLimits_full_mass_negative_samples :
  exists mn mx,
    Density1D_getLimits (PyFloat 1) (Some spike_grid) None spike_density
      = Ok (spike_density, OneLimit (mn, mx, false, false))
    /\ mn == 3 # 2 /\ mx == 5 # 2.
Proof.
  eexists _, _. split; [vm_compute; reflexivity|]. split; vm_compute; reflexivity.
Qed.

(** *** One probability or several *)

Lemma limits_loop_all {V : Type} `{Scipy} (self : Density1D V) (g : InterpGrid)
    (items : list (nat * Q)) (results : list limit) (r : limits_value) :
  limits_loop self g false items results = Ok r ->
  exists ts, r = LimitList (results ++ ts) /\ length ts = length items.
Proof.
  revert results. induction items as [|[ix t] items IH]; intros results; simpl.
  - intros [= <-]. exists []. rewrite app_nil_r. auto.
  - destruct (limit_of self g ix t) as [t'| |]; try discriminate. simpl.
    intros Hr. apply IH in Hr as (ts & -> & Hlen).
    exists (t' :: ts). rewrite <- app_assoc. simpl. auto.
Qed.

(** An array of [k] probabilities gets a list of [k] tuples. *)
Lemma getLimits_of_array {V : Type} `{Scipy} (l : list Q) (interpGrid : option InterpGrid)
    (accuracy_factor : option Z) (self self' : Density1D V) (r : limits_value) :
  Density1D_getLimits (PyArray l) interpGrid accuracy_factor self = Ok (self', r) ->
  exists ts, r = LimitList ts /\ length ts = length l.
Proof.
  unfold Density1D_getLimits.
  match goal with |- context [mbind _ ?m] => destruct m as [[s g]| |] end; try discriminate.
  simpl.
  match goal with |- context [limits_loop ?a ?b ?c ?d ?e] =>
    destruct (limits_loop a b c d e) as [r'| |] eqn:Hr end; try discriminate.
  simpl. intros [= _ <-]. apply limits_loop_all in Hr as (ts & -> & Hlen).
  exists ts. split; [reflexivity|].
  rewrite Hlen, length_combine, !length_map. lia.
Qed.

(** A Python list that is not empty gets what its first probability
    alone gets. *)
Lemma getLimits_of_list_is_first {V : Type} `{Scipy} (p0 : Q) (ps : list Q)
    (interpGrid : option InterpGrid) (accuracy_factor : option Z) (self : Density1D V) :
  Density1D_getLimits (PyList (p0 :: ps)) interpGrid accuracy_factor self
  = Density1D_getLimits (PyFloat p0) interpGrid accuracy_factor self.
Proof.
  unfold Density1D_getLimits.
  match goal with |- context [mbind _ ?m] => destruct m as [[s g]| |] end; reflexivity.
Qed.

(** C2.  A Python list of probabilities does not get a list of tuples: a
    list that is not empty gets what its first probability alone gets,
    one bare tuple.  On the density 1 over the grid 0, 1, 2, 3, the list
    [[0.68, 0.95]] gets the limits of 0.68 only; an ndarray of the two
    probabilities gets the list of two tuples. *)
Theorem getLimits_of_python_list :
  (forall (V : Type) (H : Scipy) (p0 : Q) (ps : list Q) (interpGrid : option InterpGrid)
          (accuracy_factor : option Z) (self : Density1D V),
     Density1D_getLimits (PyList (p0 :: ps)) interpGrid accuracy_factor self
     = Density1D_getLimits (PyFloat p0) interpGrid accuracy_factor self)
  /\ (d ← flat_density; r ← Density1D_getLimits (PyList [68 # 100; 95 # 100]) None None d; Ok r.2)
    = Ok (OneLimit (0, 3, true, true))
  /\ (d ← flat_density; r ← Density1D_getLimits (PyArray [68 # 100; 95 # 100]) None None d; Ok r.2)
    = Ok (LimitList [(0, 3, true, true); (0, 3, true, true)]).
Proof.
  split.
  - intros V H p0 ps interpGrid accuracy_factor self.
    apply getLimits_of_list_is_first.
  - split; vm_compute; reflexivity.
Qed.

(** * Further properties *)

(** *** Construction and its errors *)

Lemma get_out_of_range {A} (l : list A) (i : Z) :
  (Z.of_nat (length l) <= i)%Z -> np.get l i = Raise IndexError.
Proof.
  intros Hi. unfold np.get. destruct (Z.ltb_spec i 0); [lia|].
  destruct (Z.ltb_spec i (Z.of_nat (length l))); [lia|].
  rewrite andb_false_r. reflexivity.
Qed.

Lemma get_in_range {A} (l : list A) (i : Z) :
  (0 <= i < Z.of_nat (length l))%Z ->
  exists v, l !! Z.to_nat i = Some v /\ np.get l i = Ok v.
Proof.
  intros Hi. destruct (lookup_lt_is_Some_2 l (Z.to_nat i) ltac:(lia)) as [v Hv].
  exists v. split; [assumption|].
  rewrite <- (Z2Nat.id i) by lia. apply get_nat_ok. assumption.
Qed.

(** An axis needs two points: the spacing is [x[1] - x[0]].  [Density1D]
    on an axis of fewer points, and [Density2D] when one of its axes has
    fewer, raise an IndexError, whatever [P] is. *)
Theorem init_short_axis {V : Type} `{Scipy} :
  (forall (x : list Q) (P0 : option ndarray) (vr : option V),
     (length x < 2)%nat -> Density1D_init x P0 vr = Raise IndexError)
  /\
  (forall (x y : list Q) (P0 : option ndarray) (vr : option V),
     (length x < 2)%nat \/ (length y < 2)%nat ->
     Density2D_init x y P0 vr = Raise IndexError).
Proof.
  split.
  - intros x P0 vr Hx. unfold Density1D_init.
    rewrite (get_out_of_range x 1) by lia. reflexivity.
  - intros x y P0 vr Hxy. unfold Density2D_init.
    destruct (le_lt_dec 2 (length x)) as [Hx|Hx].
    + destruct Hxy as [Hx'|Hy]; [lia|].
      destruct (get_in_range x 1 ltac:(lia)) as (x1 & _ & ->).
      destruct (get_in_range x 0 ltac:(lia)) as (x0 & _ & ->). simpl.
      rewrite (get_out_of_range y 1) by lia. reflexivity.
    + rewrite (get_out_of_range x 1) by lia. reflexivity.
Qed.

Lemma init_short_axis_witness :
  ((length [5%Q] < 2)%nat /\
   Density1D_init (H := constant_splines) (V := unit) [5] None None = Raise IndexError)
  /\
  (((length [0%Q; 1%Q] < 2)%nat \/ (length [5%Q] < 2)%nat) /\
   Density2D_init (H := constant_splines) (V := unit) [0; 1] [5] None None = Raise IndexError).
Proof.
  split.
  - split; [simpl; lia|].
    apply (proj1 (init_short_axis (H := constant_splines) (V := unit))). simpl. lia.
  - split; [right; simpl; lia|].
    apply (proj2 (init_short_axis (H := constant_splines) (V := unit))). right. simpl. lia.
Defined.

(** [Density1D(x, P)] with a [P] whose first size is not the size of [x]
    raises the DensitiesError of the size mismatch, with the two sizes;
    with the size of [x] it is built and holds [P] as it is, and no
    spline. *)
Theorem Density1D_init_sizes {V : Type} `{Scipy} (x : list Q) (a : ndarray)
    (vr : option V) (size : nat) (sizes : list nat) :
  (2 <= length x)%nat ->
  shape a = size :: sizes ->
  (size <> length x ->
   Density1D_init x (Some a) vr = Raise (DensitiesError (ArraySizeMismatch size (length x))))
  /\
  (size = length x ->
   exists d, Density1D_init x (Some a) vr = Ok d /\ d1_P d = a /\ d1_spl d = None /\
             d1_x d = x /\ d1_n d = length x /\ d1_view_ranges d = vr).
Proof.
  intros Hx Hsh. unfold Density1D_init.
  destruct (get_in_range x 1 ltac:(lia)) as (x1 & _ & ->).
  destruct (get_in_range x 0 ltac:(lia)) as (x0 & _ & ->). simpl.
  rewrite Hsh. simpl. split; intros Hs.
  - destruct (Nat.eqb_spec size (length x)); [contradiction|]. reflexivity.
  - destruct (Nat.eqb_spec size (length x)); [|contradiction].
    destruct sizes; simpl; eexists; repeat split; reflexivity.
Qed.

Lemma Density1D_init_sizes_witness :
  (2 <= length [0%Q; 1%Q; 2%Q; 3%Q; 4%Q])%nat /\
  shape (np.of_list [1; 2; 3; 4]) = [4%nat] /\
  4%nat <> length [0%Q; 1%Q; 2%Q; 3%Q; 4%Q] /\
  Density1D_init (H := constant_splines) (V := unit) [0; 1; 2; 3; 4]
    (Some (np.of_list [1; 2; 3; 4])) None
  = Raise (DensitiesError (ArraySizeMismatch 4 (length [0%Q; 1%Q; 2%Q; 3%Q; 4%Q]))).
Proof.
  assert (2 <= length [0%Q; 1%Q; 2%Q; 3%Q; 4%Q])%nat as Hx by (simpl; lia).
  assert (4%nat <> length [0%Q; 1%Q; 2%Q; 3%Q; 4%Q]) as Hne by (simpl; lia).
  split; [exact Hx|]. split; [reflexivity|]. split; [exact Hne|].
  exact (proj1 (Density1D_init_sizes (H := constant_splines) (V := unit) [0; 1; 2; 3; 4]
                  (np.of_list [1; 2; 3; 4]) None 4 [] Hx eq_refl) Hne).
Defined.

(** [Density2D(x, y, P)] wants the rows of [P] along [y] and its columns
    along [x]: the number of rows is checked against the size of [y]
    first, then the number of columns against the size of [x].  A [P]
    given the other way round, on axes of different sizes, is refused. *)
Theorem Density2D_init_sizes {V : Type} `{Scipy} (x y : list Q) (a : ndarray)
    (vr : option V) (r c : nat) :
  (2 <= length x)%nat -> (2 <= length y)%nat ->
  shape a = [r; c] ->
  (r <> length y ->
   Density2D_init x y (Some a) vr = Raise (DensitiesError (ArraySizeMismatch r (length y))))
  /\
  (r = length y -> c <> length x ->
   Density2D_init x y (Some a) vr = Raise (DensitiesError (ArraySizeMismatch c (length x))))
  /\
  (r = length y -> c = length x ->
   exists d, Density2D_init x y (Some a) vr = Ok d /\ d2_P d = a /\ d2_axes d = [y; x]).
Proof.
  intros Hx Hy Hsh. unfold Density2D_init.
  destruct (get_in_range x 1 ltac:(lia)) as (x1 & _ & ->).
  destruct (get_in_range x 0 ltac:(lia)) as (x0 & _ & ->). simpl.
  destruct (get_in_range y 1 ltac:(lia)) as (y1 & _ & ->).
  destruct (get_in_range y 0 ltac:(lia)) as (y0 & _ & ->). simpl.
  rewrite Hsh. simpl.
  destruct (Nat.eqb_spec r (length y)) as [Hr|Hr];
    [destruct (Nat.eqb_spec c (length x)) as [Hc|Hc]|].
  - split; [intros; contradiction|]. split; [intros; contradiction|].
    intros _ _. eexists. repeat split; reflexivity.
  - split; [intros; contradiction|]. split; [intros; reflexivity|intros; contradiction].
  - split; [intros; reflexivity|]. split; intros; contradiction.
Qed.

Lemma Density2D_init_sizes_witness :
  (2 <= length [0%Q; 1%Q; 2%Q])%nat /\ (2 <= length [10%Q; 12%Q])%nat /\
  shape (np.zeros [3; 2]%nat) = [3; 2]%nat /\
  3%nat <> length [10%Q; 12%Q] /\
  Density2D_init (H := constant_splines) (V := unit) [0; 1; 2] [10; 12]
    (Some (np.zeros [3; 2]%nat)) None
  = Raise (DensitiesError (ArraySizeMismatch 3 (length [10%Q; 12%Q]))).
Proof.
  assert (2 <= length [0%Q; 1%Q; 2%Q])%nat as Hx by (simpl; lia).
  assert (2 <= length [10%Q; 12%Q])%nat as Hy by (simpl; lia).
  assert (3%nat <> length [10%Q; 12%Q]) as Hne by (simpl; lia).
  split; [exact Hx|]. split; [exact Hy|]. split; [reflexivity|]. split; [exact Hne|].
  exact (proj1 (Density2D_init_sizes (H := constant_splines) (V := unit) [0; 1; 2] [10; 12]
                  (np.zeros [3; 2]%nat) None 3 2 Hx Hy eq_refl) Hne).
Defined.

(** The check of [setP] goes as far as [zip] pairs sizes with axes: a
    one-dimensional [P] of the size of [y] is accepted by [Density2D], and
    it is [norm_integral()], which indexes [P] with two indices, that
    raises an IndexError. *)
Theorem Density2D_init_one_dimensional {V : Type} `{Scipy} (x y : list Q) (a : ndarray)
    (vr : option V) :
  (2 <= length x)%nat -> (2 <= length y)%nat ->
  shape a = [length y] ->
  exists d, Density2D_init x y (Some a) vr = Ok d /\ norm_integral d = Raise IndexError.
Proof.
  intros Hx Hy Hsh. unfold Density2D_init.
  destruct (get_in_range x 1 ltac:(lia)) as (x1 & _ & ->).
  destruct (get_in_range x 0 ltac:(lia)) as (x0 & _ & ->). simpl.
  destruct (get_in_range y 1 ltac:(lia)) as (y1 & _ & ->).
  destruct (get_in_range y 0 ltac:(lia)) as (y0 & _ & ->). simpl.
  rewrite Hsh. simpl. rewrite Nat.eqb_refl. simpl.
  eexists. split; [reflexivity|].
  simpl. unfold Density2D_norm_integral, Density2D_integrate, np.rows. simpl.
  rewrite Hsh. reflexivity.
Qed.

Lemma Density2D_init_one_dimensional_witness :
  (2 <= length [0%Q; 1%Q; 2%Q])%nat /\ (2 <= length [10%Q; 12%Q])%nat /\
  shape (np.of_list [1; 1]) = [length [10%Q; 12%Q]] /\
  exists d, Density2D_init (H := constant_splines) (V := unit) [0; 1; 2] [10; 12]
              (Some (np.of_list [1; 1])) None = Ok d
            /\ norm_integral d = Raise IndexError.
Proof.
  assert (2 <= length [0%Q; 1%Q; 2%Q])%nat as Hx by (simpl; lia).
  assert (2 <= length [10%Q; 12%Q])%nat as Hy by (simpl; lia).
  split; [exact Hx|]. split; [exact Hy|]. split; [reflexivity|].
  exact (Density2D_init_one_dimensional (H := constant_splines) (V := unit) [0; 1; 2] [10; 12]
           (np.of_list [1; 1]) None Hx Hy eq_refl).
Defined.

(** *** Normalization: errors, frame and the two modes *)

(** The errors of [normalize], for any density grid: a mode other than
    'integral' and 'max' is a DensitiesError; with 'max', a largest weight
    equal to 0 is the DensitiesError 'no samples in bin', and a [P]
    without elements is the ValueError of [np.max]. *)
Theorem normalize_errors {V D : Type} `{GridDensity V D} (self : D) (in_place : bool) :
  (forall by_ : string, by_ <> "integral"%string -> by_ <> "max"%string ->
     normalize by_ in_place self = Raise (DensitiesError UnknownNormalization))
  /\
  (forall m : Q, np.max (data (P self)) = Ok m -> m == 0 ->
     normalize "max" in_place self = Raise (DensitiesError NoSamplesInBin))
  /\
  (data (P self) = [] -> normalize "max" in_place self = Raise ValueError).
Proof.
  repeat split.
  - intros by_ Hi Hm. unfold normalize.
    destruct (String.eqb_spec by_ "integral"); [contradiction|].
    destruct (String.eqb_spec by_ "max"); [contradiction|]. reflexivity.
  - intros m Hmax Hz. unfold normalize. simpl. rewrite Hmax. simpl.
    destruct (Qeq_bool m 0) eqn:E; [reflexivity|].
    apply Qeq_bool_iff in Hz. congruence.
  - intros Hnil. unfold normalize. simpl. rewrite Hnil. reflexivity.
Qed.

Lemma normalize_errors_witness :
  ("median"%string <> "integral"%string /\ "median"%string <> "max"%string /\
   normalize "median" false flat_density_new = Raise (DensitiesError UnknownNormalization))
  /\
  (np.max (data (P spike_density_zero)) = Ok 0 /\ 0 == 0 /\
   normalize "max" false spike_density_zero = Raise (DensitiesError NoSamplesInBin)).
Proof.
  split.
  - assert ("median"%string <> "integral"%string) as H1 by discriminate.
    assert ("median"%string <> "max"%string) as H2 by discriminate.
    split; [exact H1|]. split; [exact H2|].
    exact (proj1 (normalize_errors flat_density_new false) "median"%string H1 H2).
  - assert (np.max (data (P spike_density_zero)) = Ok 0) as Hm by reflexivity.
    split; [exact Hm|]. split; [reflexivity|].
    exact (proj1 (proj2 (normalize_errors spike_density_zero false)) 0 Hm ltac:(reflexivity)).
Defined.



(** *** The largest weight *)

Lemma fold_max_ge (l : list Q) (v e : Q) : In e (v :: l) -> e <= fold_left Qmax l v.
Proof.
  revert v e. induction l as [|w l IH]; intros v e He; simpl in *.
  - destruct He as [<-|[]]. lra.
  - destruct He as [<-|[<-|He]].
    + apply Qle_trans with (Qmax v w); [apply Q.le_max_l|]. apply IH. left. reflexivity.
    + apply Qle_trans with (Qmax v w); [apply Q.le_max_r|]. apply IH. left. reflexivity.
    + apply IH. right. assumption.
Qed.

Lemma fold_max_in (l : list Q) (v : Q) : In (fold_left Qmax l v) (v :: l).
Proof.
  revert v. induction l as [|w l IH]; intros v; simpl; [auto|].
  destruct (IH (Qmax v w)) as [Hm|Hin]; [|auto].
  rewrite <- Hm. unfold Qmax, GenericMinMax.gmax. destruct (v ?= w); auto.
Qed.

(** After [normalize('max')] of a constructed [Density1D] whose largest
    weight is above 0, the largest weight is 1 and no weight is above
    1. *)
Theorem normalize_max_unit {V : Type} `{Scipy} (x : list Q) (P0 : option ndarray)
    (vr : option V) (d : Density1D V) (in_place : bool) (m : Q) :
  Density1D_init x P0 vr = Ok d ->
  np.max (data (d1_P d)) = Ok m ->
  0 < m ->
  exists (d' : Density1D V) (m' : Q),
    normalize "max" in_place d = Ok d' /\
    np.max (data (d1_P d')) = Ok m' /\ m' == 1 /\
    Forall (fun v => v <= 1) (data (d1_P d')).
Proof.
  intros Hd Hmax Hm.
  apply Density1D_init_inv in Hd as (x0 & x1 & a & _ & _ & -> & Hsizes). simpl in Hmax.
  destruct (data a) as [|v l] eqn:Hda; [discriminate|]. simpl in Hmax. injection Hmax as Hmax.
  assert (~ m == 0) as Hnz by lra.
  set (f := fun w : Q => w / m).
  assert (forall e, In e (v :: l) -> f e <= 1) as Hle.
  { intros e He. unfold f. apply Qle_shift_div_r; [assumption|].
    rewrite Qmult_1_l, <- Hmax. apply fold_max_ge. assumption. }
  exists (mkDensity1D (length x) [x] x vr (x1 - x0)
            (mk_ndarray (shape a) (map f (v :: l))) None).
  exists (fold_left Qmax (map f l) (f v)).
  split; [|split; [reflexivity|split]].
  - unfold normalize. simpl. rewrite Hda. simpl. rewrite Hmax.
    assert (Qeq_bool m 0 = false) as ->.
    { destruct (Qeq_bool m 0) eqn:E; [|reflexivity]. apply Qeq_bool_iff in E. contradiction. }
    simpl. unfold np.div_all. rewrite Hda, (for_each_div _ _ Hnz).
    destruct in_place; simpl; [reflexivity|]. rewrite Hsizes. reflexivity.
  - apply Qle_antisym.
    + pose proof (fold_max_in (map f l) (f v)) as Hin.
      change (f v :: map f l) with (map f (v :: l)) in Hin.
      apply in_map_iff in Hin as (e & <- & He). apply Hle. assumption.
    + apply Qle_trans with (f m).
      * unfold f. apply Qle_shift_div_l; [assumption|]. lra.
      * apply fold_max_ge. change (f v :: map f l) with (map f (v :: l)).
        apply in_map. rewrite <- Hmax. apply fold_max_in.
  - simpl. rewrite Forall_forall. intros w Hw. apply list_elem_of_In in Hw.
    change (f v :: map f l) with (map f (v :: l)) in Hw.
    apply in_map_iff in Hw as (e & <- & He). apply Hle. assumption.
Qed.

Lemma normalize_max_unit_witness :
  Density1D_init (H := constant_splines) [0; 1; 2; 3] (Some (np.of_list [1; 3; 2; 1])) None
    = Ok hill_density /\
  np.max (data (d1_P hill_density)) = Ok 3 /\
  0 < 3 /\
  exists (d' : Density1D (H := constant_splines) unit) (m' : Q),
    normalize "max" false hill_density = Ok d' /\
    np.max (data (d1_P d')) = Ok m' /\ m' == 1 /\
    Forall (fun v => v <= 1) (data (d1_P d')).
Proof.
  assert (Density1D_init (H := constant_splines) [0; 1; 2; 3]
            (Some (np.of_list [1; 3; 2; 1])) None = Ok hill_density) as Hd
    by (vm_compute; reflexivity).
  assert (np.max (data (d1_P hill_density)) = Ok 3) as Hm by reflexivity.
  assert (0 < 3) as Hpos by reflexivity.
  split; [exact Hd|]. split; [exact Hm|]. split; [exact Hpos|].
  exact (normalize_max_unit (H := constant_splines) [0; 1; 2; 3]
           (Some (np.of_list [1; 3; 2; 1])) None hill_density false 3 Hd Hm Hpos).
Defined.

(** *** The spline of a density *)

(** [Prob] builds the spline once.  After a call that returns, the object
    holds a spline and the same weights and axis; it is the spline it
    held before, or the one that [splrep] builds from the axis and the
    weights.  Every later call that returns has evaluated that spline and
    left the object as it is. *)
Theorem Prob_builds_spline_once {V : Type} `{Scipy} (x : pyvalue) (derivative : nat)
    (self self' : Density1D V) (out : pyvalue) :
  Density1D_Prob x derivative self = Ok (self', out) ->
  d1_P self' = d1_P self /\ d1_x self' = d1_x self /\
  exists tck : Spline,
    d1_spl self' = Some tck /\
    (d1_spl self = None -> splrep (d1_x self) (data (d1_P self)) = Ok tck) /\
    (forall t, d1_spl self = Some t -> t = tck /\ self' = self) /\
    forall (x2 : pyvalue) (derivative2 : nat) (self2 : Density1D V) (out2 : pyvalue),
      Density1D_Prob x2 derivative2 self' = Ok (self2, out2) ->
      self2 = self' /\
      out2 = splev (match x2 with PyFloat v => PyList [v] | _ => x2 end) tck derivative2 1.
Proof.
  unfold Density1D_Prob.
  destruct (Density1D_initSpline self) as [[s tck]| |] eqn:Hs; try discriminate. simpl.
  intros Hout. assert (s = self') as -> by (destruct x; congruence). clear Hout.
  unfold Density1D_initSpline in Hs.
  destruct (d1_spl self) as [t|] eqn:Hspl.
  - injection Hs as <- <-. repeat split; try reflexivity.
    exists t. split; [assumption|]. split; [discriminate|]. split.
    + intros t' [= <-]. auto.
    + intros x2 der2 self2 out2. unfold Density1D_initSpline. rewrite Hspl. simpl.
      destruct x2; intros [= <- <-]; auto.
  - destruct (splrep (d1_x self) (data (d1_P self))) as [t| |] eqn:Hrep; try discriminate.
    simpl in Hs. injection Hs as <- <-. simpl. repeat split; try reflexivity.
    exists t. split; [reflexivity|]. split; [reflexivity|]. split; [discriminate|].
    intros x2 der2 self2 out2. unfold Density1D_initSpline. simpl.
    destruct x2; intros [= <- <-]; auto.
Qed.

Lemma Prob_builds_spline_once_witness :
  Density1D_Prob (PyFloat 1) 0 flat_density_new = Ok (flat_density_built, PyArray [1]) /\
  d1_P flat_density_built = d1_P flat_density_new /\
  d1_x flat_density_built = d1_x flat_density_new /\
  exists tck : Q * Q * Q,
    d1_spl flat_density_built = Some tck /\
    (d1_spl flat_density_new = None ->
     constant_splrep (d1_x flat_density_new) (data (d1_P flat_density_new)) = Ok tck) /\
    (forall t, d1_spl flat_density_new = Some t -> t = tck /\ flat_density_built = flat_density_new) /\
    forall (x2 : pyvalue) (derivative2 : nat)
           (self2 : Density1D (H := constant_splines) unit) (out2 : pyvalue),
      Density1D_Prob x2 derivative2 flat_density_built = Ok (self2, out2) ->
      self2 = flat_density_built /\
      out2 = splev (H := constant_splines)
                   (match x2 with PyFloat v => PyList [v] | _ => x2 end) tck derivative2 1.
Proof.
  assert (Density1D_Prob (PyFloat 1) 0 flat_density_new
          = Ok (flat_density_built, PyArray [1])) as Hp by (vm_compute; reflexivity).
  split; [exact Hp|].
  exact (Prob_builds_spline_once (H := constant_splines) (PyFloat 1) 0 flat_density_new
           flat_density_built (PyArray [1]) Hp).
Defined.

(** *** The grid of the limits, once built *)

Lemma Density1D_initLimitGrids_factor {V : Type} `{Scipy} (factor : option Z)
    (self self' : Density1D V) (g : InterpGrid) :
  Density1D_initLimitGrids factor self = Ok (self', g) ->
  g_factor g = match factor with
               | Some f => f
               | None => Z.max 2 (20000 / Z.of_nat (d1_n self))
               end /\
  d1_P self' = d1_P self /\
  (0 < g_bign g -> g_factor g <> 0)%Z /\
  exists p0 pl, np.get (data (d1_P self)) 0 = Ok p0 /\ np.get (data (d1_P self)) (-1) = Ok pl /\
    g_norm g = np.sum (g_grid g) - (1 # 2) * pl - (1 # 2) * p0.
Proof.
  unfold Density1D_initLimitGrids.
  destruct (Density1D_initSpline self) as [[s tck]| |] eqn:Hs; try discriminate. simpl.
  apply Density1D_initSpline_inv in Hs as (Hn & Hx & Hsp & HP).
  match goal with |- context [mbind _ ?m] => destruct m as [f| |] eqn:Hf end;
    try discriminate; simpl.
  destruct (np.get (d1_x s) 0) as [x0| |]; try discriminate; simpl.
  match goal with |- context [for_each ?f ?l] => destruct (for_each f l) as [vecx| |] eqn:Hv end;
    try discriminate; simpl.
  destruct (np.get (data (d1_P s)) (-1)) as [pl| |] eqn:Hpl; try discriminate; simpl.
  destruct (np.get (data (d1_P s)) 0) as [p0| |] eqn:Hp0; try discriminate; simpl.
  intros [= <- <-]. simpl. rewrite <- HP, <- Hn. split; [|split; [reflexivity|split]].
  - destruct factor as [f0|]; [congruence|].
    destruct (d1_n s =? 0)%nat; congruence.
  - intros Hb Hz. rewrite Hz in Hv.
    unfold np.arange in Hv.
    destruct (Z.to_nat ((Z.of_nat (d1_n s) - 1) * 0 + 1)) eqn:E; [lia|].
    simpl in Hv. unfold np.div in Hv. simpl in Hv. discriminate.
  - exists p0, pl. auto.
Qed.

(** The grid that [initLimitGrids] builds for a constructed [Density1D]:
    its factor is the one given, or [max(2, 20000 // n)]; it has
    [(n - 1) * factor + 1] samples, its sorted samples are the samples in
    ascending order, there is one running sum per sample, and its norm is
    the sum of the samples less half of the first and of the last weight.
    With the default factor there are at least [2 n - 1] samples and at
    most the larger of 20000 and [2 n - 1].  The weights are untouched. *)
Theorem initLimitGrids_grid {V : Type} `{Scipy} (x : list Q) (P0 : option ndarray)
    (vr : option V) (d0 d : Density1D V) (factor : option Z) (g : InterpGrid) :
  Density1D_init x P0 vr = Ok d0 ->
  Density1D_initLimitGrids factor d0 = Ok (d, g) ->
  let n := Z.of_nat (length x) in
  g_factor g = match factor with Some f => f | None => Z.max 2 (20000 / n) end /\
  g_bign g = ((n - 1) * g_factor g + 1)%Z /\
  length (g_grid g) = Z.to_nat (g_bign g) /\
  Sorted Qle (g_sortgrid g) /\ Permutation (g_sortgrid g) (g_grid g) /\
  length (g_cumsum g) = length (g_grid g) /\
  (exists p0 pl, data (d1_P d0) !! 0%nat = Some p0 /\ last (data (d1_P d0)) = Some pl /\
     g_norm g == np.sum (g_grid g) - (p0 + pl) / 2) /\
  (factor = None -> (2 * n - 1 <= g_bign g <= Z.max 20000 (2 * n - 1))%Z) /\
  d1_P d = d1_P d0.
Proof.
  intros Hd Hg n.
  destruct (Density1D_initLimitGrids_inv _ _ _ _ Hg) as (_ & _ & Hbign & Hlen & Hsort & Hcum).
  destruct (Density1D_initLimitGrids_factor _ _ _ _ Hg) as (Hf & HP & _ & p0 & pl & Hp0 & Hpl & Hnorm).
  apply Density1D_init_inv in Hd as (x0 & x1 & a & _ & Hx1 & -> & _).
  simpl in Hbign, Hf, HP, Hp0, Hpl. fold n in Hbign, Hf.
  assert (2 <= n)%Z as Hn by (apply lookup_lt_Some in Hx1; unfold n; lia).
  repeat split; try assumption.
  - rewrite Hsort. apply sort_sorted.
  - rewrite Hsort. apply sort_perm.
  - rewrite Hcum, Hsort. unfold np.cumsum. rewrite cumsum_from_length.
    apply Permutation_length. apply sort_perm.
  - exists p0, pl. simpl. split; [exact (get_nat_inv (data a) 0 p0 Hp0)|]. split.
    + unfold np.get in Hpl. cbv zeta in Hpl. change (-1 <? 0)%Z with true in Hpl. cbv iota in Hpl.
      destruct (_ && _)%bool eqn:E; [|discriminate].
      apply andb_true_iff in E as [E1 E2]. apply Z.leb_le in E1.
      rewrite last_lookup.
      replace (Init.Nat.pred (length (data a))) with (Z.to_nat (-1 + Z.of_nat (length (data a)))) by lia.
      destruct (data a !! _); congruence.
    + rewrite Hnorm. field.
  - subst factor. rewrite Hbign, Hf.
    destruct (Z.max_spec 2 (20000 / n)) as [[Hq ->]|[Hq ->]]; nia.
  - subst factor. rewrite Hbign, Hf.
    pose proof (Z.mul_div_le 20000 n ltac:(lia)).
    destruct (Z.max_spec 2 (20000 / n)) as [[Hq ->]|[Hq ->]]; nia.
Qed.

Lemma initLimitGrids_grid_witness :
  Density1D_init (H := constant_splines) [0; 1; 2; 3] (Some (np.of_list [1; 1; 1; 1])) None
    = Ok flat_density_new /\
  Density1D_initLimitGrids None flat_density_new = Ok (flat_density_built, flat_grid_default) /\
  g_factor flat_grid_default = Z.max 2 (20000 / Z.of_nat (length [0%Q; 1%Q; 2%Q; 3%Q])) /\
  g_bign flat_grid_default
  = ((Z.of_nat (length [0%Q; 1%Q; 2%Q; 3%Q]) - 1) * g_factor flat_grid_default + 1)%Z /\
  length (g_grid flat_grid_default) = Z.to_nat (g_bign flat_grid_default) /\
  Sorted Qle (g_sortgrid flat_grid_default) /\
  Permutation (g_sortgrid flat_grid_default) (g_grid flat_grid_default) /\
  length (g_cumsum flat_grid_default) = length (g_grid flat_grid_default) /\
  (exists p0 pl, data (d1_P flat_density_new) !! 0%nat = Some p0 /\
     last (data (d1_P flat_density_new)) = Some pl /\
     g_norm flat_grid_default == np.sum (g_grid flat_grid_default) - (p0 + pl) / 2) /\
  (@None Z = None ->
   (2 * Z.of_nat (length [0%Q; 1%Q; 2%Q; 3%Q]) - 1 <= g_bign flat_grid_default
    <= Z.max 20000 (2 * Z.of_nat (length [0%Q; 1%Q; 2%Q; 3%Q]) - 1))%Z) /\
  d1_P flat_density_built = d1_P flat_density_new.
Proof.
  assert (Density1D_init (H := constant_splines) [0; 1; 2; 3]
            (Some (np.of_list [1; 1; 1; 1])) None = Ok flat_density_new) as Hd
    by (vm_compute; reflexivity).
  assert (Density1D_initLimitGrids None flat_density_new
          = Ok (flat_density_built, flat_grid_default)) as Hg by (vm_compute; reflexivity).
  split; [exact Hd|]. split; [exact Hg|].
  exact (initLimitGrids_grid (H := constant_splines) [0; 1; 2; 3]
           (Some (np.of_list [1; 1; 1; 1])) None flat_density_new flat_density_built
           None flat_grid_default Hd Hg).
Defined.

(** *** The limits of several probabilities *)

Lemma limits_loop_each {V : Type} `{Scipy} (self : Density1D V) (g : InterpGrid)
    (items : list (nat * Q)) (results : list limit) (r : limits_value) :
  limits_loop self g false items results = Ok r ->
  exists ts, r = LimitList (results ++ ts) /\
             Forall2 (fun it t => limit_of self g it.1 it.2 = Ok t) items ts.
Proof.
  revert results. induction items as [|[ix t] items IH]; intros results; simpl.
  - intros [= <-]. exists []. rewrite app_nil_r. split; [reflexivity|constructor].
  - destruct (limit_of self g ix t) as [t'| |] eqn:Ht; try discriminate. simpl.
    intros Hr. apply IH in Hr as (ts & -> & Hall).
    exists (t' :: ts). rewrite <- app_assoc. split; [reflexivity|].
    constructor; assumption.
Qed.

(** For an ndarray of [k] probabilities, [getLimits], when it returns,
    gives a list of [k] tuples, and the tuple at each position is the one
    that [getLimits] returns for the probability at that position given
    alone, as a float. *)
Theorem getLimits_of_array_each {V : Type} `{Scipy} (l : list Q)
    (interpGrid : option InterpGrid) (accuracy_factor : option Z)
    (self self' : Density1D V) (r : limits_value) :
  Density1D_getLimits (PyArray l) interpGrid accuracy_factor self = Ok (self', r) ->
  exists ts,
    r = LimitList ts /\ length ts = length l /\
    forall (i : nat) (p : Q), l !! i = Some p ->
      exists t, ts !! i = Some t /\
        Density1D_getLimits (PyFloat p) interpGrid accuracy_factor self
        = Ok (self', OneLimit t).
Proof.
  unfold Density1D_getLimits.
  match goal with |- context [mbind _ ?m] => destruct m as [[s g]| |] end; try discriminate.
  simpl.
  match goal with |- context [limits_loop ?a ?b ?c ?d ?e] =>
    destruct (limits_loop a b c d e) as [r'| |] eqn:Hr end; try discriminate.
  simpl. intros [= <- <-]. apply limits_loop_each in Hr as (ts & -> & Hall).
  exists ts. split; [reflexivity|]. split.
  - rewrite <- (Forall2_length _ _ _ Hall), length_combine, !length_map. lia.
  - intros i p Hp.
    set (target := (1 - p) * g_norm g).
    assert (combine (map (np.searchsorted (g_cumsum g)) (map (fun pi => (1 - pi) * g_norm g) l))
                    (map (fun pi => (1 - pi) * g_norm g) l) !! i
            = Some (np.searchsorted (g_cumsum g) target, target)) as Hit.
    { rewrite map_map.
      apply lookup_zip_with_Some.
      exists (np.searchsorted (g_cumsum g) target), target.
      rewrite !list_lookup_fmap, Hp. auto. }
    destruct (Forall2_lookup_l _ _ _ _ _ Hall Hit) as (t & Ht & Hlim). simpl in Hlim.
    exists t. split; [assumption|]. fold target. rewrite Hlim. reflexivity.
Qed.

Lemma getLimits_of_array_each_witness :
  Density1D_getLimits (PyArray [3 # 4; 1 # 2]) (Some hill_grid) None hill_density
    = Ok (hill_density, hill_limits) /\
  exists ts,
    hill_limits = LimitList ts /\ length ts = length [3 # 4; 1 # 2] /\
    forall (i : nat) (p : Q), [3 # 4; 1 # 2] !! i = Some p ->
      exists t, ts !! i = Some t /\
        Density1D_getLimits (PyFloat p) (Some hill_grid) None hill_density
        = Ok (hill_density, OneLimit t).
Proof.
  assert (Density1D_getLimits (PyArray [3 # 4; 1 # 2]) (Some hill_grid) None hill_density
          = Ok (hill_density, hill_limits)) as Hr by (vm_compute; reflexivity).
  split; [exact Hr|].
  exact (getLimits_of_array_each (H := constant_splines) [3 # 4; 1 # 2] (Some hill_grid) None
           hill_density hill_density hill_limits Hr).
Defined.

(** *** The flags and the bounds of a limit *)

Lemma limit_of_flags {V : Type} `{Scipy} (self : Density1D V) (g : InterpGrid)
    (ix : nat) (target mn mx : Q) (lim_bot lim_top : bool) :
  limit_of self g ix target = Ok (mn, mx, lim_bot, lim_top) ->
  (lim_bot = true -> d1_x self !! 0%nat = Some mn) /\
  (lim_top = true -> last (d1_x self) = Some mx).
Proof.
  unfold limit_of.
  destruct (limit_trial g ix target) as [trial| |]; try discriminate. simpl.
  destruct (np.div _ _) as [finespace| |]; try discriminate. simpl.
  destruct (np.get (g_grid g) 0) as [g0| |]; try discriminate. simpl.
  match goal with |- context [mbind _ ?m] => destruct m as [mn'| |] eqn:Hmn end;
    try discriminate. simpl.
  destruct (np.get (g_grid g) (-1)) as [gl| |]; try discriminate. simpl.
  match goal with |- context [mbind _ ?m] => destruct m as [mx'| |] eqn:Hmx end;
    try discriminate. simpl.
  intros Heq. injection Heq as E1 E2 E3 E4. split; intros Hflag.
  - rewrite <- E3 in Hflag. rewrite Hflag in Hmn. rewrite <- E1.
    exact (get_nat_inv (d1_x self) 0 mn' Hmn).
  - rewrite <- E4 in Hflag. rewrite Hflag in Hmx. rewrite <- E2.
    apply get_last_inv. assumption.
Qed.

(** A flag that is true says that the bound is the end of the grid: when
    [getLimits] returns [(mn, mx, lim_bot, lim_top)], [lim_bot] makes [mn]
    the first point of the axis and [lim_top] makes [mx] the last. *)
Theorem getLimits_flags_are_edges {V : Type} `{Scipy} (p : Q)
    (interpGrid : option InterpGrid) (accuracy_factor : option Z)
    (self self' : Density1D V) (mn mx : Q) (lim_bot lim_top : bool) :
  Density1D_getLimits (PyFloat p) interpGrid accuracy_factor self
    = Ok (self', OneLimit (mn, mx, lim_bot, lim_top)) ->
  (lim_bot = true -> d1_x self !! 0%nat = Some mn) /\
  (lim_top = true -> last (d1_x self) = Some mx).
Proof.
  unfold Density1D_getLimits.
  match goal with |- context [mbind _ ?m] => destruct m as [[s g]| |] eqn:Hg end;
    try discriminate.
  assert (d1_x s = d1_x self) as Hx.
  { destruct interpGrid as [g0|].
    - injection Hg as <- _. reflexivity.
    - apply Density1D_initLimitGrids_inv in Hg. tauto. }
  simpl.
  match goal with |- context [limit_of ?a ?b ?c ?d] =>
    destruct (limit_of a b c d) as [t| |] eqn:Ht end; try discriminate.
  simpl. intros [= _ ->]. rewrite <- Hx. eapply limit_of_flags. eassumption.
Qed.

Lemma getLimits_flags_are_edges_witness :
  Density1D_getLimits (PyFloat 1) (Some flat_grid) None flat_density_built
    = Ok (flat_density_built, OneLimit (0, 3, true, true)) /\
  (true = true -> d1_x flat_density_built !! 0%nat = Some 0) /\
  (true = true -> last (d1_x flat_density_built) = Some 3).
Proof.
  assert (Density1D_getLimits (PyFloat 1) (Some flat_grid) None flat_density_built
          = Ok (flat_density_built, OneLimit (0, 3, true, true))) as Hr
    by (vm_compute; reflexivity).
  split; [exact Hr|].
  exact (getLimits_flags_are_edges (H := constant_splines) 1 (Some flat_grid) None
           flat_density_built flat_density_built 0 3 true true Hr).
Defined.

(** *** The last position *)

Lemma limit_of_last_position {V : Type} `{Scipy} (self : Density1D V) (g : InterpGrid)
    (target : Q) :
  length (g_cumsum g) = length (g_sortgrid g) ->
  (0 < np.searchsorted (g_cumsum g) target)%nat ->
  (length (g_sortgrid g) <= np.searchsorted (g_cumsum g) target + 1)%nat ->
  limit_of self g (np.searchsorted (g_cumsum g) target) target = Raise IndexError.
Proof.
  intros Hlen Hpos Hlast. set (ix := np.searchsorted (g_cumsum g) target) in *.
  assert (limit_trial g ix target = Raise IndexError) as Htrial.
  { unfold limit_trial.
    destruct (le_lt_dec (length (g_sortgrid g)) ix) as [Hout|Hin].
    - rewrite (get_out_of_range (g_sortgrid g) (Z.of_nat ix)) by lia. reflexivity.
    - destruct (lookup_lt_is_Some_2 (g_sortgrid g) ix Hin) as [si Hsi].
      destruct (lookup_lt_is_Some_2 (g_cumsum g) ix ltac:(lia)) as [ci Hci].
      destruct (lookup_lt_is_Some_2 (g_cumsum g) (ix - 1)%nat ltac:(lia)) as [ci1 Hci1].
      pose proof (searchsorted_at (g_cumsum g) target ci Hci) as Hat.
      pose proof (searchsorted_before (g_cumsum g) target (ix - 1)%nat ci1
                    ltac:(fold ix; lia) Hci1) as Hbe.
      rewrite (get_nat_ok _ _ _ Hsi). simpl.
      destruct (Nat.ltb_spec 0 ix) as [_|]; [|lia].
      rewrite (get_nat_ok _ _ _ Hci). simpl.
      replace (Z.of_nat ix - 1)%Z with (Z.of_nat (ix - 1)) by lia.
      rewrite (get_nat_ok _ _ _ Hci1). simpl.
      rewrite div_ok by lra. simpl.
      rewrite (get_out_of_range (g_sortgrid g) (Z.of_nat ix + 1)) by lia. reflexivity. }
  unfold limit_of. rewrite Htrial. reflexivity.
Qed.

(** [getLimits] reads the sorted sample after the insertion position: on
    a grid with one running sum per sorted sample, the sums ascending,
    when the target of a probability falls at the last position of the
    running sums, or past them, and not at position 0, the call raises an
    IndexError. *)
Theorem getLimits_last_position {V : Type} `{Scipy} (p : Q) (g : InterpGrid)
    (accuracy_factor : option Z) (self : Density1D V) :
  Sorted Qle (g_cumsum g) ->
  length (g_cumsum g) = length (g_sortgrid g) ->
  let ix := np.searchsorted (g_cumsum g) ((1 - p) * g_norm g) in
  (0 < ix)%nat ->
  (length (g_sortgrid g) <= ix + 1)%nat ->
  Density1D_getLimits (PyFloat p) (Some g) accuracy_factor self = Raise IndexError.
Proof.
  intros _ Hlen ix Hpos Hlast.
  unfold Density1D_getLimits. simpl.
  rewrite (limit_of_last_position self g _ Hlen Hpos Hlast). reflexivity.
Qed.

Lemma getLimits_last_position_witness :
  Sorted Qle (g_cumsum hill_grid) /\
  length (g_cumsum hill_grid) = length (g_sortgrid hill_grid) /\
  (0 < np.searchsorted (g_cumsum hill_grid) ((1 - (1 # 10)) * g_norm hill_grid))%nat /\
  (length (g_sortgrid hill_grid)
   <= np.searchsorted (g_cumsum hill_grid) ((1 - (1 # 10)) * g_norm hill_grid) + 1)%nat /\
  Density1D_getLimits (PyFloat (1 # 10)) (Some hill_grid) None hill_density = Raise IndexError.
Proof.
  assert (length (g_cumsum hill_grid) = length (g_sortgrid hill_grid)) as Hlen by reflexivity.
  assert (0 < np.searchsorted (g_cumsum hill_grid) ((1 - (1 # 10)) * g_norm hill_grid))%nat as Hpos
    by (vm_compute; lia).
  assert (length (g_sortgrid hill_grid)
          <= np.searchsorted (g_cumsum hill_grid) ((1 - (1 # 10)) * g_norm hill_grid) + 1)%nat as Hlast
    by (vm_compute; lia).
  assert (Sorted Qle (g_cumsum hill_grid)) as Hasc by (simpl; ascending).
  split; [exact Hasc|]. split; [exact Hlen|]. split; [exact Hpos|]. split; [exact Hlast|].
  exact (getLimits_last_position (H := constant_splines) (1 # 10) hill_grid None hill_density
           Hasc Hlen Hpos Hlast).
Defined.

(** *** The levels of a call, one by one *)

(** The solver treats its fractions one by one: on weights that are not
    negative, a call that returns gives one level per fraction, and the
    level at each position is the one that the call with that fraction
    alone returns. *)
Theorem getContourLevels_each (inbins : ndarray) (contours : list Q) (missing_norm : Q)
    (half_edge : bool) (levels : list Q) :
  nonneg (data inbins) ->
  getContourLevels inbins contours missing_norm half_edge = Ok levels ->
  length levels = length contours /\
  forall (i : nat) (c : Q), contours !! i = Some c ->
    exists level, levels !! i = Some level /\
      getContourLevels inbins [c] missing_norm half_edge = Ok [level].
Proof.
  intros _ Hrun.
  destruct (adjusted_bins inbins half_edge) as [abins| |] eqn:Hb;
    try (unfold getContourLevels in Hrun; rewrite Hb in Hrun; discriminate).
  rewrite (getContourLevels_unfold _ _ _ _ _ Hb) in Hrun. cbv zeta in Hrun.
  split.
  - rewrite (for_each_length _ _ _ Hrun). unfold contour_targets. apply length_map.
  - intros i c Hc.
    destruct (for_each_lookup _ _ _ i _ Hrun (contour_targets_lookup _ _ missing_norm _ _ Hc))
      as (level & Hl & Hlev).
    exists level. split; [assumption|].
    rewrite (getContourLevels_unfold _ _ _ _ _ Hb). cbv zeta. simpl.
    rewrite Hlev. reflexivity.
Qed.

Lemma getContourLevels_each_witness :
  nonneg (data bins5) /\
  getContourLevels bins5 bins5_contours 0 true = Ok bins5_levels /\
  length bins5_levels = length bins5_contours /\
  forall (i : nat) (c : Q), bins5_contours !! i = Some c ->
    exists level, bins5_levels !! i = Some level /\
      getContourLevels bins5 [c] 0 true = Ok [level].
Proof.
  assert (getContourLevels bins5 bins5_contours 0 true = Ok bins5_levels) as Hrun
    by (vm_compute; reflexivity).
  assert (nonneg (data bins5)) as Hnn.
  { unfold nonneg. simpl. repeat constructor; discriminate. }
  split; [exact Hnn|]. split; [exact Hrun|].
  exact (getContourLevels_each bins5 bins5_contours 0 true bins5_levels Hnn Hrun).
Defined.

(** *** Levels stay among the weights *)

Lemma halve_slice_within (M : Q) (k c : nat) (a : ndarray) :
  within M (data a) -> within M (data (np.halve_slice k c a)).
Proof.
  unfold within. rewrite !Forall_lookup. intros Ha i v. simpl.
  rewrite list_lookup_imap. destruct (data a !! i) as [w|] eqn:Hw; [|discriminate].
  simpl. specialize (Ha i w Hw). simpl in Ha.
  destruct (_ =? _)%nat; intros [= <-]; [|assumption].
  split.
  - apply Qle_shift_div_l; lra.
  - apply Qle_shift_div_r; lra.
Qed.

Lemma half_edges_within (M : Q) (a b : ndarray) (axs : list nat) :
  half_edges a axs = Ok b -> within M (data a) -> within M (data b).
Proof.
  revert a. induction axs as [|k axs IH]; intros a; simpl.
  - intros [= <-]. auto.
  - destruct (nth k (shape a) 0%nat =? 0)%nat; [discriminate|].
    intros Hb Ha. apply (IH _ Hb). auto using halve_slice_within.
Qed.

(** For weights between 0 and [M], every level that the solver returns is
    between 0 and [M]: the interpolation never leaves the two entries it
    is between, and halving the edges keeps them in the range. *)
Theorem contour_levels_in_range (inbins : ndarray) (contours : list Q) (missing_norm : Q)
    (half_edge : bool) (levels : list Q) (M : Q) :
  Forall (fun v => 0 <= v <= M) (data inbins) ->
  getContourLevels inbins contours missing_norm half_edge = Ok levels ->
  Forall (fun level => 0 <= level <= M) levels.
Proof.
  intros Hin Hrun.
  destruct (adjusted_bins inbins half_edge) as [abins| |] eqn:Hb;
    try (unfold getContourLevels in Hrun; rewrite Hb in Hrun; discriminate).
  assert (within M (data abins)) as Hab.
  { unfold adjusted_bins in Hb. destruct half_edge.
    - eapply half_edges_within; eassumption.
    - injection Hb as <-. assumption. }
  destruct (adjusted_bins_ok _ _ _ Hb) as [Hlen _].
  rewrite (getContourLevels_unfold _ _ _ _ _ Hb) in Hrun. cbv zeta in Hrun.
  set (sortgrid := contour_sortgrid abins inbins) in *.
  assert (forall i s, sortgrid !! i = Some s -> 0 <= s <= M) as Hs.
  { intros i s Hi. unfold within in Hab. rewrite Forall_forall in Hab. apply Hab.
    rewrite <- (take_argsort_perm (data abins) (data inbins) Hlen).
    eapply list_elem_of_lookup_2. exact Hi. }
  rewrite Forall_lookup. intros i level Hl.
  assert (exists t, contour_level sortgrid (np.cumsum sortgrid) t
                      (np.searchsorted (np.cumsum sortgrid) t) = Ok level) as [t Hlev].
  { pose proof (for_each_length _ _ _ Hrun) as Hlens.
    destruct (lookup_lt_is_Some_2 (contour_targets contours (np.sum (data abins)) missing_norm) i)
      as [t Ht]; [rewrite <- Hlens; eapply lookup_lt_Some; eassumption|].
    destruct (for_each_lookup _ _ _ i _ Hrun Ht) as (l' & Hl' & Hlev).
    exists t. congruence. }
  apply contour_level_ok_inv in Hlev as [Hpos (ci & ci1 & si & si1 & Hci & Hci1 & Hsi & Hsi1 & Hh & ->)].
  pose proof (searchsorted_at _ _ ci Hci) as Hat.
  pose proof (searchsorted_before (np.cumsum sortgrid) t
                (np.searchsorted (np.cumsum sortgrid) t - 1)%nat ci1 ltac:(lia) Hci1) as Hbe.
  destruct (Hs _ _ Hsi) as [Hs0 HsM]. destruct (Hs _ _ Hsi1) as [Hr0 HrM].
  set (d := (ci - t) / (ci - ci1)).
  assert (0 <= d /\ d <= 1) as [Hd0 Hd1].
  { split; unfold d; [apply Qle_shift_div_l|apply Qle_shift_div_r]; lra. }
  simpl. split; nra.
Qed.

Lemma contour_levels_in_range_witness :
  Forall (fun v => 0 <= v <= 5) (data bins5) /\
  getContourLevels bins5 bins5_contours 0 true = Ok bins5_levels /\
  Forall (fun level => 0 <= level <= 5) bins5_levels.
Proof.
  assert (Forall (fun v => 0 <= v <= 5) (data bins5)) as Hin.
  { simpl. repeat constructor; discriminate. }
  assert (getContourLevels bins5 bins5_contours 0 true = Ok bins5_levels) as Hrun
    by (vm_compute; reflexivity).
  split; [exact Hin|]. split; [exact Hrun|].
  exact (contour_levels_in_range bins5 bins5_contours 0 true bins5_levels 5 Hin Hrun).
Defined.

(** *** Arrays without elements *)

Lemma half_edges_zero_axis (a : ndarray) (k len j : nat) :
  (k <= j < k + len)%nat -> nth j (shape a) 0%nat = 0%nat ->
  half_edges a (seq k len) = Raise IndexError.
Proof.
  revert a k. induction len as [|len IH]; intros a k Hj Hz; [lia|]. simpl.
  destruct (Nat.eqb_spec (nth k (shape a) 0%nat) 0) as [|Hk]; [reflexivity|].
  apply IH; [|assumption].
  assert (j <> k) by congruence. lia.
Qed.

(** On an array with an axis of size 0 the edge adjustment raises an
    IndexError, whatever the fractions are (there is no last slice to
    halve); without the adjustment, an array without elements has no
    running sums and every fraction is out of range: with a fraction to
    look for, the solver raises its DensitiesError. *)
Theorem getContourLevels_empty (inbins : ndarray) (contours : list Q) (missing_norm : Q) :
  (In 0%nat (shape inbins) ->
   getContourLevels inbins contours missing_norm true = Raise IndexError)
  /\
  (data inbins = [] -> contours <> [] ->
   getContourLevels inbins contours missing_norm false
   = Raise (DensitiesError ContourOutsideRange)).
Proof.
  split.
  - intros Hin. apply (In_nth _ _ 1%nat) in Hin as (j & Hj & Hz).
    unfold getContourLevels, adjusted_bins.
    rewrite (half_edges_zero_axis inbins 0 (length (shape inbins)) j); [reflexivity|lia|].
    rewrite (nth_indep _ 0%nat 1%nat) by assumption. assumption.
  - intros Hnil Hne. destruct contours as [|c contours]; [congruence|].
    unfold getContourLevels, adjusted_bins, contour_levels_of, contour_sortgrid. simpl.
    rewrite Hnil. reflexivity.
Qed.

Lemma getContourLevels_empty_witness :
  (In 0%nat (shape (np.zeros [0%nat])) /\
   getContourLevels (np.zeros [0%nat]) defaultContours 0 true = Raise IndexError)
  /\
  (data (np.zeros [0%nat]) = [] /\ defaultContours <> [] /\
   getContourLevels (np.zeros [0%nat]) defaultContours 0 false
   = Raise (DensitiesError ContourOutsideRange)).
Proof.
  split.
  - assert (In 0%nat (shape (np.zeros [0%nat]))) as Hin by (simpl; auto).
    split; [exact Hin|].
    exact (proj1 (getContourLevels_empty (np.zeros [0%nat]) defaultContours 0) Hin).
  - assert (defaultContours <> []) as Hne by discriminate.
    split; [reflexivity|]. split; [exact Hne|].
    exact (proj2 (getContourLevels_empty (np.zeros [0%nat]) defaultContours 0) eq_refl Hne).
Defined.

(** *** Running sums *)

Lemma sum_app (l1 l2 : list Q) : np.sum (l1 ++ l2) == np.sum l1 + np.sum l2.
Proof. induction l1 as [|v l1 IH]; simpl; [lra|]. rewrite IH. lra. Qed.

(** A running sum is the sum of the elements up to its position. *)
Lemma cumsum_from_lookup (acc : Q) (l : list Q) (j : nat) (c : Q) :
  np.cumsum_from acc l !! j = Some c -> c == acc + np.sum (firstn (S j) l).
Proof.
  revert acc j. induction l as [|v l IH]; intros acc j; simpl; [discriminate|].
  destruct j as [|j]; simpl.
  - intros [= <-]. destruct l; simpl; lra.
  - intros Hc. apply IH in Hc. rewrite Hc. simpl. lra.
Qed.

Lemma sum_firstn_skipn (l : list Q) (k : nat) :
  np.sum l == np.sum (firstn k l) + np.sum (skipn k l).
Proof. rewrite <- sum_app, firstn_skipn. reflexivity. Qed.

Lemma nonneg_skipn (l : list Q) (k : nat) : nonneg l -> nonneg (skipn k l).
Proof.
  unfold nonneg. rewrite !Forall_forall. intros Hl v Hv. apply Hl.
  rewrite <- (firstn_skipn k l). apply elem_of_app. right. assumption.
Qed.

(** With weights that are not negative no running sum is above the
    total. *)
Lemma cumsum_le_total (l : list Q) (j : nat) (c : Q) :
  nonneg l -> np.cumsum l !! j = Some c -> c <= np.sum l.
Proof.
  intros Hnn Hc. apply cumsum_from_lookup in Hc.
  rewrite Hc, (sum_firstn_skipn l (S j)).
  pose proof (sum_nonneg _ (nonneg_skipn l (S j) Hnn)). lra.
Qed.

(** A value above the elements before a position is inserted at that
    position or after it. *)
Lemma searchsorted_after (a : list Q) (v : Q) (k : nat) :
  (k <= length a)%nat ->
  (forall j x, (j < k)%nat -> a !! j = Some x -> x < v) ->
  (k <= np.searchsorted a v)%nat.
Proof.
  revert k. induction a as [|y a IH]; intros k Hk Hall; simpl in *; [lia|].
  destruct k as [|k]; [lia|].
  assert (np.ltb y v = true) as ->.
  { apply ltb_lt. apply (Hall 0%nat); [lia|reflexivity]. }
  apply le_n_S. apply IH; [lia|].
  intros j x Hj Hx. apply (Hall (S j)); [lia|assumption].
Qed.

(** *** A target above the total *)

(** A fraction below 0, on weights that are not negative and not all 0
    and with no [missing_norm] above 0, asks for more than the total: its
    target is past the last running sum, and the solver raises an
    IndexError (of [cumsum[ix]]), not its DensitiesError. *)
Theorem getContourLevels_negative_fraction (inbins abins : ndarray) (c : Q)
    (contours : list Q) (missing_norm : Q) (half_edge : bool) :
  nonneg (data inbins) ->
  adjusted_bins inbins half_edge = Ok abins ->
  0 < np.sum (data abins) ->
  c < 0 -> missing_norm <= 0 ->
  getContourLevels inbins (c :: contours) missing_norm half_edge = Raise IndexError.
Proof.
  intros Hnn Hb Hsum Hc Hm.
  destruct (adjusted_bins_ok _ _ _ Hb) as [Hlen Hann]. specialize (Hann Hnn).
  rewrite (getContourLevels_unfold _ _ _ _ _ Hb). cbv zeta.
  set (sortgrid := contour_sortgrid abins inbins).
  set (norm := np.sum (data abins)) in *.
  assert (Permutation sortgrid (data abins)) as Hperm
    by (apply take_argsort_perm; assumption).
  assert (nonneg sortgrid) as Hsn.
  { unfold nonneg in *. rewrite Forall_forall in *. intros v Hv. apply Hann.
    rewrite <- Hperm. assumption. }
  simpl. set (t := (1 - c) * norm - missing_norm).
  assert (norm < t) as Ht by (unfold t; nra).
  assert (np.searchsorted (np.cumsum sortgrid) t = length (np.cumsum sortgrid)) as Hix.
  { apply Nat.le_antisymm; [apply searchsorted_le_length|].
    apply searchsorted_after; [lia|]. intros j x _ Hx.
    pose proof (cumsum_le_total sortgrid j x Hsn Hx) as Hle.
    rewrite (sum_perm _ _ Hperm) in Hle. fold norm in Hle. lra. }
  assert (length (np.cumsum sortgrid) <> 0%nat) as Hne.
  { unfold np.cumsum. rewrite cumsum_from_length. intros Hz.
    apply length_zero_iff_nil in Hz. rewrite Hz in Hperm.
    apply Permutation_nil in Hperm. unfold norm in Hsum. rewrite Hperm in Hsum.
    simpl in Hsum. lra. }
  rewrite Hix. unfold contour_level.
  destruct (Nat.eqb_spec (length (np.cumsum sortgrid)) 0); [contradiction|].
  rewrite (get_out_of_range (np.cumsum sortgrid) (Z.of_nat (length (np.cumsum sortgrid))))
    by lia.
  reflexivity.
Qed.

Lemma getContourLevels_negative_fraction_witness :
  nonneg (data bins5) /\
  adjusted_bins bins5 true = Ok bins5_adjusted /\
  0 < np.sum (data bins5_adjusted) /\
  -1 # 10 < 0 /\ 0 <= 0 /\
  getContourLevels bins5 [-1 # 10; 68 # 100] 0 true = Raise IndexError.
Proof.
  assert (nonneg (data bins5)) as Hnn.
  { unfold nonneg. simpl. repeat constructor; discriminate. }
  assert (adjusted_bins bins5 true = Ok bins5_adjusted) as Hb by (vm_compute; reflexivity).
  assert (0 < np.sum (data bins5_adjusted)) as Hsum by (vm_compute; reflexivity).
  assert (-1 # 10 < 0) as Hc by reflexivity.
  assert (0 <= 0) as Hm by discriminate.
  repeat (split; [assumption|]).
  exact (getContourLevels_negative_fraction bins5 bins5_adjusted (-1 # 10) [68 # 100] 0 true
           Hnn Hb Hsum Hc Hm).
Defined.

(** *** The probability 0 *)

Lemma elem_le_sum (l : list Q) (v : Q) : nonneg l -> v ∈ l -> v <= np.sum l.
Proof.
  intros Hnn Hv. induction Hnn as [|w l Hw Hnn IH]; [inversion Hv|].
  simpl. pose proof (sum_nonneg _ Hnn).
  apply elem_of_cons in Hv as [->|Hv]; [lra|]. specialize (IH Hv). lra.
Qed.

(** In ascending samples that are not negative, a running sum before the
    last is below the total by the largest sample at least. *)
Lemma cumsum_before_last (l : list Q) (j : nat) (c M : Q) :
  nonneg l -> Sorted Qle l -> M ∈ l ->
  (S j < length l)%nat -> np.cumsum l !! j = Some c ->
  c <= np.sum l - M.
Proof.
  intros Hnn Hs HM Hj Hc. apply cumsum_from_lookup in Hc.
  destruct (lookup_lt_is_Some_2 l (length l - 1) ltac:(lia)) as [L HL].
  assert (M <= L) as HML.
  { apply list_elem_of_lookup_1 in HM as [i Hi].
    apply (sorted_lookup_le l i (length l - 1)); auto.
    apply lookup_lt_Some in Hi. lia. }
  assert (L ∈ skipn (S j) l) as HLin.
  { apply (list_elem_of_lookup_2 _ (length l - 1 - S j)).
    rewrite lookup_drop. rewrite <- HL. f_equal. lia. }
  pose proof (elem_le_sum _ _ (nonneg_skipn l (S j) Hnn) HLin) as Hle.
  rewrite Hc, (sum_firstn_skipn l (S j)). lra.
Qed.

(** [getLimits(0.0)] raises an IndexError on every grid of limits as
    [initLimitGrids] builds them (sorted samples, their running sums, the
    norm less than the sum of the samples by the mean [e] of the two end
    weights) that has two samples or more, none below 0 and one above
    [e]: the target is then past every running sum but the last, and the
    code reads the sorted sample after the last. *)
Theorem getLimits_zero_probability {V : Type} `{Scipy} (g : InterpGrid)
    (accuracy_factor : option Z) (self : Density1D V) (e M : Q) :
  g_sortgrid g = np.sort (g_grid g) ->
  g_cumsum g = np.cumsum (g_sortgrid g) ->
  g_norm g == np.sum (g_grid g) - e ->
  (2 <= length (g_grid g))%nat ->
  nonneg (g_grid g) ->
  M ∈ g_grid g -> e < M ->
  Density1D_getLimits (PyFloat 0) (Some g) accuracy_factor self = Raise IndexError.
Proof.
  intros Hsort Hcum Hnorm Hn Hnn HM Hedge.
  pose proof (sort_perm (g_grid g)) as Hperm. rewrite <- Hsort in Hperm.
  pose proof (sort_sorted (g_grid g)) as Hsorted. rewrite <- Hsort in Hsorted.
  assert (nonneg (g_sortgrid g)) as Hsn.
  { unfold nonneg in *. rewrite Forall_forall in *. intros v Hv. apply Hnn.
    rewrite <- Hperm. assumption. }
  assert (length (g_sortgrid g) = length (g_grid g)) as Hls
    by (apply Permutation_length; assumption).
  assert (length (g_cumsum g) = length (g_sortgrid g)) as Hlc.
  { rewrite Hcum. unfold np.cumsum. apply cumsum_from_length. }
  set (target := (1 - 0) * g_norm g).
  assert (length (g_sortgrid g) - 1 <= np.searchsorted (g_cumsum g) target)%nat as Hix.
  { apply searchsorted_after; [lia|]. intros j c Hj Hc. rewrite Hcum in Hc.
    pose proof (cumsum_before_last (g_sortgrid g) j c M Hsn Hsorted
                  ltac:(rewrite Hperm; assumption) ltac:(lia) Hc) as Hle.
    rewrite (sum_perm _ _ Hperm) in Hle.
    unfold target. rewrite Hnorm. lra. }
  unfold Density1D_getLimits. simpl. fold target.
  rewrite (limit_of_last_position self g target Hlc ltac:(lia) ltac:(lia)). reflexivity.
Qed.

Lemma getLimits_zero_probability_witness :
  g_sortgrid hill_grid = np.sort (g_grid hill_grid) /\
  g_cumsum hill_grid = np.cumsum (g_sortgrid hill_grid) /\
  g_norm hill_grid == np.sum (g_grid hill_grid) - 1 /\
  (2 <= length (g_grid hill_grid))%nat /\
  nonneg (g_grid hill_grid) /\
  3 ∈ g_grid hill_grid /\ 1 < 3 /\
  Density1D_getLimits (PyFloat 0) (Some hill_grid) None hill_density = Raise IndexError.
Proof.
  assert (g_sortgrid hill_grid = np.sort (g_grid hill_grid)) as Hsort by (vm_compute; reflexivity).
  assert (g_cumsum hill_grid = np.cumsum (g_sortgrid hill_grid)) as Hcum
    by (vm_compute; reflexivity).
  assert (g_norm hill_grid == np.sum (g_grid hill_grid) - 1) as Hnorm by (vm_compute; reflexivity).
  assert (2 <= length (g_grid hill_grid))%nat as Hn by (simpl; lia).
  assert (nonneg (g_grid hill_grid)) as Hnn.
  { unfold nonneg. simpl. repeat constructor; discriminate. }
  assert (3 ∈ g_grid hill_grid) as HM by (simpl; apply elem_of_cons; right; apply elem_of_cons; left; reflexivity).
  assert (1 < 3) as Hedge by reflexivity.
  repeat (split; [assumption|]).
  exact (getLimits_zero_probability (H := constant_splines) hill_grid None hill_density 1 3
           Hsort Hcum Hnorm Hn Hnn HM Hedge).
Defined.

(** *** What the edge adjustment does to each element *)

Lemma half_edges_scaling (a b : ndarray) (axs : list nat) :
  half_edges a axs = Ok b ->
  forall (i : nat) (v : Q), data a !! i = Some v ->
    exists w, data b !! i = Some w /\
              w * inject_Z (2 ^ Z.of_nat (edge_faces (shape a) axs i)) == v.
Proof.
  revert a. induction axs as [|k axs IH]; intros a; simpl.
  - intros [= <-] i v Hv. exists v. split; [assumption|].
    assert (inject_Z (2 ^ Z.of_nat (edge_faces (shape a) [] i)) == 1) as -> by reflexivity.
    ring.
  - destruct (nth k (shape a) 0%nat =? 0)%nat; [discriminate|].
    intros Hb i v Hv.
    set (n := nth k (shape a) 0%nat) in *.
    set (a1 := np.halve_slice k (n - 1) a) in *.
    set (a2 := np.halve_slice k 0 a1) in *.
    assert (exists v2, data a2 !! i = Some v2 /\
                       v2 * inject_Z (2 ^ Z.of_nat (on_edge (shape a) k i)) == v)
      as (v2 & Hv2 & Hscale).
    { unfold a2, a1. simpl. rewrite !list_lookup_imap, Hv. simpl.
      eexists. split; [reflexivity|]. unfold on_edge. fold n.
      destruct (np.coord (shape a) k i =? 0)%nat,
               (np.coord (shape a) k i =? n - 1)%nat;
        match goal with
        | |- context [inject_Z ?z] =>
            let z' := eval vm_compute in z in
            change (inject_Z z) with (inject_Z z'); unfold inject_Z
        end; field. }
    destruct (IH a2 Hb i v2 Hv2) as (w & Hw & Hscale2).
    exists w. split; [assumption|].
    change (shape a2) with (shape a) in Hscale2.
    rewrite Nat2Z.inj_add, Z.pow_add_r, inject_Z_mult by lia.
    rewrite <- Hscale, <- Hscale2. ring.
Qed.

(** On weights of dtype float64, with [half_edge] the solver works on a
    copy in which the element at each position is the weight divided by 2
    once for every boundary face it lies on: by [2 ^ k] on [k] faces,
    where an axis of size 1 counts for two faces.  The copy has the shape
    and the size of the original.  (Weights of an integer dtype are
    another matter: see [adjusted_bins_int64].) *)
Theorem adjusted_bins_scaling (inbins abins : ndarray) :
  adjusted_bins inbins true = Ok abins ->
  shape abins = shape inbins /\ length (data abins) = length (data inbins) /\
  forall (i : nat) (v : Q), data inbins !! i = Some v ->
    exists w, data abins !! i = Some w /\
      w * inject_Z (2 ^ Z.of_nat (edge_faces (shape inbins)
                                    (seq 0 (length (shape inbins))) i)) == v.
Proof.
  unfold adjusted_bins. intros Hb.
  destruct (half_edges_ok _ _ _ Hb) as (Hsh & Hlen & _).
  split; [assumption|]. split; [assumption|].
  apply half_edges_scaling. assumption.
Qed.

Lemma adjusted_bins_scaling_witness :
  adjusted_bins ones3x3 true = Ok ones3x3_adjusted /\
  shape ones3x3_adjusted = shape ones3x3 /\
  length (data ones3x3_adjusted) = length (data ones3x3) /\
  forall (i : nat) (v : Q), data ones3x3 !! i = Some v ->
    exists w, data ones3x3_adjusted !! i = Some w /\
      w * inject_Z (2 ^ Z.of_nat (edge_faces (shape ones3x3)
                                    (seq 0 (length (shape ones3x3))) i)) == v.
Proof.
  assert (adjusted_bins ones3x3 true = Ok ones3x3_adjusted) as Hb by (vm_compute; reflexivity).
  split; [exact Hb|].
  exact (adjusted_bins_scaling ones3x3 ones3x3_adjusted Hb).
Defined.

(** *** The total of the solver and the trapezoidal rule *)

Lemma imap_same {A} (l : list A) : imap (fun _ v => v) l = l.
Proof.
  apply list_eq. intros i. rewrite list_lookup_imap. destruct (l !! i); reflexivity.
Qed.

(** Halving one element takes half of it off the sum. *)
Lemma sum_imap_halve (l : list Q) (c : nat) (x : Q) :
  l !! c = Some x ->
  np.sum (imap (fun i v => if (i =? c)%nat then v / 2 else v) l) == np.sum l - x / 2.
Proof.
  revert c. induction l as [|y l IH]; intros c Hx; [discriminate|].
  rewrite imap_cons. destruct c as [|c]; simpl in Hx |- *.
  - injection Hx as <-.
    rewrite (imap_ext _ (fun _ v => v) l) by (intros; reflexivity).
    rewrite imap_same. field.
  - rewrite (imap_ext _ (fun i v => if (i =? c)%nat then v / 2 else v) l)
      by (intros; reflexivity).
    rewrite (IH c Hx). ring.
Qed.

(** On a one-dimensional array the slice at an index is one element. *)
Lemma halve_slice_1D (n : nat) (l : list Q) (c : nat) :
  n = length l ->
  np.halve_slice 0 c (mk_ndarray [n] l)
  = mk_ndarray [n] (imap (fun i v => if (i =? c)%nat then v / 2 else v) l).
Proof.
  intros ->. unfold np.halve_slice. cbn [data shape]. f_equal.
  apply imap_ext. intros i v Hi.
  apply lookup_lt_Some in Hi. unfold np.coord.
  change (np.stride [length l] 0) with 1%nat.
  change (nth 0 [length l] 1%nat) with (length l).
  rewrite Nat.div_1_r, Nat.mod_small by assumption. reflexivity.
Qed.

Lemma sum_ends (a z : Q) (mid : list Q) :
  np.sum (a :: mid ++ [z]) == a + np.sum mid + z.
Proof. simpl. rewrite sum_app. simpl. ring. Qed.

Lemma ends_of_list {A} (l : list A) :
  (2 <= length l)%nat -> exists a mid z, l = a :: mid ++ [z].
Proof.
  intros Hl. destruct l as [|a l]; [simpl in Hl; lia|].
  destruct (exists_last (l := l)) as (mid & z & ->).
  { intros ->. simpl in Hl. lia. }
  eauto.
Qed.

Lemma Density1D_init_Some_inv {V : Type} `{Scipy} (x : list Q) (a : ndarray)
    (vr : option V) (d : Density1D V) :
  Density1D_init x (Some a) vr = Ok d ->
  exists x0 x1,
    x !! 1%nat = Some x1 /\
    d = mkDensity1D (length x) [x] x vr (x1 - x0) a None /\
    check_sizes (shape a) [x] = Ok tt.
Proof.
  unfold Density1D_init.
  destruct (np.get x 1) as [x1| |] eqn:H1; try discriminate; simpl.
  destruct (np.get x 0) as [x0| |] eqn:H0; try discriminate; simpl.
  apply (get_nat_inv x 1) in H1.
  destruct (check_sizes (shape a) [x]) as [[]| |] eqn:Hc; try discriminate.
  simpl. intros [= <-]. exists x0, x1. auto.
Qed.

(** For a [Density1D] constructed on one-dimensional weights of dtype
    float64, the total that the solver takes with [half_edge], the sum of
    the edge-adjusted weights, times the spacing, is [norm_integral()]:
    halving the two end bins is the trapezoidal rule.  (On weights of an
    integer dtype the halved end bins are truncated and the two totals
    differ.) *)
Theorem solver_norm_is_trapezoid {V : Type} `{Scipy} (x : list Q) (a : ndarray)
    (vr : option V) (d : Density1D V) :
  Density1D_init x (Some a) vr = Ok d ->
  shape a = [length (data a)] ->
  exists (abins : ndarray) (v : Q),
    adjusted_bins (P d) true = Ok abins /\
    norm_integral d = Ok v /\
    v == np.sum (data abins) * d1_spacing d.
Proof.
  intros Hd Hsh.
  apply Density1D_init_Some_inv in Hd as (x0 & x1 & Hx1 & -> & Hsizes).
  rewrite Hsh in Hsizes. simpl in Hsizes.
  destruct (Nat.eqb_spec (length (data a)) (length x)) as [Hlen|]; [|discriminate].
  assert (2 <= length (data a))%nat as Hn by (apply lookup_lt_Some in Hx1; lia).
  destruct a as [sh l]. simpl in *. subst sh.
  destruct (ends_of_list l Hn) as (p0 & mid & pl & Hl).
  set (l1 := imap (fun i v => if (i =? length l - 1)%nat then v / 2 else v) l).
  set (l2 := imap (fun i v => if (i =? 0)%nat then v / 2 else v) l1).
  assert (length l1 = length l) as Hl1 by apply length_imap.
  exists (mk_ndarray [length l] l2), (((p0 + pl) / 2 + np.sum mid) * (x1 - x0)).
  split; [|split].
  - unfold adjusted_bins. simpl.
    destruct (Nat.eqb_spec (length l) 0) as [|_]; [lia|].
    rewrite (halve_slice_1D (length l) l (length l - 1) eq_refl). fold l1.
    rewrite (halve_slice_1D (length l) l1 0 (eq_sym Hl1)). reflexivity.
  - unfold Density1D_norm_integral, Density1D_integrate. simpl. rewrite Hl.
    rewrite (get_0_ok (p0 :: mid ++ [pl]) p0 eq_refl). simpl.
    rewrite (get_last_ok (p0 :: mid ++ [pl]) pl).
    2:{ change (p0 :: mid ++ [pl]) with ((p0 :: mid) ++ [pl]). apply last_snoc. }
    simpl. unfold np.inner. simpl. rewrite removelast_last. reflexivity.
  - simpl. unfold l2.
    assert (l1 !! 0%nat = Some p0) as H0.
    { assert (l !! 0%nat = Some p0) as Hl0 by (rewrite Hl; reflexivity).
      unfold l1. rewrite list_lookup_imap, Hl0. cbn [fmap option_fmap option_map].
      destruct (Nat.eqb_spec 0 (length l - 1)); [lia|]. reflexivity. }
    assert (l !! (length l - 1)%nat = Some pl) as Hlast.
    { rewrite Nat.sub_1_r, <- last_lookup, Hl.
      change (p0 :: mid ++ [pl]) with ((p0 :: mid) ++ [pl]). apply last_snoc. }
    rewrite (sum_imap_halve l1 0 p0 H0). unfold l1.
    rewrite (sum_imap_halve l (length l - 1) pl Hlast).
    rewrite Hl at 1. rewrite sum_ends. field.
Qed.

Lemma solver_norm_is_trapezoid_witness :
  Density1D_init (H := constant_splines) [0; 1; 2; 3] (Some (np.of_list [1; 3; 2; 1])) None
    = Ok hill_density /\
  shape (np.of_list [1; 3; 2; 1]) = [length (data (np.of_list [1; 3; 2; 1]))] /\
  exists (abins : ndarray) (v : Q),
    adjusted_bins (P hill_density) true = Ok abins /\
    norm_integral hill_density = Ok v /\
    v == np.sum (data abins) * d1_spacing hill_density.
Proof.
  assert (Density1D_init (H := constant_splines) [0; 1; 2; 3]
            (Some (np.of_list [1; 3; 2; 1])) None = Ok hill_density) as Hd
    by (vm_compute; reflexivity).
  split; [exact Hd|]. split; [reflexivity|].
  exact (solver_norm_is_trapezoid (H := constant_splines) [0; 1; 2; 3]
           (np.of_list [1; 3; 2; 1]) None hill_density Hd eq_refl).
Defined.

(** *** The integral of a constant *)

Lemma chunks_repeat (r c : nat) (w : Q) :
  np.chunks r c (repeat w (r * c)) = repeat (repeat w c) r.
Proof.
  induction r as [|r IH]; [reflexivity|].
  change (S r * c)%nat with (c + r * c)%nat. rewrite repeat_app.
  cbn [np.chunks repeat].
  rewrite firstn_app, skipn_app, repeat_length, Nat.sub_diag.
  rewrite firstn_all2 by (rewrite repeat_length; lia).
  rewrite skipn_all2 by (rewrite repeat_length; lia).
  rewrite firstn_O, skipn_O, app_nil_r, app_nil_l, IH. reflexivity.
Qed.

Lemma removelast_repeat {A} (v : A) (n : nat) : removelast (repeat v (S n)) = repeat v n.
Proof.
  induction n as [|n IH]; [reflexivity|].
  change (repeat v (S (S n))) with (v :: repeat v (S n)).
  cbn [removelast]. rewrite IH. reflexivity.
Qed.

Lemma inner_repeat {A} (v : A) (n : nat) : np.inner (repeat v (S (S n))) = repeat v n.
Proof. unfold np.inner. cbn [repeat tl]. apply removelast_repeat. Qed.

Lemma last_repeat {A} (v : A) (n : nat) : last (repeat v (S n)) = Some v.
Proof.
  induction n as [|n IH]; [reflexivity|].
  change (repeat v (S (S n))) with (v :: repeat v (S n)).
  rewrite last_cons, IH. reflexivity.
Qed.

Lemma for_each_repeat {A B} (f : A -> result B) (a : A) (b : B) (k : nat) :
  f a = Ok b -> for_each f (repeat a k) = Ok (repeat b k).
Proof.
  intros Hf. induction k as [|k IH]; [reflexivity|]. simpl. rewrite Hf. simpl.
  rewrite IH. reflexivity.
Qed.

Lemma inject_nat_succ (n : nat) : inject_Z (Z.of_nat (S n)) == inject_Z (Z.of_nat n) + 1.
Proof. rewrite Nat2Z.inj_succ. unfold Z.succ. rewrite inject_Z_plus. reflexivity. Qed.

Lemma sum_repeat (w : Q) (n : nat) : np.sum (repeat w n) == inject_Z (Z.of_nat n) * w.
Proof.
  induction n as [|n IH].
  - simpl. change (inject_Z (Z.of_nat 0)) with 0. ring.
  - cbn [repeat np.sum fold_right]. fold (np.sum (repeat w n)).
    rewrite IH, inject_nat_succ. ring.
Qed.

Lemma sum_concat_repeat (l : list Q) (k : nat) :
  np.sum (concat (repeat l k)) == inject_Z (Z.of_nat k) * np.sum l.
Proof.
  induction k as [|k IH].
  - simpl. change (inject_Z (Z.of_nat 0)) with 0. ring.
  - cbn [repeat concat]. rewrite sum_app, IH, inject_nat_succ. ring.
Qed.

(** [integrate] of a [Density2D] integrates a constant exactly: on [r] by
    [c] cells, two or more each way, that all hold [w], it returns [w]
    times [(r - 1) * (c - 1)] times the area of a cell. *)
Theorem integrate_constant_2D {V : Type} `{Scipy} (self : Density2D V) (r c : nat) (w : Q) :
  (2 <= r)%nat -> (2 <= c)%nat ->
  exists v : Q,
    Density2D_integrate self (mk_ndarray [r; c] (repeat w (r * c))) = Ok v /\
    v == w * inject_Z (Z.of_nat (r - 1)) * inject_Z (Z.of_nat (c - 1)) * d2_spacing self.
Proof.
  intros Hr Hc.
  destruct r as [|[|r]]; try lia. destruct c as [|[|c]]; try lia.
  set (row := repeat w (S (S c))).
  assert (np.get row 0 = Ok w) as Hrow0 by (apply get_0_ok; reflexivity).
  assert (np.get row (-1) = Ok w) as Hrowl by (apply get_last_ok; apply last_repeat).
  assert (np.get (repeat row (S (S r))) 0 = Ok row) as Hrs0 by (apply get_0_ok; reflexivity).
  assert (np.get (repeat row (S (S r))) (-1) = Ok row) as Hrsl
    by (apply get_last_ok; apply last_repeat).
  eexists. split.
  - unfold Density2D_integrate, np.rows. cbn [shape data].
    rewrite chunks_repeat. fold row. cbn [mbind result_bind].
    unfold np.get2. rewrite Hrs0, Hrsl. cbn [mbind result_bind].
    rewrite Hrow0, Hrowl. cbn [mbind result_bind].
    rewrite (inner_repeat row r).
    rewrite (for_each_repeat (fun r0 => np.get r0 0) row w r Hrow0).
    rewrite (for_each_repeat (fun r0 => np.get r0 (-1)) row w r Hrowl).
    cbn [mbind result_bind]. reflexivity.
  - cbv beta. rewrite map_repeat. unfold row. rewrite !inner_repeat.
    rewrite sum_concat_repeat, !sum_repeat.
    replace (S (S r) - 1)%nat with (S r) by lia.
    replace (S (S c) - 1)%nat with (S c) by lia.
    rewrite !inject_nat_succ. field.
Qed.

Lemma integrate_constant_2D_witness :
  (2 <= 5)%nat /\ (2 <= 5)%nat /\
  exists v : Q,
    Density2D_integrate small_density2D (mk_ndarray [5; 5]%nat (repeat 1 (5 * 5))) = Ok v /\
    v == 1 * inject_Z (Z.of_nat (5 - 1)) * inject_Z (Z.of_nat (5 - 1))
         * d2_spacing small_density2D.
Proof.
  assert (2 <= 5)%nat as H5 by lia.
  split; [exact H5|]. split; [exact H5|].
  exact (integrate_constant_2D (H := constant_splines) small_density2D 5 5 1 H5 H5).
Defined.
